(** * LEAF DSS feasibility engine: a shallow embedding of
      [feasibility.py], [config.py] and the loaders of [data_utils.py].

    Numbers.  The engine computes on pandas [float64] Series.  Matching,
    classification, the statistics and the response turn on the order of
    values and on missing data: there a float is modelled by its exact
    value, a rational extended with the three IEEE specials ([num]), with
    exact arithmetic on finite values (signed zeros are identified, finite
    results are kept in lowest terms, so that equal numbers are equal
    terms).  The scoring loop is embedded a second time as the request
    reaches it ([calculate_feasibility_json]): criteria as the JSON body
    holds them, the [TypeError] of Python where an operand is not a number,
    and the two sums and the quotient in binary64, rounded to nearest, ties
    to even.  The weighted aggregation and the leniency towards incomplete
    criteria are proved of that embedding.

    Tables.  A [GeoDataFrame] is a list of column names and a list of units,
    each a finite map from attribute names to entries; pandas Series over
    the table's index are lists aligned with the units. *)

From Stdlib Require Import QArith Qreduction Ascii String DecimalString.
From stdpp Require Import gmap strings list fin_maps.
From Stdlib Require Import Floats.SpecFloat.

Open Scope string_scope.

(** ** Extended rationals standing for [float64] *)

Inductive num : Type :=
  | Fin (q : Q)
  | PInf
  | NInf
  | NaN.

Definition num_of_Z (z : Z) : num := Fin (inject_Z z).

Definition Qltb (a b : Q) : bool := negb (Qle_bool b a).

(** [pd.isna] / [Series.notna] on a float. *)
Definition isna (x : num) : bool :=
  match x with NaN => true | _ => false end.
Definition notna (x : num) : bool := negb (isna x).

(** [a <= b]; any comparison with NaN is false. *)
Definition num_leb (a b : num) : bool :=
  match a, b with
  | NaN, _ | _, NaN => false
  | NInf, _ => true
  | _, PInf => true
  | Fin x, Fin y => Qle_bool x y
  | _, _ => false
  end.

(** [a < b]. *)
Definition num_ltb (a b : num) : bool :=
  match a, b with
  | NaN, _ | _, NaN => false
  | Fin x, Fin y => Qltb x y
  | NInf, NInf => false
  | PInf, PInf => false
  | NInf, _ => true
  | _, PInf => true
  | _, _ => false
  end.

(** [a >= b] and [a > b] as Python writes them. *)
Definition num_geb (a b : num) : bool := num_leb b a.
Definition num_gtb (a b : num) : bool := num_ltb b a.

Definition num_add (a b : num) : num :=
  match a, b with
  | NaN, _ | _, NaN => NaN
  | PInf, NInf | NInf, PInf => NaN
  | PInf, _ | _, PInf => PInf
  | NInf, _ | _, NInf => NInf
  | Fin x, Fin y => Fin (Qred (x + y))
  end.

(** Sign of a rational as a comparison with 0. *)
Definition Qsgn (x : Q) : comparison := (0 ?= x)%Q.

Definition num_mul (a b : num) : num :=
  match a, b with
  | NaN, _ | _, NaN => NaN
  | Fin x, Fin y => Fin (Qred (x * y))
  | Fin x, PInf | PInf, Fin x =>
      match Qsgn x with Lt => PInf | Gt => NInf | Eq => NaN end
  | Fin x, NInf | NInf, Fin x =>
      match Qsgn x with Lt => NInf | Gt => PInf | Eq => NaN end
  | PInf, PInf | NInf, NInf => PInf
  | PInf, NInf | NInf, PInf => NInf
  end.

Definition num_div (a b : num) : num :=
  match a, b with
  | NaN, _ | _, NaN => NaN
  | Fin x, Fin y =>
      match Qsgn y with
      | Eq => match Qsgn x with Lt => PInf | Gt => NInf | Eq => NaN end
      | _ => Fin (Qred (x / y))
      end
  | Fin _, (PInf | NInf) => Fin 0
  | PInf, Fin y => match Qsgn y with Gt => NInf | _ => PInf end
  | NInf, Fin y => match Qsgn y with Gt => PInf | _ => NInf end
  | (PInf | NInf), (PInf | NInf) => NaN
  end.

Declare Scope num_scope.
Delimit Scope num_scope with num.
Bind Scope num_scope with num.
Infix "+" := num_add : num_scope.
Infix "*" := num_mul : num_scope.
Infix "/" := num_div : num_scope.
Infix "<=?" := num_leb : num_scope.
Infix "<?" := num_ltb : num_scope.
Infix ">=?" := num_geb (at level 70) : num_scope.
Infix ">?" := num_gtb (at level 70) : num_scope.

(** The order of the extended rationals, independent of the boolean tests. *)
Inductive num_le : num -> num -> Prop :=
  | le_fin x y : (x <= y)%Q -> num_le (Fin x) (Fin y)
  | le_ninf b : b <> NaN -> num_le NInf b
  | le_pinf x : num_le (Fin x) PInf
  | le_pinf_pinf : num_le PInf PInf.

Inductive num_lt : num -> num -> Prop :=
  | lt_fin x y : (x < y)%Q -> num_lt (Fin x) (Fin y)
  | lt_ninf_fin y : num_lt NInf (Fin y)
  | lt_ninf_pinf : num_lt NInf PInf
  | lt_fin_pinf x : num_lt (Fin x) PInf.

Notation "a <= b" := (num_le a b) : num_scope.
Notation "a < b" := (num_lt a b) : num_scope.
Notation "a <= b <= c" := (num_le a b /\ num_le b c) : num_scope.
Notation "a <= b < c" := (num_le a b /\ num_lt b c) : num_scope.


(** ** Cells, unit tables and Series

    A unit table ([GeoDataFrame]) has an ordered list of column names and one
    attribute dictionary per unit; a column listed in [columns] whose key a
    unit lacks holds a missing value there.  The [geometry] column takes no
    part in scoring and is not represented.  A float [Series] over the
    table's index is a list with one number per unit. *)

Inductive cell : Type :=
  | CNone                 (* None / a missing entry *)
  | CInt (z : Z)          (* integer attribute *)
  | CFloat (x : num)      (* float attribute, NaN included *)
  | CStr (s : string).    (* text attribute *)

Record GeoDataFrame : Type := mkGdf {
  columns : list string;
  rows : list (gmap string cell)
}.

Definition len (gdf : GeoDataFrame) : nat := length (rows gdf).

Definition cell_at (r : gmap string cell) (column : string) : cell :=
  default CNone (r !! column).

(** [gdf[column]] on a column that exists. *)
Definition get_column (gdf : GeoDataFrame) (column : string) : list cell :=
  map (fun r => cell_at r column) (rows gdf).

(** [column in gdf.columns]. *)
Definition has_column (gdf : GeoDataFrame) (column : string) : bool :=
  bool_decide (column ∈ columns gdf).

(** [gdf[column] = values]: overwrite in place or append a new column. *)
Definition set_column (gdf : GeoDataFrame) (column : string)
    (values : list cell) : GeoDataFrame :=
  {| columns := if has_column gdf column then columns gdf
                else columns gdf ++ [column];
     rows := zip_with (fun r v => <[column := v]> r) (rows gdf) values |}.

(** [gdf[mask]]: keep the units whose row satisfies the mask. *)
Definition select_rows (keep : gmap string cell -> bool)
    (gdf : GeoDataFrame) : GeoDataFrame :=
  {| columns := columns gdf; rows := List.filter keep (rows gdf) |}.

(** A float64 column read back as a Series (a missing entry reads NaN). *)
Definition as_float (c : cell) : num :=
  match c with
  | CFloat x => x
  | CInt z => num_of_Z z
  | CNone | CStr _ => NaN
  end.

Definition float_series (gdf : GeoDataFrame) (column : string) : list num :=
  map as_float (get_column gdf column).

(** [.astype(float)] of a boolean. *)
Definition bool_to_float (b : bool) : num := if b then Fin 1 else Fin 0.

(** ** Criteria

    A criterion is the request dictionary [{column, min_val, max_val,
    weight}], with the alternate keys [field], [range_min], [range_max] of
    an intervention config.  A key that is absent is [None] here; a bound
    that is present may still be JSON null. *)

Inductive json_num : Type :=
  | JNull
  | JNum (x : num).

Record criterion : Type := mkCriterion {
  crit_column : option string;
  crit_field : option string;
  crit_min_val : option json_num;
  crit_range_min : option json_num;
  crit_max_val : option json_num;
  crit_range_max : option json_num;
  crit_weight : option num
}.

(** Truth value of [c.get(key)] for a string key. *)
Definition truthy (s : option string) : bool :=
  match s with
  | Some s => negb (String.eqb s "")
  | None => false
  end.

(** [c.get('column') or c.get('field')]. *)
Definition criterion_column (c : criterion) : option string :=
  if truthy (crit_column c) then crit_column c else crit_field c.

(** [if pd.isna(bound): bound = default] *)
Definition bound_or (default : num) (bound : json_num) : num :=
  match bound with
  | JNull => default
  | JNum x => if isna x then default else x
  end.

(** [c.get('min_val', c.get('range_min', float('-inf')))], with None and
    NaN replaced by [-inf]. *)
Definition criterion_min (c : criterion) : num :=
  let min_val :=
    match crit_min_val c with
    | Some v => v
    | None => match crit_range_min c with Some v => v | None => JNum NInf end
    end in
  bound_or NInf min_val.

(** [c.get('max_val', c.get('range_max', float('inf')))], with None and NaN
    replaced by [inf]. *)
Definition criterion_max (c : criterion) : num :=
  let max_val :=
    match crit_max_val c with
    | Some v => v
    | None => match crit_range_max c with Some v => v | None => JNum PInf end
    end in
  bound_or PInf max_val.

(** [c.get('weight', 1)]. *)
Definition criterion_weight (c : criterion) : num :=
  match crit_weight c with Some w => w | None => Fin 1 end.

(** ** Series reductions, dictionaries and exceptions *)

Definition dropna (s : list num) : list num := List.filter notna s.

Definition series_sum (s : list num) : num := fold_left num_add s (Fin 0).

Definition series_mean (s : list num) : num :=
  (series_sum s / num_of_Z (Z.of_nat (length s)))%num.

Fixpoint insert_sorted (x : num) (s : list num) : list num :=
  match s with
  | [] => [x]
  | y :: s' => if (x <=? y)%num then x :: s else y :: insert_sorted x s'
  end.

Definition sort_values (s : list num) : list num := foldr insert_sorted [] s.

Definition series_median (s : list num) : num :=
  let sorted := sort_values s in
  let n := length sorted in
  if Nat.even n
  then ((nth (n / 2 - 1) sorted NaN + nth (n / 2) sorted NaN) / Fin 2)%num
  else nth (n / 2) sorted NaN.

Definition series_min (s : list num) : num :=
  match s with
  | [] => NaN
  | x :: s' => fold_left (fun m y => if (y <? m)%num then y else m) s' x
  end.

Definition series_max (s : list num) : num :=
  match s with
  | [] => NaN
  | x :: s' => fold_left (fun m y => if (m <? y)%num then y else m) s' x
  end.

(** [int((mask).sum())] *)
Definition count_where (p : num -> bool) (s : list num) : Z :=
  Z.of_nat (length (List.filter p s)).

(** Values of the statistics dictionary. *)
Inductive stat : Type :=
  | SInt (z : Z)
  | SFloat (x : num)
  | SDist (d : gmap string Z).

(** Python dictionaries as ordered association lists with unique keys. *)
Fixpoint dict_set {V : Type} (d : list (string * V)) (k : string) (v : V)
    : list (string * V) :=
  match d with
  | [] => [(k, v)]
  | (k', v') :: d' =>
      if String.eqb k' k then (k', v) :: d' else (k', v') :: dict_set d' k v
  end.

Fixpoint dict_get {V : Type} (d : list (string * V)) (k : string)
    : option V :=
  match d with
  | [] => None
  | (k', v) :: d' => if String.eqb k' k then Some v else dict_get d' k
  end.

Definition dict_keys {V : Type} (d : list (string * V)) : list string :=
  map fst d.

(** Exceptions, and a computation that returns or raises. *)
Inductive exn : Type :=
  | KeyError (key : string)
  | FileNotFoundError (msg : string)
  | ReadError (path : string)
  | TypeError (msg : string)
  | AttributeError (msg : string)
  | OverflowError (msg : string).

Inductive result (A : Type) : Type :=
  | Ok (a : A)
  | Raise (e : exn).
Arguments Ok {A} a.
Arguments Raise {A} e.

Definition bind {A B : Type} (r : result A) (k : A -> result B) : result B :=
  match r with
  | Ok a => k a
  | Raise e => Raise e
  end.

Notation "'let*' x ':=' r 'in' k" := (bind r (fun x => k))
  (at level 10, x name, r at level 100, k at level 200).

(** [gdf[column]] as an access that raises [KeyError] on an absent column. *)
Definition require_column (gdf : GeoDataFrame) (column : string)
    : result unit :=
  if has_column gdf column then Ok tt else Raise (KeyError column).

(** [gdf[column] == value] for a string value, on one entry. *)
Definition cell_eq_str (c : cell) (value : string) : bool :=
  match c with
  | CStr s => String.eqb s value
  | _ => false
  end.

(** [json.loads(gdf.to_json())]: one feature per unit, its properties in
    column order, NaN written as null. *)
Definition json_cell (c : cell) : cell :=
  match c with
  | CFloat x => if isna x then CNone else c
  | _ => c
  end.

Definition to_json (gdf : GeoDataFrame) : list (list (string * cell)) :=
  map (fun r => map (fun column => (column, json_cell (cell_at r column)))
                    (columns gdf))
      (rows gdf).

(** The clean-up loop over [feature['properties']]. *)
Definition clean_properties (props : list (string * cell))
    : list (string * cell) :=
  map (fun kv =>
         match snd kv with
         | CFloat x => if isna x then (fst kv, CNone) else kv
         | _ => kv
         end)
      props.

Record response : Type := mkResponse {
  geojson : list (list (string * cell));
  statistics : list (string * stat)
}.

(** ** config.py *)

Definition FEASIBILITY_COLORS : gmap string string :=
  list_to_map [
    ("very_high", "#1b5e20");
    ("high", "#81c784");
    ("moderate_high", "#c5e1a5");
    ("moderate", "#ffd700");
    ("low", "#ff8c00");
    ("very_low", "#ff0000");
    ("no_data", "#E0E0E0")
  ].

(** [(min, max, class_key, label)] *)
Definition FEASIBILITY_THRESHOLDS : list (num * num * string * string) :=
  [ (Fin 100, Fin 100, "very_high", "100%");
    (Fin 75, Fin (9999 # 100), "high", "75-100%");
    (Fin 50, Fin (7499 # 100), "moderate_high", "50-75%");
    (Fin 25, Fin (4999 # 100), "moderate", "25-50%");
    (Fin 1, Fin (2499 # 100), "low", "1-25%");
    (Fin 0, Fin (99 # 100), "very_low", "0%") ].

(** ** feasibility.py *)

(** The two conversions of pandas the engine relies on and whose text
    formats are not part of this repository. *)
Class Pandas : Type := {
  (** [pd.to_numeric(..., errors='coerce')] on a text entry: the number it
      parses to, NaN when it does not parse *)
  str_to_numeric : string -> num;
  (** [.astype(str)] on a float entry *)
  float_to_str : num -> string
}.

Section Feasibility.

Context `{Pandas}.

Definition to_numeric (c : cell) : num :=
  match c with
  | CNone => NaN
  | CInt z => num_of_Z z
  | CFloat x => x
  | CStr s => str_to_numeric s
  end.

Definition calculate_criteria_match (gdf : GeoDataFrame) (column : string)
    (min_val max_val : num) : list num :=
  if negb (has_column gdf column) then replicate (len gdf) NaN
  else
    let series := map to_numeric (get_column gdf column) in
    map (fun v =>
           if notna v
           then bool_to_float ((v >=? min_val)%num && (v <=? max_val)%num)
           else NaN)
        series.

(** One turn of the loop over the criteria, on the pair
    [(weighted_matches, weighted_applicable)]. *)
Definition criterion_step (gdf : GeoDataFrame)
    (acc : list num * list num) (c : criterion) : list num * list num :=
  let column := criterion_column c in
  let min_val := criterion_min c in
  let max_val := criterion_max c in
  let weight := criterion_weight c in
  match column with
  | None => acc
  | Some column =>
      let m := calculate_criteria_match gdf column min_val max_val in
      (zip_with (fun a x => if notna x then (a + x * weight)%num else a)
                (fst acc) m,
       zip_with (fun a x => if notna x then (a + weight)%num else a)
                (snd acc) m)
  end.

Definition calculate_feasibility (gdf : GeoDataFrame)
    (criteria : list criterion) (logic : string) : list num :=
  match criteria with
  | [] => replicate (len gdf) NaN
  | _ =>
      let weighted_matches := replicate (len gdf) (Fin 0) in
      let weighted_applicable := replicate (len gdf) (Fin 0) in
      let acc := fold_left (criterion_step gdf) criteria
                   (weighted_matches, weighted_applicable) in
      zip_with (fun wm wa =>
                  if (wa >? Fin 0)%num then (wm / wa * Fin 100)%num else NaN)
               (fst acc) (snd acc)
  end.

Definition classify_feasibility (value : num) : string * string :=
  if isna value then ("no_data", "No Data")
  else if (value >=? Fin 100)%num then ("very_high", "100%")
  else if (value >=? Fin 75)%num then ("high", "75-100%")
  else if (value >=? Fin 50)%num then ("moderate_high", "50-75%")
  else if (value >=? Fin 25)%num then ("moderate", "25-50%")
  else if (value >=? Fin 1)%num then ("low", "1-25%")
  else ("very_low", "0%").

Definition get_feasibility_color (value : num) : string :=
  let category := fst (classify_feasibility value) in
  default (default "" (FEASIBILITY_COLORS !! "no_data"))
          (FEASIBILITY_COLORS !! category).

(** [gdf['feasibility_label'].value_counts().to_dict()]: missing entries
    are not counted. *)
Definition as_label (c : cell) : option string :=
  match c with CStr s => Some s | _ => None end.

Definition count_label (d : gmap string Z) (l : option string)
    : gmap string Z :=
  match l with
  | Some s => <[s := (default 0 (d !! s) + 1)%Z]> d
  | None => d
  end.

Definition value_counts (labels : list (option string)) : gmap string Z :=
  fold_left count_label labels ∅.

Definition all_labels : list string :=
  ["100%"; "75-100%"; "50-75%"; "25-50%"; "1-25%"; "0%"; "No Data"].

Definition add_feasibility_to_gdf (gdf : GeoDataFrame)
    (criteria : list criterion) (logic : string) : GeoDataFrame :=
  let gdf := set_column gdf "feasibility"
               (map CFloat (calculate_feasibility gdf criteria logic)) in
  let classifications :=
    map classify_feasibility (float_series gdf "feasibility") in
  let gdf := set_column gdf "feasibility_class"
               (map (fun x => CStr (fst x)) classifications) in
  let gdf := set_column gdf "feasibility_label"
               (map (fun x => CStr (snd x)) classifications) in
  let gdf := set_column gdf "feasibility_color"
               (map (fun v => CStr (get_feasibility_color v))
                    (float_series gdf "feasibility")) in
  gdf.

Definition get_feasibility_distribution (gdf : GeoDataFrame)
    : gmap string Z :=
  if negb (has_column gdf "feasibility_label") then ∅
  else
    let distribution :=
      value_counts (map as_label (get_column gdf "feasibility_label")) in
    fold_left
      (fun distribution label =>
         match distribution !! label with
         | None => <[label := 0%Z]> distribution
         | Some _ => distribution
         end)
      all_labels distribution.

Definition get_feasibility_stats (gdf : GeoDataFrame)
    : list (string * stat) :=
  if negb (has_column gdf "feasibility") then []
  else
    let valid := dropna (float_series gdf "feasibility") in
    let nonempty := Nat.ltb 0 (length valid) in
    [ ("total_blocks", SInt (Z.of_nat (len gdf)));
      ("blocks_with_data", SInt (Z.of_nat (length valid)));
      ("blocks_no_data", SInt (Z.of_nat (len gdf) - Z.of_nat (length valid)));
      ("mean", if nonempty then SFloat (series_mean valid) else SInt 0);
      ("median", if nonempty then SFloat (series_median valid) else SInt 0);
      ("min", if nonempty then SFloat (series_min valid) else SInt 0);
      ("max", if nonempty then SFloat (series_max valid) else SInt 100);
      ("high_feasibility", SInt (count_where (fun v => (v >=? Fin 75)%num) valid));
      ("low_feasibility", SInt (count_where (fun v => (v <? Fin 25)%num) valid)) ].

(** [.astype(str)] on one entry. *)
Definition Z_to_str (z : Z) : string :=
  DecimalString.NilZero.string_of_int (Z.to_int z).

Definition astype_str (c : cell) : string :=
  match c with
  | CStr s => s
  | CInt z => Z_to_str z
  | CFloat x => float_to_str x
  | CNone => "None"
  end.

(** The two masks of the scope filter, on one unit:
    [gdf['Dist_Name'] == district] and
    [gdf['DISTRICT_I'].astype(str) == str(district)]. *)
Definition by_name (district : string) (r : gmap string cell) : bool :=
  cell_eq_str (cell_at r "Dist_Name") district.

Definition by_id (district : string) (r : gmap string cell) : bool :=
  String.eqb (astype_str (cell_at r "DISTRICT_I")) district.

Definition calculate_and_get_geojson (gdf : GeoDataFrame)
    (criteria : list criterion) (logic : string) (district : option string)
    : result response :=
  let gdf_with_feas := add_feasibility_to_gdf gdf criteria logic in
  let* gdf_for_stats :=
    (if truthy district then
       let district := default "" district in
       let* gdf_for_stats :=
         (if has_column gdf_with_feas "Dist_Name"
          then Ok (select_rows (by_name district) gdf_with_feas)
          else let* _ := require_column gdf_with_feas "DISTRICT_I" in
               Ok (select_rows (by_id district) gdf_with_feas)) in
       if Nat.eqb (len gdf_for_stats) 0
          && has_column gdf_with_feas "DISTRICT_I"
       then Ok (select_rows (by_id district) gdf_with_feas)
       else Ok gdf_for_stats
     else Ok gdf_with_feas) in
  let distribution := get_feasibility_distribution gdf_for_stats in
  let stats := get_feasibility_stats gdf_for_stats in
  let geojson := map clean_properties (to_json gdf_with_feas) in
  Ok {| geojson := geojson;
        statistics := dict_set stats "distribution" (SDist distribution) |}.

(** ** The scoring rule, unit by unit

    These definitions state the rule of the specification for one unit [r]
    of a table; the theorems below relate them to the Series computations
    above. *)

(** The match of one unit: 1 or 0 on a number, missing on NaN. *)
Definition match_value (v min_val max_val : num) : num :=
  if notna v
  then bool_to_float ((v >=? min_val)%num && (v <=? max_val)%num)
  else NaN.

(** A criterion is applicable to a unit when it names a column of the table
    and the unit's entry there coerces to a number. *)
Definition applicable (gdf : GeoDataFrame) (r : gmap string cell)
    (c : criterion) : bool :=
  match criterion_column c with
  | Some column =>
      has_column gdf column && notna (to_numeric (cell_at r column))
  | None => false
  end.

(** 1 if [min <= value <= max], else 0. *)
Definition criterion_match (r : gmap string cell) (c : criterion) : num :=
  match criterion_column c with
  | Some column =>
      let v := to_numeric (cell_at r column) in
      bool_to_float ((criterion_min c <=? v)%num && (v <=? criterion_max c)%num)
  | None => Fin 0
  end.

(** The sum of a list of numbers. *)
Definition total (l : list num) : num := foldr num_add (Fin 0) l.

(** A weight is a non-negative real. *)
Definition nonneg (a : num) : Prop :=
  match a with Fin q => (0 <= q)%Q | _ => False end.

(** One turn of the loop of [calculate_feasibility] seen at one unit, on
    the pair of its two running sums. *)
Definition unit_step (gdf : GeoDataFrame) (r : gmap string cell)
    (acc : num * num) (c : criterion) : num * num :=
  match criterion_column c with
  | None => acc
  | Some column =>
      let m :=
        if has_column gdf column
        then match_value (to_numeric (cell_at r column))
               (criterion_min c) (criterion_max c)
        else NaN in
      if notna m
      then ((fst acc + m * criterion_weight c)%num,
            (snd acc + criterion_weight c)%num)
      else acc
  end.

(** The number of entries of a label Series that carry a given label. *)
Fixpoint occurrences (s : string) (labels : list (option string)) : Z :=
  match labels with
  | [] => 0
  | Some s' :: labels' =>
      ((if String.eqb s' s then 1 else 0) + occurrences s labels')%Z
  | None :: labels' => occurrences s labels'
  end.

(** The rows of a scored table: each unit with its four derived entries. *)
Definition scored_unit (r : gmap string cell) (score : num)
    : gmap string cell :=
  <["feasibility_color" := CStr (get_feasibility_color score)]>
    (<["feasibility_label" := CStr (snd (classify_feasibility score))]>
       (<["feasibility_class" := CStr (fst (classify_feasibility score))]>
          (<["feasibility" := CFloat score]> r))).

(** The statistics dictionary of the response for the units in scope. *)
Definition statistics_of (table : GeoDataFrame) : list (string * stat) :=
  dict_set (get_feasibility_stats table) "distribution"
    (SDist (get_feasibility_distribution table)).

(** The score a unit of a scored table carries. *)
Definition unit_score (r : gmap string cell) : num :=
  as_float (cell_at r "feasibility").

(** The number of units of a table whose score passes a test. *)
Definition count_units (p : num -> bool) (table : GeoDataFrame) : Z :=
  Z.of_nat (length (List.filter (fun r => p (unit_score r)) (rows table))).

(** The units the statistics cover: all units of the scored table without a
    scope; with a scope the units matching it by name when the table has
    [Dist_Name], replaced by those matching it by identifier when no unit
    matches by name and the table has [DISTRICT_I]; the units matching by
    identifier when the table has no [Dist_Name]. *)
Definition units_in_scope (scored : GeoDataFrame) (district : option string)
    : GeoDataFrame :=
  if truthy district then
    let d := default "" district in
    if has_column scored "Dist_Name" then
      if Nat.eqb (len (select_rows (by_name d) scored)) 0
         && has_column scored "DISTRICT_I"
      then select_rows (by_id d) scored
      else select_rows (by_name d) scored
    else select_rows (by_id d) scored
  else scored.

(** The number of units of a table that carry a given label. *)
Definition count_labelled (label : string) (table : GeoDataFrame) : Z :=
  Z.of_nat
    (length
       (List.filter
          (fun r => cell_eq_str (cell_at r "feasibility_label") label)
          (rows table))).

(** A number that is zero. *)
Definition is_zero (a : num) : Prop :=
  match a with Fin q => (q == 0)%Q | _ => False end.

(** A label Series whose every entry is one of the seven bucket labels. *)
Definition bucket_labels (labels : list (option string)) : Prop :=
  Forall (fun o => exists s, o = Some s /\ s ∈ all_labels) labels.

(** The four columns [add_feasibility_to_gdf] writes. *)
Definition derived_columns : list string :=
  ["feasibility"; "feasibility_class"; "feasibility_label";
   "feasibility_color"].

End Feasibility.

(** ** data_utils.py: the loaders

    The data directory is given by which paths exist and by what the readers
    return on a path that exists.  Reprojection and simplification act on
    the geometry alone.  The spreadsheet clean-up of [load_gp_data] and the
    joins of [load_gp_shapefile] are pandas pipelines on which nothing below
    depends; they are taken as they come, each free to raise.  [lru_cache]
    only memoises a function of the (static) data directory. *)

Class DataDir : Type := {
  path_exists : string -> bool;
  (** [gpd.read_file], [pd.read_excel], [pd.read_csv] on a path that
      exists: the table read, or [None] when the reader rejects the file *)
  read_path : string -> option GeoDataFrame;
  (** the steps of [load_gp_data] between the read and the look-up of
      [Vill_Gp_join.csv]: header row, column names, dropped columns *)
  clean_gp_data : GeoDataFrame -> result GeoDataFrame;
  (** its last steps: the GP codes from the optional [Vill_Gp_join.csv]
      table, then the numeric conversion *)
  code_gp_data : GeoDataFrame -> option GeoDataFrame -> result GeoDataFrame;
  (** the left join of [load_gp_shapefile] with the optional indicator
      table, district name attached *)
  merge_gp_data : GeoDataFrame -> option GeoDataFrame -> result GeoDataFrame;
  (** the [Block_Name] column from the GP-to-block mapping *)
  attach_block_names :
    GeoDataFrame -> list (string * string) -> result GeoDataFrame;
  (** the rows of [Block_GPs.xlsx] turned into the GP-to-block mapping *)
  gp_block_rows : GeoDataFrame -> list (string * string)
}.

Definition DATA_DIR : string := "data".

Definition path_join (dir name : string) : string := dir ++ "/" ++ name.

(** [str.strip()] on ASCII white space. *)
Definition is_space (a : ascii) : bool :=
  let n := nat_of_ascii a in
  ((9 <=? n)%nat && (n <=? 13)%nat) || ((28 <=? n)%nat && (n <=? 32)%nat).

Fixpoint lstrip (s : string) : string :=
  match s with
  | String a s' => if is_space a then lstrip s' else s
  | EmptyString => EmptyString
  end.

Definition str_rev (s : string) : string :=
  string_of_list_ascii (rev (list_ascii_of_string s)).

Definition strip (s : string) : string :=
  str_rev (lstrip (str_rev (lstrip s))).

(** [gdf.columns = [col.strip() for col in gdf.columns]] *)
Definition strip_columns (gdf : GeoDataFrame) : GeoDataFrame :=
  {| columns := map strip (columns gdf);
     rows := map (kmap strip) (rows gdf) |}.

(** Equality of two entries as dictionary keys. *)
Definition cell_eqb (a b : cell) : bool :=
  match a, b with
  | CNone, CNone => true
  | CInt x, CInt y => Z.eqb x y
  | CStr x, CStr y => String.eqb x y
  | CFloat (Fin x), CFloat (Fin y) => Qeq_bool x y
  | CFloat PInf, CFloat PInf | CFloat NInf, CFloat NInf => true
  | CInt x, CFloat (Fin y) | CFloat (Fin y), CInt x =>
      Qeq_bool (inject_Z x) y
  | _, _ => false
  end.

(** [dict(zip(keys, values))]: a later pair replaces an earlier one with an
    equal key. *)
Fixpoint mapping_set (d : list (cell * cell)) (k v : cell)
    : list (cell * cell) :=
  match d with
  | [] => [(k, v)]
  | (k', v') :: d' =>
      if cell_eqb k' k then (k', v) :: d' else (k', v') :: mapping_set d' k v
  end.

Definition dict_zip (keys values : list cell) : list (cell * cell) :=
  fold_left (fun d kv => mapping_set d (fst kv) (snd kv))
            (zip keys values) [].

(** [Series.map(mapping)]: an entry without an image becomes NaN. *)
Fixpoint mapping_get (d : list (cell * cell)) (k : cell) : cell :=
  match d with
  | [] => CFloat NaN
  | (k', v) :: d' => if cell_eqb k' k then v else mapping_get d' k
  end.

Section Loaders.

Context `{DataDir}.

Definition read_file (path : string) : result GeoDataFrame :=
  match read_path path with
  | Some gdf => Ok gdf
  | None => Raise (ReadError path)
  end.

Definition load_district_mapping : result (list (cell * cell)) :=
  let block_assam_path := path_join DATA_DIR "Block_assam.shp" in
  if negb (path_exists block_assam_path) then Ok []
  else
    let* block_assam := read_file block_assam_path in
    let* _ := require_column block_assam "DISTRICT_I" in
    let* _ := require_column block_assam "Dist_name" in
    Ok (dict_zip (get_column block_assam "DISTRICT_I")
                 (get_column block_assam "Dist_name")).

Definition load_shapefile : result GeoDataFrame :=
  let shapefile_path := path_join DATA_DIR "4DSS_VAR_2.0.shp" in
  if negb (path_exists shapefile_path)
  then Raise (FileNotFoundError ("Shapefile not found at " ++ shapefile_path))
  else
    let* gdf := read_file shapefile_path in
    let gdf := strip_columns gdf in
    let* district_mapping := load_district_mapping in
    let gdf :=
      match district_mapping with
      | [] => gdf
      | _ =>
          if has_column gdf "DISTRICT_I"
          then set_column gdf "Dist_Name"
                 (map (mapping_get district_mapping)
                      (get_column gdf "DISTRICT_I"))
          else gdf
      end in
    Ok gdf.

Definition load_gp_block_mapping : result (list (string * string)) :=
  let excel_path := path_join DATA_DIR "Block_GPs.xlsx" in
  if negb (path_exists excel_path) then Ok []
  else
    let* df := read_file excel_path in
    let df := strip_columns df in
    if has_column df "BLOCK NAME" && has_column df "GP NAME"
    then Ok (gp_block_rows df)
    else Ok [].

(** [None] is the "unavailable" value. *)
Definition load_gp_data : result (option GeoDataFrame) :=
  let excel_path := path_join DATA_DIR "Tinsukia_GP_data.xlsx" in
  if negb (path_exists excel_path) then Ok None
  else
    let* df := read_file excel_path in
    let* df := clean_gp_data df in
    let mapping_path := path_join DATA_DIR "Vill_Gp_join.csv" in
    let* vgj := (if path_exists mapping_path
                 then let* v := read_file mapping_path in Ok (Some v)
                 else Ok None) in
    let* df := code_gp_data df vgj in
    Ok (Some df).

Definition load_gp_shapefile : result (option GeoDataFrame) :=
  let shapefile_path := path_join DATA_DIR "grampanchayat.shp" in
  if negb (path_exists shapefile_path) then Ok None
  else
    let* gdf := read_file shapefile_path in
    let gdf := strip_columns gdf in
    let* _ := require_column gdf "GP_CODE" in
    let* gp_data := load_gp_data in
    let* gdf := merge_gp_data gdf gp_data in
    let* gp_block_mapping := load_gp_block_mapping in
    let* gdf := attach_block_names gdf gp_block_mapping in
    Ok (Some gdf).

End Loaders.

(** * Scoring as the request reaches it

    [calculate_feasibility] above takes criteria typed as the request
    schema has them, and it adds exactly.  The code is handed whatever the
    JSON body of the request holds, and its Series are [float64].  This part
    embeds the same function at that level: a bound or a weight is any JSON
    scalar, a comparison or a product that Python refuses raises
    [TypeError], and the two running sums and the final ratio are computed
    in binary64, rounding to nearest, ties to even. *)

(** ** binary64 *)

Definition f64 : Type := spec_float.
Definition prec : Z := 53.
Definition emax : Z := 1024.

Definition f64_add : f64 -> f64 -> f64 := SFadd prec emax.
Definition f64_mul : f64 -> f64 -> f64 := SFmul prec emax.
Definition f64_div : f64 -> f64 -> f64 := SFdiv prec emax.
(** [a > b]. *)
Definition f64_gtb (a b : f64) : bool := SFltb b a.

Definition f64_zero : f64 := S754_zero false.
Definition f64_nan : f64 := S754_nan.
Definition f64_one : f64 := S754_finite false 4503599627370496 (-52).
Definition f64_hundred : f64 := S754_finite false 7036874417766400 (-46).

(** The double nearest to a rational: what reading a JSON number, or
    converting a Python integer, gives. *)
Definition f64_of_Q (q : Q) : f64 :=
  match Qnum q with
  | Z0 => f64_zero
  | Zpos n => f64_div (S754_finite false n 0) (S754_finite false (Qden q) 0)
  | Zneg n => f64_div (S754_finite true n 0) (S754_finite false (Qden q) 0)
  end.

Definition f64_of_num (a : num) : f64 :=
  match a with
  | Fin q => f64_of_Q q
  | PInf => S754_infinity false
  | NInf => S754_infinity true
  | NaN => S754_nan
  end.

(** The value of a double: the exact number that classification and the
    statistics read. *)
Definition f64_value (x : f64) : num :=
  match x with
  | S754_zero _ => Fin 0
  | S754_infinity false => PInf
  | S754_infinity true => NInf
  | S754_nan => NaN
  | S754_finite s m e =>
      Fin (Qred ((if s then -1 else 1) * inject_Z (Zpos m) * 2 ^ e))
  end.

(** ** The criteria of a request *)

(** A JSON scalar as Python holds it: [None], a number or a string.  The
    number is the value of the Python float or integer; [True] and [False]
    are the integers 1 and 0 to every operation below. *)
Inductive json_scalar : Type :=
  | JsNull
  | JsNumber (x : num)
  | JsText (s : string).

(** A finite number beyond the range of a double.  A float never is one
    (the JSON parser has already made it [inf]); it is a Python integer,
    which numpy cannot convert. *)
Definition too_large (x : num) : bool :=
  match x with
  | Fin q =>
      match f64_of_Q q with S754_infinity _ => true | _ => false end
  | _ => false
  end.

(** One element of [filters]: a dictionary in which each key is absent
    ([None]) or holds a value; a column name that is null reads as
    absent. *)
Record request_criterion : Type := mkRequestCriterion {
  rq_column : option string;
  rq_field : option string;
  rq_min_val : option json_scalar;
  rq_range_min : option json_scalar;
  rq_max_val : option json_scalar;
  rq_range_max : option json_scalar;
  rq_weight : option json_scalar
}.

(** [pd.isna] of a scalar. *)
Definition json_isna (v : json_scalar) : bool :=
  match v with
  | JsNull => true
  | JsNumber x => isna x
  | JsText _ => false
  end.

(** [c.get('column') or c.get('field')]. *)
Definition request_column (c : request_criterion) : option string :=
  if truthy (rq_column c) then rq_column c else rq_field c.

(** [c.get('min_val', c.get('range_min', float('-inf')))] after
    [if pd.isna(min_val): min_val = float('-inf')]. *)
Definition request_min (c : request_criterion) : json_scalar :=
  let min_val :=
    match rq_min_val c with
    | Some v => v
    | None =>
        match rq_range_min c with Some v => v | None => JsNumber NInf end
    end in
  if json_isna min_val then JsNumber NInf else min_val.

Definition request_max (c : request_criterion) : json_scalar :=
  let max_val :=
    match rq_max_val c with
    | Some v => v
    | None =>
        match rq_range_max c with Some v => v | None => JsNumber PInf end
    end in
  if json_isna max_val then JsNumber PInf else max_val.

(** [c.get('weight', 1)]. *)
Definition request_weight (c : request_criterion) : json_scalar :=
  match rq_weight c with Some v => v | None => JsNumber (Fin 1) end.

Section RequestScoring.

Context `{Pandas}.

(** [calculate_criteria_match] on bounds that are any scalar.  Ordering a
    float Series against text is refused by pandas whatever the Series
    holds; against [None] every comparison is false. *)
Definition calculate_criteria_match_json (gdf : GeoDataFrame)
    (column : string) (min_val max_val : json_scalar) : result (list num) :=
  if negb (has_column gdf column) then Ok (replicate (len gdf) NaN)
  else
    match min_val, max_val with
    | JsText _, _ | _, JsText _ =>
        Raise (TypeError "Invalid comparison between dtype=float64 and str")
    | JsNumber lo, JsNumber hi =>
        Ok (calculate_criteria_match gdf column lo hi)
    | _, _ =>
        Ok (map (fun v => if notna v then Fin 0 else NaN)
                (map to_numeric (get_column gdf column)))
    end.

(** One turn of the loop over the criteria, on the pair
    [(weighted_matches, weighted_applicable)] of [float64] Series.  A weight
    that is text cannot multiply a float array, nor can an integer too
    large for a double; a weight that is [None] cannot multiply a float,
    which shows as soon as the criterion has a match to multiply. *)
Definition criterion_step_json (gdf : GeoDataFrame)
    (acc : list f64 * list f64) (c : request_criterion)
    : result (list f64 * list f64) :=
  let column := request_column c in
  let min_val := request_min c in
  let max_val := request_max c in
  let weight := request_weight c in
  match column with
  | None => Ok acc
  | Some column =>
      let* m := calculate_criteria_match_json gdf column min_val max_val in
      match weight with
      | JsNumber w =>
          if too_large w
          then Raise (OverflowError "int too large to convert to float")
          else
            Ok (zip_with
                  (fun a x =>
                     if notna x
                     then f64_add a (f64_mul (f64_of_num x) (f64_of_num w))
                     else a)
                  (fst acc) m,
                zip_with
                  (fun a x => if notna x then f64_add a (f64_of_num w) else a)
                  (snd acc) m)
      | JsNull =>
          if existsb notna m
          then Raise (TypeError
                  "unsupported operand type(s) for *: 'float' and 'NoneType'")
          else Ok acc
      | JsText _ =>
          Raise (TypeError "ufunc 'multiply' did not contain a loop with signature matching types")
      end
  end.

(** The loop: the first criterion that raises ends it. *)
Fixpoint score_criteria (gdf : GeoDataFrame)
    (criteria : list request_criterion) (acc : list f64 * list f64)
    : result (list f64 * list f64) :=
  match criteria with
  | [] => Ok acc
  | c :: criteria' =>
      let* acc := criterion_step_json gdf acc c in
      score_criteria gdf criteria' acc
  end.

Definition calculate_feasibility_json (gdf : GeoDataFrame)
    (criteria : list request_criterion) (logic : string)
    : result (list f64) :=
  match criteria with
  | [] => Ok (replicate (len gdf) f64_nan)
  | _ =>
      let weighted_matches := replicate (len gdf) f64_zero in
      let weighted_applicable := replicate (len gdf) f64_zero in
      let* acc := score_criteria gdf criteria
                    (weighted_matches, weighted_applicable) in
      Ok (zip_with
            (fun wm wa =>
               if f64_gtb wa f64_zero
               then f64_mul (f64_div wm wa) f64_hundred
               else f64_nan)
            (fst acc) (snd acc))
  end.

(** ** The scoring rule of the specification, in binary64 *)

(** The bound a criterion states: [min_val] where that key is present,
    [range_min] otherwise; likewise for the max bound. *)
Definition stated_min (c : request_criterion) : option json_scalar :=
  match rq_min_val c with Some v => Some v | None => rq_range_min c end.

Definition stated_max (c : request_criterion) : option json_scalar :=
  match rq_max_val c with Some v => Some v | None => rq_range_max c end.

(** A bound is missing when it is absent or null; a number that is NaN
    counts as null. *)
Definition missing (b : option json_scalar) : bool :=
  match b with
  | None | Some JsNull => true
  | Some (JsNumber x) => isna x
  | Some (JsText _) => false
  end.

(** The bound as a number, [unbounded] when it is missing. *)
Definition bound (b : option json_scalar) (unbounded : num) : num :=
  match b with
  | Some (JsNumber x) => if isna x then unbounded else x
  | _ => unbounded
  end.

(** A missing min bound is [-inf], a missing max bound is [+inf]. *)
Definition lower_bound (c : request_criterion) : num :=
  bound (stated_min c) NInf.

Definition upper_bound (c : request_criterion) : num :=
  bound (stated_max c) PInf.

Definition is_text (b : option json_scalar) : bool :=
  match b with Some (JsText _) => true | _ => false end.

(** A criterion whose bounds are numbers, null or absent and whose weight is
    absent or a number that a double holds. *)
Definition well_formed (c : request_criterion) : bool :=
  negb (is_text (stated_min c)) && negb (is_text (stated_max c))
  && match rq_weight c with
     | None => true
     | Some (JsNumber w) => negb (too_large w)
     | Some _ => false
     end.

(** The criterion names a column of the table and the unit's entry there
    coerces to a number. *)
Definition request_applicable (gdf : GeoDataFrame) (r : gmap string cell)
    (c : request_criterion) : bool :=
  match request_column c with
  | Some column =>
      has_column gdf column && notna (to_numeric (cell_at r column))
  | None => false
  end.

(** [min <= value <= max]. *)
Definition request_match (r : gmap string cell) (c : request_criterion)
    : bool :=
  match request_column c with
  | Some column =>
      let v := to_numeric (cell_at r column) in
      (lower_bound c <=? v)%num && (v <=? upper_bound c)%num
  | None => false
  end.

(** The weight as a double, 1.0 when the criterion states none. *)
Definition weight64 (c : request_criterion) : f64 :=
  match rq_weight c with
  | None => f64_one
  | Some (JsNumber w) => f64_of_num w
  | Some _ => f64_nan
  end.

(** A match, 1.0 or 0.0. *)
Definition bool64 (b : bool) : f64 := if b then f64_one else f64_zero.

(** A sum taken from 0.0 in the order of the list. *)
Definition sum64 (l : list f64) : f64 := fold_left f64_add l f64_zero.

(** [100 × (Σ weight·match) / (Σ weight)] over the applicable criteria, in
    their order; [0.0 / 0.0] is NaN. *)
Definition weighted_ratio64 (gdf : GeoDataFrame) (r : gmap string cell)
    (criteria : list request_criterion) : f64 :=
  let app := List.filter (request_applicable gdf r) criteria in
  f64_mul f64_hundred
    (f64_div
       (sum64 (map (fun c => f64_mul (weight64 c) (bool64 (request_match r c)))
                   app))
       (sum64 (map weight64 app))).

(** The score of a unit: the weighted ratio where the weights of the
    applicable criteria sum to more than zero, undefined elsewhere. *)
Definition unit_score64 (gdf : GeoDataFrame) (r : gmap string cell)
    (criteria : list request_criterion) : f64 :=
  let app := List.filter (request_applicable gdf r) criteria in
  if f64_gtb (sum64 (map weight64 app)) f64_zero
  then weighted_ratio64 gdf r criteria
  else f64_nan.

(** A weight that is a non-negative real: the double 0.0 or a positive
    finite double. *)
Definition nonneg64 (w : f64) : Prop :=
  match w with
  | S754_zero false => True
  | S754_finite false _ _ => valid_binary prec emax w = true
  | _ => False
  end.

End RequestScoring.

(** * Sample data *)

(** A coercion that reads decimal integers, and a float printer for whole
    numbers. *)
Definition sample_pandas : Pandas := {|
  str_to_numeric s :=
    match NilEmpty.int_of_string s with
    | Some d => num_of_Z (Z.of_int d)
    | None => NaN
    end;
  float_to_str x :=
    match x with
    | Fin q => Z_to_str (Qnum q / Z.pos (Qden q)) ++ ".0"
    | PInf => "inf"
    | NInf => "-inf"
    | NaN => "nan"
    end
|}.

Definition unit_row (l : list (string * cell)) : gmap string cell :=
  list_to_map l.

Definition sample_unit1 : gmap string cell :=
  unit_row [("id", CInt 1); ("AD", CInt 40); ("BF", CFloat (Fin 5));
            ("Dist_Name", CStr "Tinsukia"); ("DISTRICT_I", CInt 134)].
Definition sample_unit2 : gmap string cell :=
  unit_row [("id", CInt 2); ("AD", CInt 80); ("BF", CFloat (Fin 5));
            ("Dist_Name", CStr "Dibrugarh"); ("DISTRICT_I", CInt 135)].
Definition sample_unit3 : gmap string cell :=
  unit_row [("id", CInt 3); ("AD", CStr "n/a");
            ("Dist_Name", CStr "Dibrugarh"); ("DISTRICT_I", CInt 135)].

Definition sample_gdf : GeoDataFrame :=
  {| columns := ["id"; "AD"; "BF"; "Dist_Name"; "DISTRICT_I"];
     rows := [sample_unit1; sample_unit2; sample_unit3] |}.

(** [{column, min_val, max_val, weight}] *)
Definition sample_criterion (column : string) (min_val max_val weight : Q)
    : criterion :=
  {| crit_column := Some column; crit_field := None;
     crit_min_val := Some (JNum (Fin min_val)); crit_range_min := None;
     crit_max_val := Some (JNum (Fin max_val)); crit_range_max := None;
     crit_weight := Some (Fin weight) |}.

(** A table without any region column. *)
Definition bare_gdf : GeoDataFrame :=
  {| columns := ["id"; "AD"];
     rows := [unit_row [("id", CInt 1); ("AD", CInt 40)];
              unit_row [("id", CInt 2); ("AD", CInt 80)]] |}.

(** A data directory with no file in it. *)
Definition empty_data_dir : DataDir := {|
  path_exists _ := false;
  read_path _ := None;
  clean_gp_data df := Ok df;
  code_gp_data df _ := Ok df;
  merge_gp_data gdf _ := Ok gdf;
  attach_block_names gdf _ := Ok gdf;
  gp_block_rows _ := []
|}.

(** The response for the sample table scoped to the district "Tinsukia". *)
Definition sample_response : response :=
  match @calculate_and_get_geojson sample_pandas sample_gdf
          [sample_criterion "AD" 20 60 1] "AND" (Some "Tinsukia") with
  | Ok resp => resp
  | Raise _ => {| geojson := []; statistics := [] |}
  end.

(** The metadata table: two rows of one cluster, padded differently, a
    placeholder row and a row without a cluster. *)
Definition sample_metadata : GeoDataFrame :=
  {| columns := ["Cluster"; "variable"; "group"];
     rows := [unit_row [("Cluster", CStr "Organic Farming ");
                        ("variable", CStr "AD"); ("group", CStr " Soil ")];
              unit_row [("Cluster", CStr " Organic Farming");
                        ("variable", CStr "BF"); ("group", CStr "Water")];
              unit_row [("Cluster", CStr "New interventions (to add)");
                        ("variable", CStr "Z")];
              unit_row [("variable", CStr "AC"); ("group", CStr "Soil")]] |}.

(** A data directory that holds the metadata CSV and nothing else. *)
Definition metadata_data_dir : DataDir := {|
  path_exists p := String.eqb p "data/DSS_input2.csv";
  read_path p :=
    if String.eqb p "data/DSS_input2.csv" then Some sample_metadata else None;
  clean_gp_data df := Ok df;
  code_gp_data df _ := Ok df;
  merge_gp_data gdf _ := Ok gdf;
  attach_block_names gdf _ := Ok gdf;
  gp_block_rows _ := []
|}.


(** [{column, min_val, max_val, weight}] as a request states it. *)
Definition sample_request (column : string) (min_val max_val weight : Q)
    : request_criterion :=
  {| rq_column := Some column; rq_field := None;
     rq_min_val := Some (JsNumber (Fin min_val)); rq_range_min := None;
     rq_max_val := Some (JsNumber (Fin max_val)); rq_range_max := None;
     rq_weight := Some (JsNumber (Fin weight)) |}.

(** [{column}]: no bound and no weight. *)
Definition open_request (column : string) : request_criterion :=
  {| rq_column := Some column; rq_field := None;
     rq_min_val := None; rq_range_min := None;
     rq_max_val := None; rq_range_max := None;
     rq_weight := None |}.

(** [{column: "AD", min_val: "20", max_val: 60}]: a min bound sent as
    text. *)
Definition text_bound_request : request_criterion :=
  {| rq_column := Some "AD"; rq_field := None;
     rq_min_val := Some (JsText "20"); rq_range_min := None;
     rq_max_val := Some (JsNumber (Fin 60)); rq_range_max := None;
     rq_weight := None |}.

(** [{column: "AD", min_val: 20, max_val: 60, weight: null}]. *)
Definition null_weight_request : request_criterion :=
  {| rq_column := Some "AD"; rq_field := None;
     rq_min_val := Some (JsNumber (Fin 20)); rq_range_min := None;
     rq_max_val := Some (JsNumber (Fin 60)); rq_range_max := None;
     rq_weight := Some JsNull |}.

(** * Properties *)

(** ** The order on numbers and its boolean tests *)

Lemma Qltb_lt (x y : Q) : Qltb x y = true <-> (x < y)%Q.
Proof.
  unfold Qltb. rewrite negb_true_iff. split.
  - intros E. apply Qnot_le_lt. intros L. apply Qle_bool_iff in L. congruence.
  - intros L. destruct (Qle_bool y x) eqn:E; [|reflexivity].
    apply Qle_bool_iff in E. exfalso. exact (Qlt_not_le _ _ L E).
Qed.

Lemma num_leb_le (a b : num) : num_leb a b = true <-> num_le a b.
Proof.
  split.
  - destruct a, b; simpl; try discriminate; intros E;
      try (constructor; first [by apply Qle_bool_iff | discriminate]).
  - destruct 1 as [x y L|b Hb|x|]; simpl; try reflexivity.
    + by apply Qle_bool_iff.
    + by destruct b.
Qed.

Lemma num_ltb_lt (a b : num) : num_ltb a b = true <-> num_lt a b.
Proof.
  split.
  - destruct a, b; simpl; try discriminate; intros E;
      constructor; by apply Qltb_lt.
  - destruct 1; simpl; try reflexivity. by apply Qltb_lt.
Qed.

Lemma num_lt_leb_false (a b : num) : num_lt a b -> num_leb b a = false.
Proof.
  destruct 1 as [x y L| | |]; simpl; try reflexivity.
  destruct (Qle_bool y x) eqn:E; [|reflexivity].
  apply Qle_bool_iff in E. exfalso. exact (Qlt_not_le _ _ L E).
Qed.

Lemma num_le_notna_l (a b : num) : num_le a b -> a <> NaN.
Proof. by destruct 1. Qed.

Lemma num_le_notna_r (a b : num) : num_le a b -> b <> NaN.
Proof. by destruct 1. Qed.

Lemma num_lt_notna_l (a b : num) : num_lt a b -> a <> NaN.
Proof. by destruct 1. Qed.

Lemma num_le_refl (a : num) : a <> NaN -> num_le a a.
Proof.
  destruct a; intros Ha; try congruence; constructor;
    first [apply Qle_refl | discriminate].
Qed.

Lemma num_le_trans (a b c : num) : num_le a b -> num_le b c -> num_le a c.
Proof.
  intros Hab Hbc.
  destruct Hab as [x y L|b Hb|x|].
  - inversion Hbc; subst; constructor. by eapply Qle_trans.
  - constructor. by eapply num_le_notna_r.
  - inversion Hbc; subst. constructor.
  - exact Hbc.
Qed.

Lemma num_lt_le_trans (a b c : num) : num_lt a b -> num_le b c -> num_lt a c.
Proof.
  intros Hab Hbc.
  destruct Hab as [x y L|y| |x]; inversion Hbc; subst; constructor.
  by eapply Qlt_le_trans.
Qed.

Lemma isna_false (a : num) : a <> NaN -> isna a = false.
Proof. by destruct a. Qed.

Lemma isna_true (a : num) : isna a = true <-> a = NaN.
Proof. destruct a; simpl; split; congruence. Qed.

Lemma notna_true (a : num) : notna a = true <-> a <> NaN.
Proof.
  unfold notna. destruct a; simpl; split; congruence.
Qed.

(** ** Arithmetic on numbers *)

Lemma num_add_comm (a b : num) : (a + b)%num = (b + a)%num.
Proof.
  destruct a, b; simpl; try reflexivity.
  f_equal. apply Qred_complete. ring.
Qed.

Lemma num_add_assoc (a b c : num) : (a + (b + c))%num = (a + b + c)%num.
Proof.
  destruct a, b, c; simpl; try reflexivity.
  f_equal. apply Qred_complete. rewrite !Qred_correct. ring.
Qed.

Lemma num_mul_comm (a b : num) : (a * b)%num = (b * a)%num.
Proof.
  destruct a, b; simpl; try reflexivity.
  f_equal. apply Qred_complete. ring.
Qed.

Lemma fold_left_add_total (l : list num) :
  fold_left num_add l (Fin 0) = total l.
Proof.
  unfold total. apply fold_symmetric.
  - intros x y z. apply num_add_assoc.
  - intros y. apply num_add_comm.
Qed.

Lemma is_zero_mul_bool (w : num) (b : bool) :
  is_zero w -> is_zero (w * bool_to_float b)%num.
Proof.
  destruct w, b; simpl; try tauto; intros E; rewrite Qred_correct, E; ring.
Qed.

Section Properties.

Context `{Pandas}.

(** ** Matching one criterion *)

Lemma calculate_criteria_match_length gdf column min_val max_val :
  length (calculate_criteria_match gdf column min_val max_val) = len gdf.
Proof.
  unfold calculate_criteria_match, get_column, len.
  destruct (has_column gdf column); simpl.
  - by rewrite !length_map.
  - by rewrite length_replicate.
Qed.

Lemma calculate_criteria_match_lookup gdf column min_val max_val i r :
  rows gdf !! i = Some r ->
  calculate_criteria_match gdf column min_val max_val !! i =
    Some (if has_column gdf column
          then match_value (to_numeric (cell_at r column)) min_val max_val
          else NaN).
Proof.
  intros Hr. unfold calculate_criteria_match, get_column.
  destruct (has_column gdf column); simpl.
  - rewrite !list_lookup_fmap, Hr. reflexivity.
  - apply lookup_replicate_2. apply lookup_lt_Some in Hr. exact Hr.
Qed.

Lemma match_value_one v min_val max_val :
  match_value v min_val max_val = Fin 1 <-> (min_val <= v <= max_val)%num.
Proof.
  unfold match_value, num_geb. split.
  - destruct (notna v); [|discriminate].
    destruct (num_leb min_val v) eqn:E1, (num_leb v max_val) eqn:E2;
      simpl; try discriminate.
    intros _. split; by apply num_leb_le.
  - intros [L1 L2].
    assert (notna v = true) as -> by (apply notna_true; eapply num_le_notna_l; eauto).
    apply num_leb_le in L1, L2. by rewrite L1, L2.
Qed.

Lemma match_value_zero v min_val max_val :
  v <> NaN -> ~ (min_val <= v <= max_val)%num ->
  match_value v min_val max_val = Fin 0.
Proof.
  intros Hv Hn. unfold match_value, num_geb.
  apply notna_true in Hv. rewrite Hv.
  destruct (num_leb min_val v) eqn:E1, (num_leb v max_val) eqn:E2;
    simpl; try reflexivity.
  exfalso. apply Hn. split; by apply num_leb_le.
Qed.

(** C3.  For a unit [r] at position [i] of the table and a criterion
    (column, min, max): when the column is absent from the table the match
    is missing (NaN); when it is present, the match is 1 exactly when the
    coerced value [v] satisfies min <= v <= max (so also at v = min and at
    v = max), 0 when [v] is a number outside the range, and missing when the
    entry does not coerce to a number (text that does not parse, or no
    entry). *)
Theorem calculate_criteria_match_spec gdf column min_val max_val i r :
  rows gdf !! i = Some r ->
  let v := to_numeric (cell_at r column) in
  let m := calculate_criteria_match gdf column min_val max_val !! i in
  (column ∉ columns gdf -> m = Some NaN) /\
  (column ∈ columns gdf ->
     (m = Some (Fin 1) <-> (min_val <= v <= max_val)%num) /\
     (v <> NaN -> ~ (min_val <= v <= max_val)%num -> m = Some (Fin 0)) /\
     (v <> NaN -> v = min_val -> (v <= max_val)%num -> m = Some (Fin 1)) /\
     (v <> NaN -> v = max_val -> (min_val <= v)%num -> m = Some (Fin 1)) /\
     (v = NaN -> m = Some NaN) /\
     (forall s, cell_at r column = CStr s -> str_to_numeric s = NaN ->
                m = Some NaN) /\
     (cell_at r column = CNone -> m = Some NaN)).
Proof.
  intros Hr v m. subst m.
  rewrite (calculate_criteria_match_lookup _ _ _ _ _ _ Hr).
  unfold has_column. split.
  - intros Hc. by rewrite bool_decide_eq_false_2.
  - intros Hc. rewrite bool_decide_eq_true_2 by done. fold v.
    assert (HNaN : v = NaN -> Some (match_value v min_val max_val) = Some NaN).
    { intros ->. reflexivity. }
    split; [|split; [|split; [|split; [|split; [|split]]]]].
    + split.
      * intros [= E]. by apply match_value_one in E.
      * intros E. f_equal. by apply match_value_one.
    + intros Hv Hn. f_equal. by apply match_value_zero.
    + intros Hv E L. f_equal. apply match_value_one. split; [|done].
      rewrite <- E. by apply num_le_refl.
    + intros Hv E L. f_equal. apply match_value_one. split; [done|].
      rewrite <- E. by apply num_le_refl.
    + exact HNaN.
    + intros s Hs Hp. apply HNaN. unfold v. rewrite Hs. exact Hp.
    + intros Hs. apply HNaN. unfold v. by rewrite Hs.
Qed.

(** ** Classification *)

Lemma classify_below value bound bound' :
  (value < bound)%num -> (bound <= bound')%num ->
  (value >=? bound')%num = false.
Proof.
  intros L L'. unfold num_geb. apply num_lt_leb_false.
  eapply num_lt_le_trans; eauto.
Qed.

Lemma classify_above value bound :
  (bound <= value)%num -> (value >=? bound)%num = true.
Proof. intros L. unfold num_geb. by apply num_leb_le. Qed.

Local Ltac fin_le := apply le_fin; unfold Qle; simpl; lia.

Local Ltac classify_case value L U :=
  unfold classify_feasibility;
  rewrite (isna_false value) by
    (first [eapply num_le_notna_r; exact L | eapply num_lt_notna_l; exact U]);
  repeat first
    [ rewrite (classify_above value _ L)
    | rewrite (classify_below value _ _ U) by fin_le ];
  reflexivity.

(** C2.  [classify_feasibility] maps a score to its class by inclusive
    lower bounds taken in descending order: at least 100 is very_high, from
    75 up to but excluding 100 is high, from 50 is moderate_high, from 25 is
    moderate, from 1 is low, anything below 1 (0 included) is very_low, and
    an undefined score is no_data; 99.99 and 75 are high, 74.99 is
    moderate_high.  The label of every class is the one the threshold table
    of the configuration gives it ("No Data" for no_data) and its color is
    the entry of the class in the color table. *)
Theorem classify_feasibility_thresholds (value : num) :
  ((Fin 100 <= value)%num ->
     classify_feasibility value = ("very_high", "100%")) /\
  ((Fin 75 <= value < Fin 100)%num ->
     classify_feasibility value = ("high", "75-100%")) /\
  ((Fin 50 <= value < Fin 75)%num ->
     classify_feasibility value = ("moderate_high", "50-75%")) /\
  ((Fin 25 <= value < Fin 50)%num ->
     classify_feasibility value = ("moderate", "25-50%")) /\
  ((Fin 1 <= value < Fin 25)%num ->
     classify_feasibility value = ("low", "1-25%")) /\
  ((value < Fin 1)%num ->
     classify_feasibility value = ("very_low", "0%")) /\
  (value = NaN -> classify_feasibility value = ("no_data", "No Data")) /\
  classify_feasibility (Fin 100) = ("very_high", "100%") /\
  classify_feasibility (Fin (9999 # 100)) = ("high", "75-100%") /\
  classify_feasibility (Fin 75) = ("high", "75-100%") /\
  classify_feasibility (Fin (7499 # 100)) = ("moderate_high", "50-75%") /\
  classify_feasibility (Fin 0) = ("very_low", "0%") /\
  (let '(class, label) := classify_feasibility value in
   ((class = "no_data" /\ label = "No Data") \/
    exists lo hi, (lo, hi, class, label) ∈ FEASIBILITY_THRESHOLDS) /\
   FEASIBILITY_COLORS !! class = Some (get_feasibility_color value)).
Proof.
  repeat apply conj; try reflexivity.
  - intros L. classify_case value L L.
  - intros [L U]. classify_case value L U.
  - intros [L U]. classify_case value L U.
  - intros [L U]. classify_case value L U.
  - intros [L U]. classify_case value L U.
  - intros U. classify_case value U U.
  - intros ->. reflexivity.
  - unfold get_feasibility_color, classify_feasibility.
    destruct (isna value); [split; [by left|reflexivity]|].
    repeat (match goal with
            | |- context [if ?b then _ else _] => destruct b
            end;
            [split;
             [right; eexists _, _; unfold FEASIBILITY_THRESHOLDS;
              repeat first [apply list_elem_of_here | apply list_elem_of_further]
             |reflexivity]|]).
    split; [|reflexivity].
    right; eexists _, _; unfold FEASIBILITY_THRESHOLDS;
      repeat first [apply list_elem_of_here | apply list_elem_of_further].
Qed.

(** ** Weighted aggregation *)

Lemma criterion_step_lookup gdf acc c i r x y :
  rows gdf !! i = Some r ->
  fst acc !! i = Some x -> snd acc !! i = Some y ->
  fst (criterion_step gdf acc c) !! i = Some (fst (unit_step gdf r (x, y) c)) /\
  snd (criterion_step gdf acc c) !! i = Some (snd (unit_step gdf r (x, y) c)).
Proof.
  intros Hr Hx Hy. unfold criterion_step, unit_step.
  destruct (criterion_column c) as [column|]; [|done]. simpl.
  rewrite !lookup_zip_with, Hx, Hy.
  rewrite (calculate_criteria_match_lookup _ _ _ _ _ _ Hr). simpl.
  unfold match_value.
  by destruct (has_column gdf column), (notna _).
Qed.

Lemma fold_criterion_step_lookup gdf criteria : forall acc i r x y,
  rows gdf !! i = Some r ->
  fst acc !! i = Some x -> snd acc !! i = Some y ->
  let acc' := fold_left (criterion_step gdf) criteria acc in
  let u := fold_left (unit_step gdf r) criteria (x, y) in
  fst acc' !! i = Some (fst u) /\ snd acc' !! i = Some (snd u).
Proof.
  induction criteria as [|c criteria IH]; intros acc i r x y Hr Hx Hy; simpl.
  - done.
  - destruct (criterion_step_lookup gdf acc c i r x y Hr Hx Hy) as [H1 H2].
    specialize (IH (criterion_step gdf acc c) i r _ _ Hr H1 H2).
    simpl in IH. by rewrite <- surjective_pairing in IH.
Qed.

(** At one unit the loop adds up exactly the applicable criteria. *)
Lemma unit_step_applicable gdf r acc c :
  unit_step gdf r acc c =
    if applicable gdf r c
    then ((fst acc + criterion_match r c * criterion_weight c)%num,
          (snd acc + criterion_weight c)%num)
    else acc.
Proof.
  unfold unit_step, applicable, criterion_match, match_value, num_geb.
  destruct (criterion_column c) as [column|]; [|done].
  destruct (has_column gdf column); simpl; [|done].
  destruct (notna (to_numeric (cell_at r column))) eqn:E; simpl; [|done].
  by destruct (_ && _).
Qed.

Lemma fold_unit_step gdf r criteria : forall acc,
  fold_left (unit_step gdf r) criteria acc =
    let app := List.filter (applicable gdf r) criteria in
    (fold_left num_add
       (map (fun c => criterion_match r c * criterion_weight c)%num app)
       (fst acc),
     fold_left num_add (map criterion_weight app) (snd acc)).
Proof.
  induction criteria as [|c criteria IH]; intros acc; simpl.
  - by destruct acc.
  - rewrite IH, unit_step_applicable.
    by destruct (applicable gdf r c).
Qed.

Lemma calculate_feasibility_length gdf criteria logic :
  length (calculate_feasibility gdf criteria logic) = len gdf.
Proof.
  unfold calculate_feasibility.
  destruct criteria as [|c criteria]; [by rewrite length_replicate|].
  set (l0 := replicate (len gdf) (Fin 0)).
  assert (Hlen : forall cs acc,
            length (fst acc) = len gdf -> length (snd acc) = len gdf ->
            length (fst (fold_left (criterion_step gdf) cs acc)) = len gdf /\
            length (snd (fold_left (criterion_step gdf) cs acc)) = len gdf).
  { induction cs as [|c' cs IH]; intros acc H1 H2; simpl; [done|].
    apply IH; unfold criterion_step;
      destruct (criterion_column c'); simpl; try done;
      rewrite length_zip_with, calculate_criteria_match_length; lia. }
  destruct (Hlen (c :: criteria) (l0, l0)) as [H1 H2];
    [by apply length_replicate..|].
  rewrite length_zip_with. lia.
Qed.

(** The score of one unit, in the terms of the code: the two sums over the
    applicable criteria and the test on the second. *)
Lemma calculate_feasibility_lookup gdf criteria logic i r :
  rows gdf !! i = Some r ->
  calculate_feasibility gdf criteria logic !! i =
    Some (let app := List.filter (applicable gdf r) criteria in
          let wm := total (map (fun c => criterion_match r c * criterion_weight c)%num app) in
          let wa := total (map criterion_weight app) in
          if (wa >? Fin 0)%num then (wm / wa * Fin 100)%num else NaN).
Proof.
  intros Hr. pose proof (lookup_lt_Some _ _ _ Hr) as Hi.
  unfold calculate_feasibility.
  destruct criteria as [|c criteria].
  { simpl. by apply lookup_replicate_2. }
  set (l0 := replicate (len gdf) (Fin 0)).
  assert (H0 : l0 !! i = Some (Fin 0)) by by apply lookup_replicate_2.
  destruct (fold_criterion_step_lookup gdf (c :: criteria) (l0, l0) i r
              (Fin 0) (Fin 0) Hr H0 H0) as [H1 H2].
  rewrite lookup_zip_with, H1, H2. simpl option_bind.
  rewrite fold_unit_step. cbn [fst snd].
  by rewrite !fold_left_add_total.
Qed.

Lemma criterion_match_bool r c :
  exists b, criterion_match r c = bool_to_float b.
Proof.
  unfold criterion_match. destruct (criterion_column c); [by eexists|].
  by exists false.
Qed.

(** ** The logic mode *)

(** C7.  Scoring with logic mode "OR" gives every unit the score it has
    with logic mode "AND"; indeed no logic mode changes any score. *)
Theorem calculate_feasibility_logic gdf criteria :
  calculate_feasibility gdf criteria "OR" =
  calculate_feasibility gdf criteria "AND" /\
  (forall logic logic',
     calculate_feasibility gdf criteria logic =
     calculate_feasibility gdf criteria logic') /\
  (forall logic logic',
     add_feasibility_to_gdf gdf criteria logic =
     add_feasibility_to_gdf gdf criteria logic').
Proof. repeat split. Qed.

(** ** The distribution over the classification buckets *)

Lemma occurrences_nonneg s labels : (0 <= occurrences s labels)%Z.
Proof.
  induction labels as [|[s'|] labels IH]; simpl; [lia| |done].
  destruct (String.eqb s' s); lia.
Qed.

Lemma occurrences_pos_elem s labels :
  (0 < occurrences s labels)%Z -> Some s ∈ labels.
Proof.
  induction labels as [|[s'|] labels IH]; simpl; [lia| |].
  - destruct (String.eqb s' s) eqn:E.
    + apply String.eqb_eq in E as ->. intros _. apply list_elem_of_here.
    + intros Hp. apply list_elem_of_further, IH. lia.
  - intros Hp. by apply list_elem_of_further, IH.
Qed.

Lemma fold_count_label_lookup labels : forall (d : gmap string Z) s,
  fold_left count_label labels d !! s =
    if (occurrences s labels =? 0)%Z then d !! s
    else Some (default 0%Z (d !! s) + occurrences s labels)%Z.
Proof.
  induction labels as [|[s'|] labels IH]; intros d s; simpl.
  - done.
  - rewrite IH. pose proof (occurrences_nonneg s labels) as Hn.
    destruct (String.eqb s' s) eqn:E.
    + apply String.eqb_eq in E as ->. rewrite lookup_insert_eq. simpl.
      destruct (Z.eqb_spec (occurrences s labels) 0) as [E0|E0];
        destruct (Z.eqb_spec (1 + occurrences s labels) 0); try lia;
        rewrite ?E0; f_equal; lia.
    + apply String.eqb_neq in E. rewrite lookup_insert_ne by done.
      by rewrite Z.add_0_l.
  - apply IH.
Qed.

Lemma value_counts_lookup labels s :
  value_counts labels !! s =
    if (occurrences s labels =? 0)%Z then None
    else Some (occurrences s labels).
Proof.
  unfold value_counts. rewrite fold_count_label_lookup, lookup_empty.
  by destruct (_ =? _)%Z.
Qed.

Lemma fill_labels_lookup (L : list string) : forall (d : gmap string Z) s,
  fold_left
    (fun distribution label =>
       match distribution !! label with
       | None => <[label := 0%Z]> distribution
       | Some _ => distribution
       end) L d !! s =
    match d !! s with
    | Some n => Some n
    | None => if bool_decide (s ∈ L) then Some 0%Z else None
    end.
Proof.
  induction L as [|l L IH]; intros d s; simpl.
  - by destruct (d !! s).
  - rewrite IH. destruct (decide (l = s)) as [->|Hne].
    + destruct (d !! s) eqn:E; [by rewrite E|].
      rewrite lookup_insert_eq.
      rewrite bool_decide_eq_true_2; [done|apply list_elem_of_here].
    + assert (Hd : (match d !! l with
                    | None => <[l := 0%Z]> d
                    | Some _ => d
                    end) !! s = d !! s).
      { destruct (d !! l); [done|]. by rewrite lookup_insert_ne. }
      rewrite Hd. destruct (d !! s); [done|].
      destruct (bool_decide (s ∈ L)) eqn:EL.
      * apply bool_decide_eq_true_1 in EL.
        rewrite bool_decide_eq_true_2; [done|by apply list_elem_of_further].
      * apply bool_decide_eq_false_1 in EL.
        rewrite bool_decide_eq_false_2; [done|].
        intros Hin. apply elem_of_cons in Hin as [->|?]; done.
Qed.

Lemma occurrences_total labels :
  bucket_labels labels ->
  foldr Z.add 0%Z (map (fun l => occurrences l labels) all_labels)
    = Z.of_nat (length labels).
Proof.
  induction 1 as [|o labels (s & -> & Hs) Hl IH]; [reflexivity|].
  rewrite length_cons, Nat2Z.inj_succ, <- IH. clear IH Hl.
  unfold all_labels in *. cbn [map foldr occurrences].
  repeat (apply elem_of_cons in Hs as [->|Hs]; [simpl; lia|]).
  by apply not_elem_of_nil in Hs.
Qed.

Lemma distribution_of_bucket_labels gdf :
  has_column gdf "feasibility_label" = true ->
  bucket_labels (map as_label (get_column gdf "feasibility_label")) ->
  let d := get_feasibility_distribution gdf in
  (forall label, is_Some (d !! label) <-> label ∈ all_labels) /\
  (forall label n, d !! label = Some n -> (0 <= n)%Z) /\
  foldr Z.add 0%Z (map (fun label => default 0%Z (d !! label)) all_labels)
    = Z.of_nat (len gdf).
Proof.
  intros Hc Hb d. subst d. unfold get_feasibility_distribution.
  rewrite Hc. simpl negb. cbv iota.
  set (labels := map as_label (get_column gdf "feasibility_label")) in *.
  assert (Hl : forall s,
            fold_left
              (fun distribution label =>
                 match distribution !! label with
                 | None => <[label := 0%Z]> distribution
                 | Some _ => distribution
                 end) all_labels (value_counts labels) !! s =
            if bool_decide (s ∈ all_labels) then Some (occurrences s labels)
            else None).
  { intros s. rewrite fill_labels_lookup, value_counts_lookup.
    destruct (Z.eqb_spec (occurrences s labels) 0) as [E|E].
    - rewrite E. done.
    - rewrite bool_decide_eq_true_2; [done|].
      assert (Hin : Some s ∈ labels).
      { apply occurrences_pos_elem. pose proof (occurrences_nonneg s labels). lia. }
      unfold bucket_labels in Hb. rewrite Forall_forall in Hb.
      destruct (Hb _ Hin) as (s' & [= ->] & Hs'). done. }
  split; [|split].
  - intros s. rewrite Hl. destruct (bool_decide (s ∈ all_labels)) eqn:E.
    + apply bool_decide_eq_true_1 in E. split; [done|by eexists].
    + apply bool_decide_eq_false_1 in E. split; [by intros [? ?]|done].
  - intros s n. rewrite Hl. destruct (bool_decide _); [|done].
    intros [= <-]. apply occurrences_nonneg.
  - assert (Hlen : len gdf = length labels).
    { unfold labels, get_column, len. by rewrite !length_map. }
    rewrite Hlen, <- (occurrences_total labels Hb).
    f_equal. apply map_ext_in. intros s Hs. rewrite Hl.
    rewrite bool_decide_eq_true_2; [done|by apply list_elem_of_In].
Qed.

(** ** The scored table *)

Lemma scored_rows_zip (rs : list (gmap string cell)) : forall (ss : list num),
  length ss = length rs ->
  let g1 := zip_with (fun r v => <["feasibility" := v]> r) rs (map CFloat ss) in
  let read := map as_float (map (fun r => cell_at r "feasibility") g1) in
  let cls := map classify_feasibility read in
  let g2 := zip_with (fun r v => <["feasibility_class" := v]> r) g1
              (map (fun x => CStr (fst x)) cls) in
  let g3 := zip_with (fun r v => <["feasibility_label" := v]> r) g2
              (map (fun x => CStr (snd x)) cls) in
  let read' := map as_float (map (fun r => cell_at r "feasibility") g3) in
  zip_with (fun r v => <["feasibility_color" := v]> r) g3
    (map (fun v => CStr (get_feasibility_color v)) read')
  = zip_with scored_unit rs ss.
Proof.
  induction rs as [|r rs IH]; intros [|s ss] Hlen; simpl in *; try done.
  f_equal; [|apply IH; lia].
  unfold scored_unit, cell_at.
  rewrite lookup_insert_eq. simpl.
  rewrite lookup_insert_ne by done. rewrite lookup_insert_ne by done.
  rewrite lookup_insert_eq. reflexivity.
Qed.

Lemma add_feasibility_rows gdf criteria logic :
  rows (add_feasibility_to_gdf gdf criteria logic) =
    zip_with scored_unit (rows gdf) (calculate_feasibility gdf criteria logic).
Proof.
  unfold add_feasibility_to_gdf, float_series, get_column. simpl.
  apply scored_rows_zip. apply calculate_feasibility_length.
Qed.

Lemma add_feasibility_len gdf criteria logic :
  len (add_feasibility_to_gdf gdf criteria logic) = len gdf.
Proof.
  unfold len. rewrite add_feasibility_rows, length_zip_with.
  rewrite calculate_feasibility_length. unfold len. lia.
Qed.

Lemma has_column_set_column gdf column values name :
  has_column (set_column gdf column values) name =
    has_column gdf name || String.eqb column name.
Proof.
  unfold set_column, has_column. simpl.
  destruct (String.eqb_spec column name) as [->|Hne].
  - rewrite orb_true_r. destruct (decide (name ∈ columns gdf)) as [E|E].
    + rewrite (bool_decide_eq_true_2 _ E). by apply bool_decide_eq_true_2.
    + rewrite (bool_decide_eq_false_2 _ E). apply bool_decide_eq_true_2.
      apply elem_of_app. right. apply list_elem_of_here.
  - rewrite orb_false_r. destruct (bool_decide (column ∈ columns gdf)); [done|].
    apply bool_decide_ext. rewrite elem_of_app, elem_of_cons, elem_of_nil.
    split; [|tauto]. intros [?|[?|[]]]; [done|congruence].
Qed.

Lemma add_feasibility_has_column gdf criteria logic name :
  has_column (add_feasibility_to_gdf gdf criteria logic) name =
    has_column gdf name || bool_decide (name ∈ derived_columns).
Proof.
  unfold add_feasibility_to_gdf. rewrite !has_column_set_column.
  unfold derived_columns. rewrite <- !orb_assoc. f_equal.
  destruct (decide (name ∈ ["feasibility"; "feasibility_class";
                            "feasibility_label"; "feasibility_color"]))
    as [Hin|Hn].
  - rewrite (bool_decide_eq_true_2 _ Hin).
    rewrite !elem_of_cons, elem_of_nil in Hin.
    destruct Hin as [->|[->|[->|[->|[]]]]]; reflexivity.
  - rewrite (bool_decide_eq_false_2 _ Hn).
    rewrite !elem_of_cons, elem_of_nil in Hn.
    rewrite !(proj2 (String.eqb_neq _ _)); [done|..]; intros <-; tauto.
Qed.

Lemma add_feasibility_has_derived gdf criteria logic name :
  bool_decide (name ∈ derived_columns) = true ->
  has_column (add_feasibility_to_gdf gdf criteria logic) name = true.
Proof.
  intros E. rewrite add_feasibility_has_column, E. apply orb_true_r.
Qed.

Lemma has_column_select_rows keep gdf name :
  has_column (select_rows keep gdf) name = has_column gdf name.
Proof. reflexivity. Qed.

Lemma classify_feasibility_label score :
  snd (classify_feasibility score) ∈ all_labels.
Proof.
  unfold classify_feasibility, all_labels.
  repeat (match goal with
          | |- context [if ?b then _ else _] => destruct b
          end; [simpl; rewrite !elem_of_cons; tauto|]).
  simpl; rewrite !elem_of_cons; tauto.
Qed.

Lemma scored_unit_label r score :
  cell_at (scored_unit r score) "feasibility_label" =
    CStr (snd (classify_feasibility score)).
Proof.
  unfold scored_unit, cell_at.
  rewrite lookup_insert_ne by done. by rewrite lookup_insert_eq.
Qed.

Lemma scored_unit_feasibility r score :
  cell_at (scored_unit r score) "feasibility" = CFloat score.
Proof.
  unfold scored_unit, cell_at.
  rewrite !lookup_insert_ne by done. by rewrite lookup_insert_eq.
Qed.

(** Every unit of a scored table, and so of any selection of its units,
    carries one of the seven bucket labels. *)
Lemma scored_bucket_labels gdf criteria logic keep :
  bucket_labels
    (map as_label
       (get_column (select_rows keep (add_feasibility_to_gdf gdf criteria logic))
          "feasibility_label")).
Proof.
  unfold bucket_labels, get_column.
  change (rows (select_rows keep ?g)) with (List.filter keep (rows g)).
  rewrite add_feasibility_rows. rewrite !Forall_fmap.
  apply Forall_forall. intros r Hr.
  apply list_elem_of_In, filter_In in Hr as [Hr _].
  apply list_elem_of_In, elem_of_lookup_zip_with in Hr
    as (i & r0 & s & -> & _ & _).
  simpl. rewrite scored_unit_label. simpl. eexists. split; [done|].
  apply classify_feasibility_label.
Qed.

Lemma select_rows_all gdf : select_rows (fun _ => true) gdf = gdf.
Proof.
  destruct gdf as [cs rs]. unfold select_rows. simpl. f_equal.
  induction rs; simpl; congruence.
Qed.

(** C6.  For a scored table, whole or restricted to a selection of its
    units, the distribution has exactly the seven bucket labels as keys,
    every count is a non-negative integer, and the seven counts add up to
    the number of units of the table. *)
Theorem get_feasibility_distribution_total gdf criteria logic :
  let scored := add_feasibility_to_gdf gdf criteria logic in
  let complete table :=
    let d := get_feasibility_distribution table in
    (forall label, is_Some (d !! label) <-> label ∈ all_labels) /\
    (forall label n, d !! label = Some n -> (0 <= n)%Z) /\
    foldr Z.add 0%Z (map (fun label => default 0%Z (d !! label)) all_labels)
      = Z.of_nat (len table) in
  complete scored /\ forall keep, complete (select_rows keep scored).
Proof.
  intros scored complete.
  assert (Hk : forall keep, complete (select_rows keep scored)).
  { intros keep. apply distribution_of_bucket_labels.
    - rewrite has_column_select_rows. by apply add_feasibility_has_derived.
    - apply scored_bucket_labels. }
  split; [|exact Hk].
  specialize (Hk (fun _ => true)). by rewrite select_rows_all in Hk.
Qed.

(** ** Statistics *)

Lemma dropna_all_nan (s : list num) :
  Forall (fun v => v = NaN) s -> dropna s = [].
Proof. induction 1 as [|v s -> _ IH]; [done|]. simpl. exact IH. Qed.

Lemma count_where_dropna (p : num -> bool) table :
  p NaN = false ->
  count_where p (dropna (float_series table "feasibility"))
    = count_units p table.
Proof.
  intros Hp.
  unfold count_where, count_units, float_series, get_column, dropna, unit_score.
  f_equal. induction (rows table) as [|r rs IH]; [done|].
  cbn [map List.filter].
  destruct (notna (as_float (cell_at r "feasibility"))) eqn:En.
  - cbn [List.filter].
    destruct (p (as_float (cell_at r "feasibility"))); cbn [length];
      by rewrite IH.
  - assert (En' : as_float (cell_at r "feasibility") = NaN).
    { apply isna_true. unfold notna in En. by apply negb_false_iff in En. }
    by rewrite En', Hp.
Qed.

Lemma statistics_of_keys table :
  has_column table "feasibility" = true ->
  dict_keys (statistics_of table) =
    ["total_blocks"; "blocks_with_data"; "blocks_no_data"; "mean"; "median";
     "min"; "max"; "high_feasibility"; "low_feasibility"; "distribution"].
Proof.
  intros Hc. unfold statistics_of, get_feasibility_stats. by rewrite Hc.
Qed.

Lemma statistics_of_counts table :
  has_column table "feasibility" = true ->
  dict_get (statistics_of table) "total_blocks"
    = Some (SInt (Z.of_nat (len table))) /\
  dict_get (statistics_of table) "high_feasibility"
    = Some (SInt (count_units (fun v => Fin 75 <=? v)%num table)) /\
  dict_get (statistics_of table) "low_feasibility"
    = Some (SInt (count_units (fun v => v <? Fin 25)%num table)) /\
  dict_get (statistics_of table) "distribution"
    = Some (SDist (get_feasibility_distribution table)).
Proof.
  intros Hc. unfold statistics_of, get_feasibility_stats. rewrite Hc.
  cbn [negb dict_set dict_get String.eqb Ascii.eqb Bool.eqb].
  repeat split; f_equal; f_equal; by apply count_where_dropna.
Qed.

(** What [calculate_and_get_geojson] returns when it returns: every unit of
    the scored table as a feature, and the statistics of the units in
    scope, which are the scored units or a selection of them. *)
Lemma calculate_and_get_geojson_inv gdf criteria logic district resp :
  calculate_and_get_geojson gdf criteria logic district = Ok resp ->
  let scored := add_feasibility_to_gdf gdf criteria logic in
  exists keep,
    resp = {| geojson := map clean_properties (to_json scored);
              statistics := statistics_of (select_rows keep scored) |}.
Proof.
  intros Hres scored. unfold calculate_and_get_geojson in Hres.
  fold scored in Hres.
  assert (Hall : forall table, table = scored ->
            exists keep, table = select_rows keep scored).
  { intros ? ->. exists (fun _ => true). by rewrite select_rows_all. }
  destruct (truthy district).
  - destruct (has_column scored "Dist_Name").
    + simpl in Hres.
      destruct (_ && _) in Hres; simpl in Hres; injection Hres as <-;
        by eexists.
    + unfold require_column in Hres.
      destruct (has_column scored "DISTRICT_I"); simpl in Hres; [|done].
      destruct (_ && _) in Hres; simpl in Hres; injection Hres as <-;
        by eexists.
  - simpl in Hres. injection Hres as <-.
    destruct (Hall scored eq_refl) as [keep Hk]. exists keep.
    by rewrite <- Hk.
Qed.

Lemma calculate_and_get_geojson_in_scope gdf criteria logic district resp :
  calculate_and_get_geojson gdf criteria logic district = Ok resp ->
  let scored := add_feasibility_to_gdf gdf criteria logic in
  resp = {| geojson := map clean_properties (to_json scored);
            statistics := statistics_of (units_in_scope scored district) |}.
Proof.
  intros Hres scored. unfold calculate_and_get_geojson in Hres.
  fold scored in Hres. unfold units_in_scope.
  destruct (truthy district).
  - destruct (has_column scored "Dist_Name").
    + cbn [bind] in Hres.
      destruct (_ && _) in Hres |- *; cbn [bind] in Hres;
        by injection Hres as <-.
    + unfold require_column in Hres.
      destruct (has_column scored "DISTRICT_I"); cbn [bind] in Hres; [|done].
      rewrite andb_true_r in Hres.
      destruct (Nat.eqb _ _) in Hres; cbn [bind] in Hres;
        by injection Hres as <-.
  - cbn [bind] in Hres. by injection Hres as <-.
Qed.

Lemma occurrences_count (label : string) (rs : list (gmap string cell)) :
  occurrences label (map (fun r => as_label (cell_at r "feasibility_label")) rs)
  = Z.of_nat
      (length
         (List.filter
            (fun r => cell_eq_str (cell_at r "feasibility_label") label) rs)).
Proof.
  induction rs as [|r rs IH]; [done|]. cbn [map List.filter occurrences].
  destruct (cell_at r "feasibility_label") as [| | |s];
    cbn [as_label cell_eq_str occurrences]; try exact IH.
  rewrite IH. destruct (String.eqb s label); cbn [length]; lia.
Qed.

Lemma units_in_scope_selection gdf criteria logic district :
  exists keep,
    units_in_scope (add_feasibility_to_gdf gdf criteria logic) district
    = select_rows keep (add_feasibility_to_gdf gdf criteria logic).
Proof.
  unfold units_in_scope.
  destruct (truthy district); [|exists (fun _ => true); by rewrite select_rows_all].
  destruct (has_column _ "Dist_Name"); [|by eexists].
  destruct (_ && _); by eexists.
Qed.

(** C5 (as amended).  The statistics object of a response has exactly the
    keys total_blocks, blocks_with_data, blocks_no_data, mean, median, min,
    max, high_feasibility, low_feasibility and distribution, in this order.
    Over the units in scope, total_blocks is their number, high_feasibility
    the number of those with a score of at least 75, low_feasibility the
    number of those with a score below 25, and distribution gives to each of
    the seven bucket labels, and to nothing else, the number of units that
    carry the label. *)
Theorem statistics_object_keys gdf criteria logic district resp :
  calculate_and_get_geojson gdf criteria logic district = Ok resp ->
  let in_scope :=
    units_in_scope (add_feasibility_to_gdf gdf criteria logic) district in
  dict_keys (statistics resp) =
    ["total_blocks"; "blocks_with_data"; "blocks_no_data"; "mean"; "median";
     "min"; "max"; "high_feasibility"; "low_feasibility"; "distribution"] /\
  dict_get (statistics resp) "total_blocks"
    = Some (SInt (Z.of_nat (len in_scope))) /\
  dict_get (statistics resp) "high_feasibility"
    = Some (SInt (count_units (fun v => Fin 75 <=? v)%num in_scope)) /\
  dict_get (statistics resp) "low_feasibility"
    = Some (SInt (count_units (fun v => v <? Fin 25)%num in_scope)) /\
  exists d,
    dict_get (statistics resp) "distribution" = Some (SDist d) /\
    (forall label, is_Some (d !! label) <-> label ∈ all_labels) /\
    (forall label, label ∈ all_labels ->
       d !! label = Some (count_labelled label in_scope)).
Proof.
  intros Hres in_scope.
  rewrite (calculate_and_get_geojson_in_scope _ _ _ _ _ Hres).
  cbn [statistics]. fold in_scope.
  destruct (units_in_scope_selection gdf criteria logic district)
    as [keep Hk].
  fold in_scope in Hk.
  assert (Hc : has_column in_scope "feasibility" = true).
  { rewrite Hk, has_column_select_rows. by apply add_feasibility_has_derived. }
  assert (Hc' : has_column in_scope "feasibility_label" = true).
  { rewrite Hk, has_column_select_rows. by apply add_feasibility_has_derived. }
  assert (Hb : bucket_labels
                 (map as_label (get_column in_scope "feasibility_label"))).
  { rewrite Hk. apply scored_bucket_labels. }
  split; [by apply statistics_of_keys|].
  destruct (statistics_of_counts _ Hc) as (Ht & Hh & Hl & Hd).
  split; [exact Ht|]. split; [exact Hh|]. split; [exact Hl|].
  eexists. split; [exact Hd|]. split.
  - by apply distribution_of_bucket_labels.
  - intros label Hin. unfold get_feasibility_distribution.
    rewrite Hc'. cbn [negb]. cbv zeta.
    rewrite fill_labels_lookup, value_counts_lookup.
    rewrite (bool_decide_eq_true_2 _ Hin).
    unfold count_labelled. unfold get_column. rewrite map_map.
    rewrite occurrences_count.
    by destruct (Z.eqb_spec
                   (Z.of_nat
                      (length
                         (List.filter
                            (fun r =>
                               cell_eq_str (cell_at r "feasibility_label") label)
                            (rows in_scope)))) 0) as [->|].
Qed.

(** C10.  For a scored table in which no unit has a defined score,
    [get_feasibility_stats] still returns its statistics: all units are
    counted as without data, none as with data, and mean, median and min
    are the integer 0 and max the integer 100. *)
Theorem get_feasibility_stats_no_data table :
  has_column table "feasibility" = true ->
  (forall r, r ∈ rows table -> unit_score r = NaN) ->
  let stats := get_feasibility_stats table in
  dict_get stats "total_blocks" = Some (SInt (Z.of_nat (len table))) /\
  dict_get stats "blocks_with_data" = Some (SInt 0) /\
  dict_get stats "blocks_no_data" = Some (SInt (Z.of_nat (len table))) /\
  dict_get stats "mean" = Some (SInt 0) /\
  dict_get stats "median" = Some (SInt 0) /\
  dict_get stats "min" = Some (SInt 0) /\
  dict_get stats "max" = Some (SInt 100) /\
  dict_get stats "high_feasibility" = Some (SInt 0) /\
  dict_get stats "low_feasibility" = Some (SInt 0).
Proof.
  intros Hc Hnan stats. subst stats. unfold get_feasibility_stats.
  rewrite Hc. cbn [negb].
  assert (E : dropna (float_series table "feasibility") = []).
  { apply dropna_all_nan. unfold float_series, get_column.
    rewrite !Forall_fmap. apply Forall_forall. intros r Hr.
    exact (Hnan r Hr). }
  rewrite E. cbn. rewrite Z.sub_0_r. repeat split.
Qed.

(** ** The scope of the statistics *)

Lemma add_feasibility_keeps_column gdf criteria logic name :
  bool_decide (name ∈ derived_columns) = false ->
  has_column (add_feasibility_to_gdf gdf criteria logic) name =
    has_column gdf name.
Proof.
  intros E. rewrite add_feasibility_has_column, E. apply orb_false_r.
Qed.

Lemma statistics_of_empty table :
  has_column table "feasibility" = true -> len table = 0%nat ->
  dict_get (statistics_of table) "total_blocks" = Some (SInt 0).
Proof.
  intros Hc Hl. destruct (statistics_of_counts table Hc) as [Ht _].
  by rewrite Ht, Hl.
Qed.

(** The response of [calculate_and_get_geojson], case by case: the features
    are always those of the whole scored table; the statistics are those of
    the whole table without a scope, and with a scope those of the units
    matching it by name, else by identifier; without either region column a
    scope makes the call raise. *)
Lemma calculate_and_get_geojson_scope gdf criteria logic district :
  let scored := add_feasibility_to_gdf gdf criteria logic in
  let respond table :=
    Ok {| geojson := map clean_properties (to_json scored);
          statistics := statistics_of table |} in
  let named d := select_rows (by_name d) scored in
  let numbered d := select_rows (by_id d) scored in
  calculate_and_get_geojson gdf criteria logic district =
    if truthy district then
      let d := default "" district in
      if has_column gdf "Dist_Name" then
        if Nat.eqb (len (named d)) 0 && has_column gdf "DISTRICT_I"
        then respond (numbered d)
        else respond (named d)
      else if has_column gdf "DISTRICT_I" then respond (numbered d)
      else Raise (KeyError "DISTRICT_I")
    else respond scored.
Proof.
  intros scored respond named numbered.
  unfold calculate_and_get_geojson. fold scored.
  unfold require_column, scored.
  rewrite !add_feasibility_keeps_column by reflexivity. fold scored.
  destruct (truthy district); [|reflexivity].
  destruct (has_column gdf "Dist_Name").
  - cbn [bind]. by destruct (_ && _).
  - destruct (has_column gdf "DISTRICT_I"); [|reflexivity].
    cbn [bind]. rewrite andb_true_r. by destruct (Nat.eqb _ _).
Qed.

Lemma scored_unit_other r score name :
  bool_decide (name ∈ derived_columns) = false ->
  cell_at (scored_unit r score) name = cell_at r name.
Proof.
  intros E. apply bool_decide_eq_false_1 in E.
  unfold derived_columns in E. rewrite !elem_of_cons, elem_of_nil in E.
  unfold scored_unit, cell_at.
  rewrite !lookup_insert_ne; [done|..]; intros <-; tauto.
Qed.

Lemma select_scored_none gdf criteria logic keep :
  (forall r score, r ∈ rows gdf -> keep (scored_unit r score) = false) ->
  len (select_rows keep (add_feasibility_to_gdf gdf criteria logic)) = 0%nat.
Proof.
  intros Hk. unfold len.
  change (rows (select_rows keep ?g)) with (List.filter keep (rows g)).
  rewrite add_feasibility_rows.
  generalize (calculate_feasibility gdf criteria logic). intros ss.
  assert (Hall : Forall (fun r => keep r = false)
                   (zip_with scored_unit (rows gdf) ss)).
  { apply Forall_forall. intros r Hr.
    apply elem_of_lookup_zip_with in Hr as (i & r0 & s & -> & Hr0 & _).
    apply Hk. by eapply list_elem_of_lookup_2. }
  induction Hall as [|r l Hr _ IH]; [done|]. simpl. by rewrite Hr.
Qed.

(** With a region column in the table, a scope that no unit matches, by
    name or by identifier, gives a response: all units as features, and the
    statistics of zero units. *)
Lemma calculate_and_get_geojson_no_match gdf criteria logic d :
  d <> "" ->
  has_column gdf "Dist_Name" = true \/ has_column gdf "DISTRICT_I" = true ->
  (forall r, r ∈ rows gdf -> by_name d r = false) ->
  (forall r, r ∈ rows gdf -> by_id d r = false) ->
  exists resp,
    calculate_and_get_geojson gdf criteria logic (Some d) = Ok resp /\
    geojson resp =
      map clean_properties (to_json (add_feasibility_to_gdf gdf criteria logic)) /\
    length (geojson resp) = len gdf /\
    dict_get (statistics resp) "total_blocks" = Some (SInt 0).
Proof.
  intros Hd Hcol Hname Hid.
  set (scored := add_feasibility_to_gdf gdf criteria logic).
  assert (Hn : len (select_rows (by_name d) scored) = 0%nat).
  { apply select_scored_none. intros r s Hr. unfold by_name.
    rewrite scored_unit_other by reflexivity. by apply Hname. }
  assert (Hi : len (select_rows (by_id d) scored) = 0%nat).
  { apply select_scored_none. intros r s Hr. unfold by_id.
    rewrite scored_unit_other by reflexivity. by apply Hid. }
  assert (Hf : forall keep,
            has_column (select_rows keep scored) "feasibility" = true).
  { intros keep. rewrite has_column_select_rows.
    by apply add_feasibility_has_derived. }
  assert (Hlen : length (map clean_properties (to_json scored)) = len gdf).
  { unfold to_json. rewrite !length_map. apply add_feasibility_len. }
  assert (Ht : truthy (Some d) = true).
  { simpl. apply negb_true_iff. by apply String.eqb_neq. }
  rewrite calculate_and_get_geojson_scope. cbv zeta. fold scored.
  rewrite Ht. change (default "" (Some d)) with d.
  rewrite Hn. cbn [Nat.eqb andb].
  destruct (has_column gdf "Dist_Name"), (has_column gdf "DISTRICT_I");
    try (destruct Hcol; discriminate);
    eexists; (split; [reflexivity|]); cbn [geojson statistics];
    (split; [reflexivity|]); (split; [exact Hlen|]);
    by apply statistics_of_empty.
Qed.

(** C8 (the case the code misses).  With a scope given and neither region
    column in the table, [calculate_and_get_geojson] raises
    [KeyError: 'DISTRICT_I'] instead of returning the features and the
    statistics of zero units. *)
Theorem calculate_and_get_geojson_missing_region_columns
    gdf criteria logic district :
  truthy district = true ->
  has_column gdf "Dist_Name" = false ->
  has_column gdf "DISTRICT_I" = false ->
  calculate_and_get_geojson gdf criteria logic district
    = Raise (KeyError "DISTRICT_I").
Proof.
  intros Hd Hn Hi. rewrite calculate_and_get_geojson_scope. cbv zeta.
  by rewrite Hd, Hn, Hi.
Qed.

End Properties.

(** ** Loaders and missing files *)

Section LoaderProperties.

Context `{DataDir}.

Lemma read_file_not_missing path msg :
  read_file path <> Raise (FileNotFoundError msg).
Proof. unfold read_file. by destruct (read_path path). Qed.

Lemma load_district_mapping_not_missing msg :
  load_district_mapping <> Raise (FileNotFoundError msg).
Proof.
  unfold load_district_mapping, read_file, require_column.
  destruct (path_exists _); [|done]. simpl.
  destruct (read_path _) as [g|]; [|done]. simpl.
  destruct (has_column g "DISTRICT_I"); [|done]. simpl.
  by destruct (has_column g "Dist_name").
Qed.

(** C9.  Loading the block geometry raises [FileNotFoundError] exactly when
    its shapefile does not exist; loading the GP geometry, or the GP
    indicator data, whose file does not exist returns [None] and raises
    nothing. *)
Theorem loaders_missing_files :
  ((exists msg, load_shapefile = Raise (FileNotFoundError msg)) <->
   path_exists (path_join DATA_DIR "4DSS_VAR_2.0.shp") = false) /\
  (path_exists (path_join DATA_DIR "grampanchayat.shp") = false ->
   load_gp_shapefile = Ok None) /\
  (path_exists (path_join DATA_DIR "Tinsukia_GP_data.xlsx") = false ->
   load_gp_data = Ok None).
Proof.
  split; [|split].
  - unfold load_shapefile.
    destruct (path_exists (path_join DATA_DIR "4DSS_VAR_2.0.shp")) eqn:E;
      simpl.
    + split; [|done]. intros [msg Hm]. exfalso. revert Hm.
      unfold read_file. destruct (read_path _) as [g|]; [|done]. simpl.
      pose proof load_district_mapping_not_missing as Hd.
      destruct load_district_mapping as [m|e]; simpl.
      * by destruct m.
      * intros [= ->]. by apply (Hd msg).
    + split; [done|]. intros _. by eexists.
  - intros E. unfold load_gp_shapefile. by rewrite E.
  - intros E. unfold load_gp_data. by rewrite E.
Qed.

End LoaderProperties.

(** * Scoring as the request reaches it: properties *)

(** ** binary64: rounding a positive value *)

Lemma iter_shr_1 (p : positive) : forall (mrs : shr_record) (m : positive),
  shr_m mrs = Zpos m ->
  (Zpos p < Zpos (digits2_pos m))%Z ->
  exists m', shr_m (iter_pos shr_1 p mrs) = Zpos m' /\
             Zpos (digits2_pos m') = (Zpos (digits2_pos m) - Zpos p)%Z.
Proof.
  assert (One : forall (mrs : shr_record) (m : positive),
            shr_m mrs = Zpos m -> (1 < Zpos (digits2_pos m))%Z ->
            exists m', shr_m (shr_1 mrs) = Zpos m' /\
                       Zpos (digits2_pos m') = (Zpos (digits2_pos m) - 1)%Z).
  { intros [m0 r s] m Hm Hd. cbn [shr_m] in Hm. subst m0.
    destruct m as [q|q|]; cbn [shr_1 shr_m digits2_pos] in *.
    - exists q. split; [reflexivity|lia].
    - exists q. split; [reflexivity|lia].
    - lia. }
  induction p as [p IH|p IH|]; intros mrs m Hm Hd; cbn [iter_pos].
  - destruct (One mrs m Hm) as (m1 & H1 & D1); [lia|].
    destruct (IH _ m1 H1) as (m2 & H2 & D2); [lia|].
    destruct (IH _ m2 H2) as (m3 & H3 & D3); [lia|].
    exists m3. split; [exact H3|lia].
  - destruct (IH _ m Hm) as (m2 & H2 & D2); [lia|].
    destruct (IH _ m2 H2) as (m3 & H3 & D3); [lia|].
    exists m3. split; [exact H3|lia].
  - destruct (One mrs m Hm) as (m1 & H1 & D1); [lia|].
    exists m1. split; [exact H1|lia].
Qed.

(** Shifting a positive mantissa to its format exponent leaves a positive
    mantissa, at an exponent of the format. *)
Lemma shr_fexp_pos (m : positive) (e : Z) (l : location) :
  (emin prec emax < Zpos (digits2_pos m) + e)%Z ->
  exists m' r s e',
    shr_fexp prec emax (Zpos m) e l
      = ({| shr_m := Zpos m'; shr_r := r; shr_s := s |}, e') /\
    (emin prec emax <= e')%Z.
Proof.
  intros Hc. unfold shr_fexp, shr, fexp, emin, prec, emax in *.
  cbn [Zdigits2].
  set (n := (Z.max (Zpos (digits2_pos m) + e - 53) (3 - 1024 - 53) - e)%Z).
  assert (Hn : (n < Zpos (digits2_pos m))%Z) by (unfold n; lia).
  assert (Hrec : shr_m (shr_record_of_loc (Zpos m) l) = Zpos m).
  { by destruct l as [|[]]. }
  destruct n as [|p|p] eqn:En.
  - destruct (shr_record_of_loc (Zpos m) l) as [m0 r s] eqn:E.
    cbn [shr_m] in Hrec. subst m0. exists m, r, s, e.
    split; [reflexivity|]. unfold n in En. lia.
  - destruct (iter_shr_1 p _ m Hrec Hn) as (m' & Hm' & _).
    destruct (iter_pos shr_1 p (shr_record_of_loc (Zpos m) l))
      as [m0 r s] eqn:E.
    cbn [shr_m] in Hm'. subst m0. exists m', r, s, (e + Zpos p)%Z.
    split; [reflexivity|]. unfold n in En. lia.
  - destruct (shr_record_of_loc (Zpos m) l) as [m0 r s] eqn:E.
    cbn [shr_m] in Hrec. subst m0. exists m, r, s, e.
    split; [reflexivity|]. unfold n in En. lia.
Qed.

(** Rounding a positive value that is not below the least positive double
    gives a double with the sign asked for, or that infinity: never zero,
    never NaN. *)
Lemma binary_round_aux_pos (sx : bool) (m : positive) (e : Z) (l : location) :
  (emin prec emax < Zpos (digits2_pos m) + e)%Z ->
  (exists m' e', binary_round_aux prec emax sx (Zpos m) e l
                 = S754_finite sx m' e' /\ (emin prec emax <= e')%Z)
  \/ binary_round_aux prec emax sx (Zpos m) e l = S754_infinity sx.
Proof.
  intros Hc. unfold binary_round_aux.
  destruct (shr_fexp_pos m e l Hc) as (m1 & r1 & s1 & e1 & -> & He1).
  cbn [shr_m].
  assert (Hr : exists m2,
            round_nearest_even (Zpos m1)
              (loc_of_shr_record {| shr_m := Zpos m1; shr_r := r1; shr_s := s1 |})
            = Zpos m2).
  { destruct r1, s1; cbn [loc_of_shr_record round_nearest_even].
    - by eexists.
    - destruct (Z.even (Zpos m1)); by eexists.
    - by eexists.
    - by eexists. }
  destruct Hr as [m2 ->].
  assert (Hc2 : (emin prec emax < Zpos (digits2_pos m2) + e1)%Z).
  { pose proof (Pos2Z.is_pos (digits2_pos m2)). lia. }
  destruct (shr_fexp_pos m2 e1 loc_Exact Hc2) as (m3 & r3 & s3 & e3 & -> & He3).
  cbn [shr_m]. destruct (Z.leb e3 (emax - prec)); [left|right].
  - by exists m3, e3.
  - reflexivity.
Qed.

(** ** binary64: sums of non-negative doubles *)

(** The number of binary digits is one more than the binary logarithm. *)
Lemma digits2_pos_log2 (m : positive) :
  Zpos (digits2_pos m) = (Z.log2 (Zpos m) + 1)%Z.
Proof.
  assert (S : forall p, Zpos (digits2_pos p) = Zpos (Pos.size p)).
  { induction p as [p IH|p IH|]; cbn [digits2_pos Pos.size];
      [| |reflexivity]; rewrite !Pos2Z.inj_succ, IH; reflexivity. }
  destruct m as [p|p|]; cbn [digits2_pos Z.log2]; [| |reflexivity];
    rewrite Pos2Z.inj_succ, S; lia.
Qed.

Lemma digits2_pos_le (a b : positive) :
  (a <= b)%positive -> (Zpos (digits2_pos a) <= Zpos (digits2_pos b))%Z.
Proof.
  intros Hab. rewrite !digits2_pos_log2.
  apply Z.add_le_mono_r, Z.log2_le_mono. lia.
Qed.

Lemma digits2_pos_shift (d m : positive) :
  Zpos (digits2_pos (Pos.iter xO m d)) = (Zpos (digits2_pos m) + Zpos d)%Z.
Proof.
  revert m. induction d as [|d IH] using Pos.peano_ind; intros m.
  - cbn [Pos.iter digits2_pos]. lia.
  - rewrite Pos.iter_succ. cbn [digits2_pos].
    rewrite Pos2Z.inj_succ, IH. lia.
Qed.

(** Aligning a mantissa to a lower exponent keeps the position of its
    leading digit. *)
Lemma shl_align_digits (m : positive) (e e' : Z) :
  (Zpos (digits2_pos (shl_align m e e').1) + (shl_align m e e').2
   = Zpos (digits2_pos m) + e)%Z /\
  ((e' <= e)%Z -> (shl_align m e e').2 = e').
Proof.
  unfold shl_align. destruct (e' - e)%Z as [|d|d] eqn:E; cbn [fst snd].
  - split; [reflexivity|lia].
  - split; [reflexivity|lia].
  - change (PosDef.Pos.iter xO m d) with (Pos.iter xO m d).
    rewrite digits2_pos_shift. split; lia.
Qed.

(** A double that is not negative and, where finite, not below the format's
    least exponent. *)
Definition fine (x : f64) : Prop :=
  match x with
  | S754_zero false | S754_infinity false => True
  | S754_finite false _ e => (emin prec emax <= e)%Z
  | _ => False
  end.

Lemma binary_round_pos (m : positive) (e : Z) :
  (emin prec emax < Zpos (digits2_pos m) + e)%Z ->
  fine (binary_round prec emax false m e) /\
  binary_round prec emax false m e <> f64_zero.
Proof.
  intros Hc. unfold binary_round.
  pose proof (shl_align_digits m e
                (fexp prec emax (Zpos (digits2_pos m) + e))) as [Hd _].
  destruct (shl_align m e (fexp prec emax (Zpos (digits2_pos m) + e)))
    as [mz ez]. cbn [fst snd] in Hd.
  destruct (binary_round_aux_pos false mz ez loc_Exact) as [(m' & e' & -> & He)| ->].
  - lia.
  - split; [exact He|discriminate].
  - split; [exact I|discriminate].
Qed.

(** Adding two such doubles gives one, and gives 0.0 only from 0.0 and
    0.0. *)
Lemma f64_add_fine (a b : f64) :
  fine a -> fine b ->
  fine (f64_add a b) /\
  (f64_add a b = f64_zero -> a = f64_zero /\ b = f64_zero).
Proof.
  intros Ha Hb.
  destruct a as [[]|[]| |[] ma ea], b as [[]|[]| |[] mb eb];
    cbn [fine] in Ha, Hb; try contradiction;
    try (cbn [f64_add SFadd fine]; split; [done|done]).
  all: try (cbn [f64_add SFadd fine]; split; [done|discriminate]).
  unfold f64_add, SFadd. cbn [cond_Zopp].
  set (ez := Z.min ea eb).
  pose proof (shl_align_digits ma ea ez) as [Da Ea].
  pose proof (shl_align_digits mb eb ez) as [Db Eb].
  rewrite Ea in Da by (unfold ez; lia).
  change (Z.pos (shl_align ma ea ez).1 + Z.pos (shl_align mb eb ez).1)%Z
    with (Z.pos ((shl_align ma ea ez).1 + (shl_align mb eb ez).1)).
  cbn [binary_normalize].
  destruct (binary_round_pos
              ((shl_align ma ea ez).1 + (shl_align mb eb ez).1) ez)
    as [Hf Hz].
  - pose proof (Pos2Z.is_pos (digits2_pos ma)).
    pose proof (digits2_pos_le (shl_align ma ea ez).1
                  ((shl_align ma ea ez).1 + (shl_align mb eb ez).1)).
    lia.
  - split; [exact Hf|]. intros Hs. contradiction.
Qed.

Lemma nonneg64_fine (w : f64) : nonneg64 w -> fine w.
Proof.
  destruct w as [[]|[]| |[] m e]; cbn [nonneg64 fine]; try done.
  unfold valid_binary, bounded, canonical_mantissa, fexp.
  intros Hv. apply andb_prop in Hv as [Hc _].
  apply Z.eqb_eq in Hc. lia.
Qed.

Lemma sum_fine (l : list f64) : forall acc,
  fine acc -> Forall fine l ->
  fine (fold_left f64_add l acc) /\
  (fold_left f64_add l acc = f64_zero ->
   acc = f64_zero /\ Forall (fun w => w = f64_zero) l).
Proof.
  induction l as [|w l IH]; intros acc Hacc Hl; cbn [fold_left].
  - split; [exact Hacc|]. intros ->. split; [reflexivity|constructor].
  - apply Forall_cons in Hl as [Hw Hl].
    destruct (f64_add_fine acc w Hacc Hw) as [Hf Hz].
    destruct (IH _ Hf Hl) as [Hf' Hz'].
    split; [exact Hf'|]. intros Hs.
    destruct (Hz' Hs) as [Hs0 Hl0]. destruct (Hz Hs0) as [-> ->].
    split; [reflexivity|]. constructor; [reflexivity|exact Hl0].
Qed.

(** A sum of such doubles exceeds 0.0 unless it is 0.0. *)
Lemma f64_gtb_fine (x : f64) :
  fine x -> f64_gtb x f64_zero = false -> x = f64_zero.
Proof.
  destruct x as [[]|[]| |[] m e]; cbn [fine]; try done.
Qed.

Lemma f64_mul_comm (a b : f64) : f64_mul a b = f64_mul b a.
Proof.
  unfold f64_mul, SFmul.
  destruct a as [sa|sa| |sa ma ea], b as [sb|sb| |sb mb eb];
    try reflexivity; try (rewrite (xorb_comm sa sb); reflexivity).
  rewrite (xorb_comm sa sb), (Pos.mul_comm ma mb), (Z.add_comm ea eb).
  reflexivity.
Qed.

(** A weight of 0.0 contributes 0.0 whatever the match. *)
Lemma f64_mul_zero_bool (b : bool) : f64_mul f64_zero (bool64 b) = f64_zero.
Proof. by destruct b. Qed.

(** ** The request-level loop, unit by unit *)

Lemma zip_with_map {A B C D : Type} (h : B -> C -> D) (f : A -> B)
    (k : A -> C) (l : list A) :
  zip_with h (map f l) (map k l) = map (fun x => h (f x) (k x)) l.
Proof. induction l as [|x l IH]; cbn; [reflexivity|by rewrite IH]. Qed.

Lemma replicate_map {A B : Type} (y : B) (l : list A) :
  replicate (length l) y = map (fun _ => y) l.
Proof. induction l as [|x l IH]; cbn; [reflexivity|by rewrite IH]. Qed.

Lemma fold_left_filter {A : Type} (p : A -> bool) (t : A -> f64)
    (l : list A) : forall a,
  fold_left (fun a c => if p c then f64_add a (t c) else a) l a
  = fold_left f64_add (map t (List.filter p l)) a.
Proof.
  induction l as [|c l IH]; intros a; cbn [fold_left List.filter];
    [reflexivity|].
  destruct (p c); cbn [map fold_left]; apply IH.
Qed.

Lemma existsb_filter_nil {A : Type} (p : A -> bool) (l : list A) :
  existsb p l = false -> List.filter p l = [].
Proof.
  induction l as [|c l IH]; cbn [existsb List.filter]; [reflexivity|].
  destruct (p c); [discriminate|exact IH].
Qed.

Lemma f64_of_bool (b : bool) : f64_of_num (bool_to_float b) = bool64 b.
Proof. destruct b; vm_compute; reflexivity. Qed.

Lemma request_min_bound (c : request_criterion) :
  is_text (stated_min c) = false -> request_min c = JsNumber (lower_bound c).
Proof.
  unfold request_min, lower_bound, stated_min, bound, is_text.
  destruct (rq_min_val c) as [[|x|s]|]; cbn [json_isna]; try done.
  - by destruct (isna x).
  - destruct (rq_range_min c) as [[|x|s]|]; cbn [json_isna]; try done.
    by destruct (isna x).
Qed.

Lemma request_max_bound (c : request_criterion) :
  is_text (stated_max c) = false -> request_max c = JsNumber (upper_bound c).
Proof.
  unfold request_max, upper_bound, stated_max, bound, is_text.
  destruct (rq_max_val c) as [[|x|s]|]; cbn [json_isna]; try done.
  - by destruct (isna x).
  - destruct (rq_range_max c) as [[|x|s]|]; cbn [json_isna]; try done.
    by destruct (isna x).
Qed.

Lemma request_weight_number (c : request_criterion) :
  match rq_weight c with
  | None => true
  | Some (JsNumber w) => negb (too_large w)
  | Some _ => false
  end = true ->
  exists w, request_weight c = JsNumber w /\ too_large w = false /\
            weight64 c = f64_of_num w.
Proof.
  unfold request_weight, weight64.
  destruct (rq_weight c) as [[|w|s]|]; try done.
  - intros Hw. exists w. by apply negb_true_iff in Hw.
  - intros _. exists (Fin 1). repeat split; vm_compute; reflexivity.
Qed.

Lemma well_formed_parts (c : request_criterion) :
  well_formed c = true ->
  request_min c = JsNumber (lower_bound c) /\
  request_max c = JsNumber (upper_bound c) /\
  exists w, request_weight c = JsNumber w /\ too_large w = false /\
            weight64 c = f64_of_num w.
Proof.
  unfold well_formed. intros Hwf.
  apply andb_prop in Hwf as [Hb Hw]. apply andb_prop in Hb as [Hlo Hhi].
  apply negb_true_iff in Hlo, Hhi.
  split; [by apply request_min_bound|].
  split; [by apply request_max_bound|].
  by apply request_weight_number.
Qed.

Section RequestLoop.

Context `{Pandas}.

Lemma calculate_criteria_match_rows gdf column lo hi :
  calculate_criteria_match gdf column lo hi
  = map (fun r => if has_column gdf column
                  then match_value (to_numeric (cell_at r column)) lo hi
                  else NaN)
        (rows gdf).
Proof.
  unfold calculate_criteria_match, get_column, len.
  destruct (has_column gdf column); cbn [negb].
  - rewrite !map_map. reflexivity.
  - apply replicate_map.
Qed.

Lemma calculate_criteria_match_json_numbers gdf column lo hi :
  calculate_criteria_match_json gdf column (JsNumber lo) (JsNumber hi)
  = Ok (calculate_criteria_match gdf column lo hi).
Proof.
  unfold calculate_criteria_match_json, calculate_criteria_match.
  by destruct (has_column gdf column).
Qed.

(** One turn of the loop over a well-formed criterion, seen at each unit. *)
Lemma criterion_step_json_rows gdf c (f g : gmap string cell -> f64) :
  well_formed c = true ->
  criterion_step_json gdf (map f (rows gdf), map g (rows gdf)) c
  = Ok (map (fun r =>
               if request_applicable gdf r c
               then f64_add (f r)
                      (f64_mul (bool64 (request_match r c)) (weight64 c))
               else f r)
            (rows gdf),
        map (fun r =>
               if request_applicable gdf r c
               then f64_add (g r) (weight64 c)
               else g r)
            (rows gdf)).
Proof.
  intros Hwf.
  destruct (well_formed_parts c Hwf) as (Hlo & Hhi & w & Hw & Hl & Hw64).
  unfold criterion_step_json, request_applicable, request_match.
  rewrite Hlo, Hhi, Hw, Hw64.
  destruct (request_column c) as [column|].
  - rewrite calculate_criteria_match_json_numbers. cbn [bind fst snd].
    rewrite Hl, calculate_criteria_match_rows, !zip_with_map.
    f_equal. f_equal; apply map_ext; intros r;
      unfold match_value, num_geb;
      destruct (has_column gdf column); cbn [andb notna isna negb];
      try reflexivity;
      destruct (notna (to_numeric (cell_at r column))); cbn [notna isna negb];
      try reflexivity.
    + rewrite f64_of_bool. destruct (_ && _)%bool; reflexivity.
    + destruct (_ && _)%bool; reflexivity.
  - reflexivity.
Qed.

Lemma score_criteria_rows gdf criteria :
  Forall (fun c => well_formed c = true) criteria ->
  forall f g : gmap string cell -> f64,
  score_criteria gdf criteria (map f (rows gdf), map g (rows gdf))
  = Ok (map (fun r =>
               fold_left
                 (fun a c =>
                    if request_applicable gdf r c
                    then f64_add a
                           (f64_mul (bool64 (request_match r c)) (weight64 c))
                    else a)
                 criteria (f r))
            (rows gdf),
        map (fun r =>
               fold_left
                 (fun a c =>
                    if request_applicable gdf r c
                    then f64_add a (weight64 c)
                    else a)
                 criteria (g r))
            (rows gdf)).
Proof.
  induction 1 as [|c criteria Hc Hcs IH]; intros f g; cbn [score_criteria].
  - reflexivity.
  - rewrite criterion_step_json_rows by exact Hc. cbn [bind].
    rewrite IH. reflexivity.
Qed.

(** On well-formed criteria the loop ends, with the score of each unit. *)
Lemma calculate_feasibility_json_rows gdf criteria logic :
  Forall (fun c => well_formed c = true) criteria ->
  calculate_feasibility_json gdf criteria logic
  = Ok (map (fun r => unit_score64 gdf r criteria) (rows gdf)).
Proof.
  intros Hwf. unfold calculate_feasibility_json, len.
  destruct criteria as [|c criteria].
  - rewrite replicate_map. reflexivity.
  - rewrite !replicate_map, score_criteria_rows by exact Hwf.
    cbn [bind fst snd]. rewrite zip_with_map. f_equal.
    apply map_ext. intros r. rewrite !fold_left_filter.
    unfold unit_score64, weighted_ratio64, sum64.
    destruct (f64_gtb _ _); [|reflexivity].
    rewrite f64_mul_comm. do 3 f_equal.
    apply map_ext. intros c'. apply f64_mul_comm.
Qed.

(** With weights that are non-negative reals the guard of the loop and the
    division agree: the weights sum to 0.0 only where the ratio is
    [0.0 / 0.0]. *)
Lemma unit_score64_ratio gdf r criteria :
  Forall (fun c => nonneg64 (weight64 c)) criteria ->
  unit_score64 gdf r criteria = weighted_ratio64 gdf r criteria.
Proof.
  intros Hw. unfold unit_score64.
  destruct (f64_gtb _ _) eqn:G; [reflexivity|].
  set (app := List.filter (request_applicable gdf r) criteria) in *.
  assert (Hfine : Forall fine (map weight64 app)).
  { subst app. clear G.
    induction Hw as [|c criteria Hc Hw IH]; cbn [List.filter map];
      [constructor|].
    destruct (request_applicable gdf r c); cbn [map]; [|exact IH].
    constructor; [by apply nonneg64_fine|exact IH]. }
  destruct (sum_fine (map weight64 app) f64_zero I Hfine) as [Hf Hz].
  apply f64_gtb_fine in G; [|exact Hf].
  destruct (Hz G) as [_ Hall].
  unfold weighted_ratio64. fold app. unfold sum64 at 2. fold (sum64 (map weight64 app)).
  unfold sum64 in G |- *. rewrite G.
  assert (Hm : fold_left f64_add
                 (map (fun c => f64_mul (weight64 c)
                                  (bool64 (request_match r c))) app)
                 f64_zero = f64_zero).
  { clear -Hall. induction app as [|c app IH]; cbn [map fold_left];
      [reflexivity|].
    cbn [map] in Hall. apply Forall_cons in Hall as [-> Hall].
    rewrite f64_mul_zero_bool. cbn [f64_add SFadd f64_zero].
    by apply IH. }
  rewrite Hm. reflexivity.
Qed.

End RequestLoop.
Section RequestProperties.

Context `{Pandas}.

Lemma notna_within_unbounded (v : num) :
  notna v = true -> (NInf <=? v)%num = true /\ (v <=? PInf)%num = true.
Proof. by destruct v. Qed.

Lemma missing_bound (b : option json_scalar) (unbounded : num) :
  missing b = true -> bound b unbounded = unbounded.
Proof.
  destruct b as [[|x|s]|]; cbn [missing bound]; try done.
  by intros ->.
Qed.

Lemma unit_score64_none gdf r criteria :
  existsb (request_applicable gdf r) criteria = false ->
  unit_score64 gdf r criteria = f64_nan.
Proof.
  intros Hn. unfold unit_score64.
  by rewrite (existsb_filter_nil _ _ Hn).
Qed.

(** The score of a unit under a single criterion of weight 1.0. *)
Lemma unit_score64_single gdf r c :
  weight64 c = f64_one ->
  unit_score64 gdf r [c]
  = if request_applicable gdf r c
    then if request_match r c then f64_hundred else f64_zero
    else f64_nan.
Proof.
  intros Hw. unfold unit_score64, weighted_ratio64. cbn [List.filter].
  destruct (request_applicable gdf r c); [|reflexivity].
  cbn [map]. rewrite Hw.
  destruct (request_match r c); vm_compute; reflexivity.
Qed.

(** C1.  For every table and every list of criteria that are well formed
    (bounds that are numbers, null or absent; a weight that is a number or
    absent) with weights that are non-negative reals, [calculate_feasibility]
    returns a Series in which the score of the unit [r] at position [i] is,
    in the [float64] arithmetic of the code,
    100 × (Σ weight·match) / (Σ weight) over the criteria applicable to the
    unit (column in the table, entry coercing to a number), both sums taken
    in the order of the list, whenever at least one criterion is applicable;
    and is NaN, so never 0, when none is applicable, the empty list
    included.  With two criteria of weights 1 and 3, both applicable, of
    which the unit matches only the one of weight 3, the score is the double
    75.0. *)
Theorem calculate_feasibility_weighted gdf criteria logic :
  Forall (fun c => well_formed c = true /\ nonneg64 (weight64 c)) criteria ->
  exists scores,
    calculate_feasibility_json gdf criteria logic = Ok scores /\
    forall i r, rows gdf !! i = Some r ->
      (existsb (request_applicable gdf r) criteria = true ->
       scores !! i = Some (weighted_ratio64 gdf r criteria)) /\
      (existsb (request_applicable gdf r) criteria = false ->
       scores !! i = Some f64_nan /\ scores !! i <> Some f64_zero) /\
      (forall c1 c3,
         criteria = [c1; c3] \/ criteria = [c3; c1] ->
         weight64 c1 = f64_of_Q 1 -> weight64 c3 = f64_of_Q 3 ->
         request_applicable gdf r c1 = true ->
         request_applicable gdf r c3 = true ->
         request_match r c1 = false -> request_match r c3 = true ->
         scores !! i = Some (f64_of_Q 75)).
Proof.
  intros Hc.
  assert (Hwf : Forall (fun c => well_formed c = true) criteria).
  { eapply Forall_impl; [exact Hc|]. by intros c [? _]. }
  assert (Hw : Forall (fun c => nonneg64 (weight64 c)) criteria).
  { eapply Forall_impl; [exact Hc|]. by intros c [_ ?]. }
  eexists. split; [by apply calculate_feasibility_json_rows|].
  intros i r Hr.
  assert (Hi : map (fun r => unit_score64 gdf r criteria) (rows gdf) !! i
               = Some (weighted_ratio64 gdf r criteria)).
  { rewrite list_lookup_fmap, Hr. cbn. f_equal.
    by apply unit_score64_ratio. }
  split; [|split].
  - intros _. exact Hi.
  - intros Hn. rewrite list_lookup_fmap, Hr. cbn.
    rewrite (unit_score64_none _ _ _ Hn). split; [reflexivity|discriminate].
  - intros c1 c3 Hl W1 W3 A1 A3 M1 M3. rewrite Hi. f_equal.
    unfold weighted_ratio64.
    destruct Hl as [-> | ->]; cbn [List.filter]; rewrite A1, A3; cbn [map];
      rewrite W1, W3, M1, M3; vm_compute; reflexivity.
Qed.

(** C4 (as amended).  For every table and every list of criteria that are
    well formed (each bound a number, null or absent; each weight absent or
    a number that a double holds), scoring raises nothing and returns one
    score per unit, the score of the specification.  A min bound that is
    null or absent is [-inf] and a max bound that is null or absent is
    [+inf] to that score: under a single criterion of default weight, a
    unit with a value in the column scores 100.0 when both bounds are
    missing, 100.0 or 0.0 by the max bound alone when the min bound is
    missing, and by the min bound alone when the max bound is missing.  A
    criterion naming a column the table lacks is applicable to no unit, and
    the scores are those of the list without it. *)
Theorem calculate_feasibility_lenient gdf criteria logic :
  Forall (fun c => well_formed c = true) criteria ->
  exists scores,
    calculate_feasibility_json gdf criteria logic = Ok scores /\
    length scores = len gdf /\
    (forall i r, rows gdf !! i = Some r ->
       scores !! i = Some (unit_score64 gdf r criteria)) /\
    (forall c column i r,
       criteria = [c] -> rq_weight c = None ->
       request_column c = Some column -> has_column gdf column = true ->
       rows gdf !! i = Some r ->
       let v := to_numeric (cell_at r column) in
       notna v = true ->
       (missing (stated_min c) = true -> missing (stated_max c) = true ->
        scores !! i = Some f64_hundred) /\
       (missing (stated_min c) = true ->
        scores !! i = Some (if (v <=? upper_bound c)%num
                            then f64_hundred else f64_zero)) /\
       (missing (stated_max c) = true ->
        scores !! i = Some (if (lower_bound c <=? v)%num
                            then f64_hundred else f64_zero))) /\
    (forall before c after column,
       criteria = (before ++ c :: after)%list ->
       request_column c = Some column -> has_column gdf column = false ->
       (forall r, request_applicable gdf r c = false) /\
       calculate_feasibility_json gdf (before ++ after)%list logic
       = Ok scores).
Proof.
  intros Hwf.
  eexists. split; [by apply calculate_feasibility_json_rows|].
  split; [by rewrite length_map|].
  assert (Hi : forall i r, rows gdf !! i = Some r ->
            map (fun r => unit_score64 gdf r criteria) (rows gdf) !! i
            = Some (unit_score64 gdf r criteria)).
  { intros i r Hr. by rewrite list_lookup_fmap, Hr. }
  split; [exact Hi|]. split.
  - intros c column i r -> Hw Hc Hcol Hr v Hv.
    rewrite (Hi i r Hr), unit_score64_single
      by (unfold weight64; by rewrite Hw).
    unfold request_applicable, request_match, lower_bound, upper_bound.
    rewrite Hc, Hcol. fold v. rewrite Hv. cbn [andb].
    destruct (notna_within_unbounded v Hv) as [Hlo Hhi].
    split; [|split].
    + intros Mlo Mhi. rewrite (missing_bound _ _ Mlo), (missing_bound _ _ Mhi).
      by rewrite Hlo, Hhi.
    + intros Mlo. rewrite (missing_bound _ _ Mlo), Hlo. reflexivity.
    + intros Mhi. rewrite (missing_bound _ _ Mhi), Hhi, andb_true_r.
      reflexivity.
  - intros before c after column -> Hc Hcol.
    assert (Hno : forall r, request_applicable gdf r c = false).
    { intros r. unfold request_applicable. by rewrite Hc, Hcol. }
    split; [exact Hno|].
    rewrite calculate_feasibility_json_rows.
    + f_equal. apply map_ext. intros r.
      unfold unit_score64, weighted_ratio64.
      rewrite !List.filter_app. cbn [List.filter]. by rewrite Hno.
    + apply Forall_app in Hwf as [Hb Ha]. apply Forall_cons in Ha as [_ Ha].
      by apply Forall_app.
Qed.

End RequestProperties.

(** * The engine beyond the stated properties *)

(** ** Further definitions *)

(** The score of one unit as [calculate_feasibility] computes it: the two
    sums over the applicable criteria and the guard on the second. *)
Definition score_of `{Pandas} (gdf : GeoDataFrame) (criteria : list criterion)
    (r : gmap string cell) : num :=
  let app := List.filter (applicable gdf r) criteria in
  let wm :=
    total (map (fun c => criterion_match r c * criterion_weight c)%num app) in
  let wa := total (map criterion_weight app) in
  if (wa >? Fin 0)%num then (wm / wa * Fin 100)%num else NaN.

(** The classes in ascending order of the scores they hold. *)
Definition class_rank (class : string) : nat :=
  if String.eqb class "very_high" then 5
  else if String.eqb class "high" then 4
  else if String.eqb class "moderate_high" then 3
  else if String.eqb class "moderate" then 2
  else if String.eqb class "low" then 1
  else 0.

(** A number between two others, bounds included. *)
Definition between (lo hi v : num) : Prop := (lo <= v)%num /\ (v <= hi)%num.

(** A criterion that reads none of the columns scoring writes. *)
Definition reads_input_only (c : criterion) : Prop :=
  forall column, criterion_column c = Some column ->
                 column ∉ derived_columns.

Section EngineProperties.

Context `{Pandas}.

(** ** Scores are percentages *)

Lemma Qred_le_l (x y : Q) : (x <= y)%Q -> (Qred x <= y)%Q.
Proof. intros L. by rewrite Qred_correct. Qed.

Lemma Qred_le_r (x y : Q) : (x <= y)%Q -> (x <= Qred y)%Q.
Proof. intros L. by rewrite Qred_correct. Qed.

(** A pair of running sums: both finite, the first between 0 and the
    second. *)
Definition sums_ordered (wm wa : num) : Prop :=
  match wm, wa with
  | Fin m, Fin a => (0 <= m)%Q /\ (m <= a)%Q
  | _, _ => False
  end.

Lemma sums_ordered_step (b : bool) (w wm wa : num) :
  nonneg w -> sums_ordered wm wa ->
  sums_ordered (bool_to_float b * w + wm)%num (w + wa)%num.
Proof.
  destruct w as [w| | |], wm as [m| | |], wa as [a| | |]; simpl; try tauto.
  intros Hw [Hm Hma]. destruct b; simpl; rewrite !Qred_correct.
  - split.
    + rewrite Qmult_1_l. replace 0%Q with (0 + 0)%Q by reflexivity.
      by apply Qplus_le_compat.
    + rewrite Qmult_1_l. apply Qplus_le_compat; [apply Qle_refl|done].
  - split.
    + rewrite Qmult_0_l, Qplus_0_l. done.
    + rewrite Qmult_0_l, Qplus_0_l. eapply Qle_trans; [exact Hma|].
      rewrite <- (Qplus_0_l a) at 1. apply Qplus_le_compat; [done|apply Qle_refl].
Qed.

Lemma applicable_sums_ordered gdf r criteria :
  Forall (fun c => nonneg (criterion_weight c)) criteria ->
  let app := List.filter (applicable gdf r) criteria in
  sums_ordered
    (total (map (fun c => criterion_match r c * criterion_weight c)%num app))
    (total (map criterion_weight app)).
Proof.
  intros Hw. cbv zeta.
  induction Hw as [|c cs Hc Hcs IH]; simpl.
  - split; apply Qle_refl.
  - destruct (applicable gdf r c); [|exact IH]. simpl.
    destruct (criterion_match_bool r c) as [b ->].
    by apply sums_ordered_step.
Qed.

Lemma percentage_of_ordered (wm wa : num) :
  sums_ordered wm wa -> (wa >? Fin 0)%num = true ->
  between (Fin 0) (Fin 100) (wm / wa * Fin 100)%num.
Proof.
  destruct wm as [m| | |], wa as [a| | |]; simpl; try tauto.
  intros [Hm Hma] Ha. unfold num_gtb, num_ltb in Ha. apply Qltb_lt in Ha.
  unfold Qsgn. destruct (Qcompare_spec 0 a) as [E|L|G].
  - exfalso. rewrite <- E in Ha. exact (Qlt_irrefl _ Ha).
  - simpl. split; apply le_fin; rewrite !Qred_correct.
    + apply Qmult_le_0_compat; [|discriminate].
      apply Qle_shift_div_l; [done|]. by rewrite Qmult_0_l.
    + replace 100%Q with (1 * 100)%Q at 2 by reflexivity.
      apply Qmult_le_compat_r; [|discriminate].
      apply Qle_shift_div_r; [done|]. by rewrite Qmult_1_l.
  - exfalso. exact (Qlt_irrefl _ (Qlt_trans _ _ _ Ha G)).
Qed.

Lemma calculate_feasibility_map gdf criteria logic :
  calculate_feasibility gdf criteria logic
    = map (score_of gdf criteria) (rows gdf).
Proof.
  apply list_eq. intros i. rewrite list_lookup_fmap.
  destruct (rows gdf !! i) as [r|] eqn:Hr; simpl.
  - by rewrite (calculate_feasibility_lookup _ _ _ _ _ Hr).
  - apply lookup_ge_None. rewrite calculate_feasibility_length.
    by apply lookup_ge_None in Hr.
Qed.

(** X1.  With non-negative weights every score is a percentage: NaN, or a
    number from 0 to 100. *)
Theorem calculate_feasibility_range gdf criteria logic i s :
  Forall (fun c => nonneg (criterion_weight c)) criteria ->
  calculate_feasibility gdf criteria logic !! i = Some s ->
  s = NaN \/ between (Fin 0) (Fin 100) s.
Proof.
  intros Hw. rewrite calculate_feasibility_map, list_lookup_fmap.
  destruct (rows gdf !! i) as [r|]; [|discriminate]. simpl.
  intros [= <-]. unfold score_of.
  destruct (_ >? _)%num eqn:E; [right|by left].
  apply percentage_of_ordered; [|exact E].
  by apply applicable_sums_ordered.
Qed.

(** ** Scoring and selecting units *)

Lemma score_of_select keep gdf criteria r :
  score_of (select_rows keep gdf) criteria r = score_of gdf criteria r.
Proof. reflexivity. Qed.

(** X2.  Scoring commutes with selecting units: the scores of a selection
    of a table are the scores its units have in the whole table, in the
    same order. *)
Theorem calculate_feasibility_select gdf criteria logic keep :
  calculate_feasibility (select_rows keep gdf) criteria logic
    = map snd
        (List.filter (fun p => keep (fst p))
           (zip (rows gdf) (calculate_feasibility gdf criteria logic))).
Proof.
  rewrite !calculate_feasibility_map.
  change (rows (select_rows keep gdf)) with (List.filter keep (rows gdf)).
  induction (rows gdf) as [|r rs IH]; [done|]. simpl.
  destruct (keep r); simpl; by rewrite IH.
Qed.

(** ** What scoring adds to a table and what it leaves *)

Lemma set_column_columns gdf column values :
  columns (set_column gdf column values)
    = (columns gdf ++ (if has_column gdf column then [] else [column]))%list.
Proof.
  unfold set_column. simpl. destruct (has_column gdf column); [|done].
  by rewrite app_nil_r.
Qed.

Lemma add_feasibility_columns gdf criteria logic :
  exists new,
    columns (add_feasibility_to_gdf gdf criteria logic)
      = (columns gdf ++ new)%list /\
    forall name, name ∈ new -> name ∈ derived_columns.
Proof.
  unfold add_feasibility_to_gdf. rewrite !set_column_columns.
  rewrite <- !app_assoc. eexists. split; [reflexivity|].
  intros name. rewrite !elem_of_app. unfold derived_columns.
  repeat match goal with
         | |- context [if ?b then _ else _] => destruct b
         end;
    rewrite ?elem_of_cons, ?elem_of_nil; tauto.
Qed.

(** X3.  Scoring keeps the table it is given: the scored table has the same
    number of units, its columns are the old ones in their order followed by
    those of the four derived columns that were not there, all four derived
    columns are present, and every unit keeps every attribute other than
    the four derived ones. *)
Theorem add_feasibility_to_gdf_preserves gdf criteria logic :
  let scored := add_feasibility_to_gdf gdf criteria logic in
  len scored = len gdf /\
  (exists new, columns scored = (columns gdf ++ new)%list /\
               forall name, name ∈ new -> name ∈ derived_columns) /\
  (forall name, name ∈ derived_columns -> name ∈ columns scored) /\
  (forall i r, rows gdf !! i = Some r ->
     exists r', rows scored !! i = Some r' /\
       forall name, name ∉ derived_columns -> r' !! name = r !! name).
Proof.
  cbv zeta. split; [apply add_feasibility_len|].
  split; [apply add_feasibility_columns|]. split.
  - intros name Hn.
    assert (E : has_column (add_feasibility_to_gdf gdf criteria logic) name
                = true).
    { apply add_feasibility_has_derived. by apply bool_decide_eq_true_2. }
    by apply bool_decide_eq_true_1 in E.
  - intros i r Hr. rewrite add_feasibility_rows.
    assert (Hs : exists s, calculate_feasibility gdf criteria logic !! i = Some s).
    { apply lookup_lt_is_Some. rewrite calculate_feasibility_length.
      by apply lookup_lt_Some in Hr. }
    destruct Hs as [s Hs]. exists (scored_unit r s). split.
    + by rewrite lookup_zip_with, Hr, Hs.
    + intros name Hn. unfold derived_columns in Hn.
      rewrite !elem_of_cons, elem_of_nil in Hn.
      unfold scored_unit. rewrite !lookup_insert_ne; [done|..];
        intros <-; tauto.
Qed.

(** X4.  In a scored table the derived entries of every unit are those of
    its own score: [feasibility] holds the score scoring gives the unit,
    [feasibility_class] and [feasibility_label] the class and label of that
    score, and [feasibility_color] the color the configuration gives that
    class. *)
Theorem add_feasibility_to_gdf_derived gdf criteria logic i r' :
  rows (add_feasibility_to_gdf gdf criteria logic) !! i = Some r' ->
  exists s color,
    calculate_feasibility gdf criteria logic !! i = Some s /\
    r' !! "feasibility" = Some (CFloat s) /\
    r' !! "feasibility_class" = Some (CStr (fst (classify_feasibility s))) /\
    r' !! "feasibility_label" = Some (CStr (snd (classify_feasibility s))) /\
    r' !! "feasibility_color" = Some (CStr color) /\
    FEASIBILITY_COLORS !! fst (classify_feasibility s) = Some color.
Proof.
  rewrite add_feasibility_rows. intros Hr.
  apply lookup_zip_with_Some in Hr as (r & s & -> & Hr & Hs).
  exists s, (get_feasibility_color s). split; [exact Hs|].
  unfold scored_unit.
  split; [by rewrite !lookup_insert_ne, lookup_insert_eq by done|].
  split; [by rewrite !lookup_insert_ne, lookup_insert_eq by done|].
  split; [by rewrite !lookup_insert_ne, lookup_insert_eq by done|].
  split; [by rewrite lookup_insert_eq|].
  unfold get_feasibility_color, classify_feasibility.
  repeat match goal with
         | |- context [if ?b then _ else _] => destruct b
         end; reflexivity.
Qed.

(** ** Scoring a scored table *)

Lemma gdf_eq (a b : GeoDataFrame) :
  columns a = columns b -> rows a = rows b -> a = b.
Proof. destruct a, b. simpl. by intros -> ->. Qed.

Lemma scored_unit_twice r s1 s2 :
  scored_unit (scored_unit r s1) s2 = scored_unit r s2.
Proof.
  unfold scored_unit. apply map_eq. intros k.
  destruct (decide (k = "feasibility_color")) as [->|H4];
    [by rewrite !lookup_insert_eq|].
  destruct (decide (k = "feasibility_label")) as [->|H3];
    [by rewrite !(lookup_insert_ne _ "feasibility_color"), !lookup_insert_eq
       by done|].
  destruct (decide (k = "feasibility_class")) as [->|H2].
  { rewrite !(lookup_insert_ne _ "feasibility_color") by done.
    rewrite !(lookup_insert_ne _ "feasibility_label") by done.
    by rewrite !lookup_insert_eq. }
  destruct (decide (k = "feasibility")) as [->|H1].
  { rewrite !(lookup_insert_ne _ "feasibility_color") by done.
    rewrite !(lookup_insert_ne _ "feasibility_label") by done.
    rewrite !(lookup_insert_ne _ "feasibility_class") by done.
    by rewrite !lookup_insert_eq. }
  by rewrite !lookup_insert_ne by done.
Qed.

Lemma set_column_columns_ext gdf gdf' column values values' :
  columns gdf = columns gdf' ->
  columns (set_column gdf column values)
    = columns (set_column gdf' column values').
Proof.
  intros E. unfold set_column, has_column. simpl. by rewrite E.
Qed.

Lemma add_feasibility_columns_ext gdf gdf' criteria criteria' logic logic' :
  columns gdf = columns gdf' ->
  columns (add_feasibility_to_gdf gdf criteria logic)
    = columns (add_feasibility_to_gdf gdf' criteria' logic').
Proof.
  intros E. unfold add_feasibility_to_gdf.
  by repeat apply set_column_columns_ext.
Qed.

Lemma set_column_present gdf column values :
  has_column gdf column = true ->
  columns (set_column gdf column values) = columns gdf.
Proof. intros E. unfold set_column. simpl. by rewrite E. Qed.

Lemma add_feasibility_columns_again gdf criteria logic criteria' logic' :
  columns (add_feasibility_to_gdf
             (add_feasibility_to_gdf gdf criteria logic) criteria' logic')
    = columns (add_feasibility_to_gdf gdf criteria logic).
Proof.
  set (scored := add_feasibility_to_gdf gdf criteria logic).
  assert (Hd : forall name, bool_decide (name ∈ derived_columns) = true ->
                 has_column scored name = true).
  { intros name. apply add_feasibility_has_derived. }
  unfold add_feasibility_to_gdf at 1.
  rewrite !set_column_present; try done;
    rewrite ?has_column_set_column, ?Hd; reflexivity.
Qed.

Lemma applicable_scored gdf criteria logic r s c :
  reads_input_only c ->
  applicable (add_feasibility_to_gdf gdf criteria logic) (scored_unit r s) c
    = applicable gdf r c.
Proof.
  intros Hc. unfold applicable.
  destruct (criterion_column c) as [column|] eqn:E; [|done].
  assert (Hn : bool_decide (column ∈ derived_columns) = false).
  { apply bool_decide_eq_false_2. by apply Hc. }
  by rewrite add_feasibility_keeps_column, scored_unit_other.
Qed.

Lemma criterion_match_scored r s c :
  reads_input_only c ->
  criterion_match (scored_unit r s) c = criterion_match r c.
Proof.
  intros Hc. unfold criterion_match.
  destruct (criterion_column c) as [column|] eqn:E; [|done].
  rewrite scored_unit_other; [done|].
  apply bool_decide_eq_false_2. by apply Hc.
Qed.

Lemma score_of_scored gdf criteria logic criteria' r s :
  Forall reads_input_only criteria' ->
  score_of (add_feasibility_to_gdf gdf criteria logic) criteria'
    (scored_unit r s)
  = score_of gdf criteria' r.
Proof.
  intros Hc. unfold score_of.
  assert (Hf : List.filter
                 (applicable (add_feasibility_to_gdf gdf criteria logic)
                    (scored_unit r s)) criteria'
               = List.filter (applicable gdf r) criteria').
  { apply filter_ext_in. intros c Hin. apply applicable_scored.
    rewrite Forall_forall in Hc. apply Hc. by apply list_elem_of_In. }
  rewrite Hf.
  assert (Hm : map (fun c => criterion_match (scored_unit r s) c
                             * criterion_weight c)%num
                 (List.filter (applicable gdf r) criteria')
               = map (fun c => criterion_match r c * criterion_weight c)%num
                   (List.filter (applicable gdf r) criteria')).
  { apply map_ext_in. intros c Hin. apply filter_In in Hin as [Hin _].
    rewrite criterion_match_scored; [done|].
    rewrite Forall_forall in Hc. apply Hc. by apply list_elem_of_In. }
  by rewrite Hm.
Qed.

Lemma calculate_feasibility_scored gdf criteria logic criteria' logic' :
  Forall reads_input_only criteria' ->
  calculate_feasibility (add_feasibility_to_gdf gdf criteria logic)
    criteria' logic'
  = calculate_feasibility gdf criteria' logic'.
Proof.
  intros Hc. rewrite !calculate_feasibility_map, add_feasibility_rows.
  pose proof (calculate_feasibility_length gdf criteria logic) as Hlen.
  unfold len in Hlen. revert Hlen.
  generalize (calculate_feasibility gdf criteria logic).
  induction (rows gdf) as [|r rs IH]; intros [|s ss] Hlen;
    simpl in *; try done.
  f_equal; [by apply score_of_scored|]. apply IH. lia.
Qed.

(** X5.  Scoring an already scored table replaces the earlier scoring: as
    long as the new criteria read none of the four derived columns, the
    result is the table that scoring the original table with the new
    criteria gives.  In particular scoring twice with the same such criteria
    changes nothing. *)
Theorem add_feasibility_to_gdf_rescore gdf criteria logic criteria' logic' :
  Forall reads_input_only criteria' ->
  add_feasibility_to_gdf
    (add_feasibility_to_gdf gdf criteria logic) criteria' logic'
  = add_feasibility_to_gdf gdf criteria' logic'.
Proof.
  intros Hc. apply gdf_eq.
  - rewrite add_feasibility_columns_again.
    by apply add_feasibility_columns_ext.
  - rewrite !add_feasibility_rows, calculate_feasibility_scored by done.
    pose proof (calculate_feasibility_length gdf criteria logic) as Hlen.
    unfold len in Hlen. revert Hlen.
    generalize (calculate_feasibility gdf criteria logic).
    generalize (calculate_feasibility gdf criteria' logic').
    induction (rows gdf) as [|r rs IH]; intros [|s' ss'] [|s ss] Hlen;
      simpl in *; try done.
    f_equal; [apply scored_unit_twice|]. apply IH. lia.
Qed.

(** ** The cascade of thresholds *)

Lemma geb_mono (t v w : num) :
  (v <= w)%num -> (v >=? t)%num = true -> (w >=? t)%num = true.
Proof.
  unfold num_geb. intros L E. apply num_leb_le. apply num_leb_le in E.
  by eapply num_le_trans.
Qed.

(** X6.  Classification is monotone: of two defined scores the larger never
    gets the lower class. *)
Theorem classify_feasibility_monotone (v w : num) :
  (v <= w)%num ->
  (class_rank (fst (classify_feasibility v))
   <= class_rank (fst (classify_feasibility w)))%nat.
Proof.
  intros L. unfold classify_feasibility.
  rewrite (isna_false v) by (by eapply num_le_notna_l).
  rewrite (isna_false w) by (by eapply num_le_notna_r).
  pose proof (geb_mono (Fin 100) v w L) as M100.
  pose proof (geb_mono (Fin 75) v w L) as M75.
  pose proof (geb_mono (Fin 50) v w L) as M50.
  pose proof (geb_mono (Fin 25) v w L) as M25.
  pose proof (geb_mono (Fin 1) v w L) as M1.
  destruct (v >=? Fin 100)%num; [rewrite M100 by done; cbv; lia|].
  destruct (w >=? Fin 100)%num.
  { repeat match goal with
           | |- context [if ?b then _ else _] => destruct b
           end; cbv; lia. }
  destruct (v >=? Fin 75)%num; [rewrite M75 by done; cbv; lia|].
  destruct (w >=? Fin 75)%num.
  { repeat match goal with
           | |- context [if ?b then _ else _] => destruct b
           end; cbv; lia. }
  destruct (v >=? Fin 50)%num; [rewrite M50 by done; cbv; lia|].
  destruct (w >=? Fin 50)%num.
  { repeat match goal with
           | |- context [if ?b then _ else _] => destruct b
           end; cbv; lia. }
  destruct (v >=? Fin 25)%num; [rewrite M25 by done; cbv; lia|].
  destruct (w >=? Fin 25)%num.
  { repeat match goal with
           | |- context [if ?b then _ else _] => destruct b
           end; cbv; lia. }
  destruct (v >=? Fin 1)%num; [rewrite M1 by done; cbv; lia|].
  destruct (w >=? Fin 1)%num; cbv; lia.
Qed.

Lemma leb_false_of_le_lt (t v hi : num) :
  (v <= hi)%num -> (hi < t)%num -> (v >=? t)%num = false.
Proof.
  intros L U. unfold num_geb. apply num_lt_leb_false.
  destruct L as [x y Lxy|b Hb|x|]; inversion U; subst; constructor.
  by eapply Qle_lt_trans.
Qed.

Lemma geb_of_le_le (lo v t : num) :
  (lo <= v)%num -> (t <= lo)%num -> (v >=? t)%num = true.
Proof.
  intros L T. unfold num_geb. apply num_leb_le. by eapply num_le_trans.
Qed.

(** X7.  The cascade of [classify_feasibility] agrees with the threshold
    table of the configuration: a score within the bounds of a row of
    [FEASIBILITY_THRESHOLDS] gets the class and the label of that row.  The
    table leaves gaps that the cascade closes downwards: 99.995 lies in no
    row and is "high", 0.995 lies in no row and is "very_low". *)
Theorem classify_feasibility_threshold_table :
  (forall lo hi class label v,
     (lo, hi, class, label) ∈ FEASIBILITY_THRESHOLDS ->
     between lo hi v ->
     classify_feasibility v = (class, label)) /\
  (forall gap,
     gap = Fin (99995 # 1000) \/ gap = Fin (995 # 1000) ->
     forall lo hi class label,
       (lo, hi, class, label) ∈ FEASIBILITY_THRESHOLDS ->
       ~ between lo hi gap) /\
  classify_feasibility (Fin (99995 # 1000)) = ("high", "75-100%") /\
  classify_feasibility (Fin (995 # 1000)) = ("very_low", "0%").
Proof.
  split; [|split; [|split; reflexivity]].
  - intros lo hi class label v Hin [L U].
    assert (Hv : isna v = false) by (apply isna_false; by eapply num_le_notna_r).
    unfold FEASIBILITY_THRESHOLDS in Hin.
    rewrite !elem_of_cons, elem_of_nil in Hin.
    unfold classify_feasibility. rewrite Hv.
    destruct Hin as [E|[E|[E|[E|[E|[E|[]]]]]]]; injection E as -> -> -> ->;
      repeat first
        [ rewrite (geb_of_le_le _ v _ L)
            by (apply le_fin; unfold Qle; simpl; lia)
        | rewrite (leb_false_of_le_lt _ v _ U)
            by (apply lt_fin; unfold Qlt; simpl; lia) ];
      reflexivity.
  - intros gap Hgap lo hi class label Hin [L U].
    unfold FEASIBILITY_THRESHOLDS in Hin.
    rewrite !elem_of_cons, elem_of_nil in Hin.
    destruct Hin as [E|[E|[E|[E|[E|[E|[]]]]]]]; injection E as -> -> -> ->;
      destruct Hgap as [-> | ->];
      inversion L as [? ? HL| | |]; inversion U as [? ? HU| | |]; subst;
      unfold Qle in *; simpl in *; lia.
Qed.

(** ** The statistics and the distribution *)

Lemma num_ltb_negb_leb (s t : num) :
  s <> NaN -> t <> NaN -> num_ltb s t = negb (num_leb t s).
Proof. destruct s, t; try done. Qed.

Lemma filter_disjoint_length {A : Type} (p q : A -> bool) (l : list A) :
  (forall x, p x = true -> q x = false) ->
  (length (List.filter p l) + length (List.filter q l) <= length l)%nat.
Proof.
  intros Hd. induction l as [|x l IH]; simpl; [lia|].
  destruct (p x) eqn:Ep.
  - rewrite (Hd x Ep). simpl. lia.
  - destruct (q x); simpl; lia.
Qed.

Lemma filter_length_le {A : Type} (p : A -> bool) (l : list A) :
  (length (List.filter p l) <= length l)%nat.
Proof. induction l as [|x l IH]; simpl; [lia|]. destruct (p x); simpl; lia. Qed.

(** X8.  The counts of the statistics fit together on every table that has
    a [feasibility] column: units with data and units without add up to the
    total, and the units counted as high (score at least 75) and as low
    (score below 25) are distinct units with data, so no count is negative
    and high and low together never exceed the units with data. *)
Theorem get_feasibility_stats_counts table :
  has_column table "feasibility" = true ->
  exists total with_data no_data high low,
    let stats := get_feasibility_stats table in
    dict_get stats "total_blocks" = Some (SInt total) /\
    dict_get stats "blocks_with_data" = Some (SInt with_data) /\
    dict_get stats "blocks_no_data" = Some (SInt no_data) /\
    dict_get stats "high_feasibility" = Some (SInt high) /\
    dict_get stats "low_feasibility" = Some (SInt low) /\
    total = Z.of_nat (len table) /\
    (with_data + no_data = total)%Z /\
    (0 <= with_data)%Z /\ (0 <= no_data)%Z /\
    (0 <= high)%Z /\ (0 <= low)%Z /\
    (high + low <= with_data)%Z.
Proof.
  intros Hc. unfold get_feasibility_stats. rewrite Hc. cbn [negb].
  set (valid := dropna (float_series table "feasibility")).
  do 5 eexists. cbv zeta.
  cbn [dict_get String.eqb Ascii.eqb Bool.eqb].
  repeat (split; [reflexivity|]).
  assert (Hv : (length valid <= len table)%nat).
  { unfold valid, dropna, float_series, get_column, len.
    etransitivity; [apply filter_length_le|]. by rewrite !length_map. }
  pose proof (filter_disjoint_length
                (fun v => (v >=? Fin 75)%num) (fun v => (v <? Fin 25)%num)
                valid) as Hd.
  unfold count_where.
  repeat split; try lia.
  apply inj_le in Hd; [|].
  - rewrite Nat2Z.inj_add in Hd. exact Hd.
  - intros v E. unfold num_geb in E. apply num_leb_le in E.
    destruct (num_ltb v (Fin 25)) eqn:E'; [|done].
    apply num_ltb_lt in E'.
    assert (L : (Fin 25 <= Fin 75)%num) by (apply le_fin; discriminate).
    pose proof (num_lt_leb_false _ _ (num_lt_le_trans _ _ _ E' L)) as F.
    apply num_leb_le in E. congruence.
Qed.

(** A unit whose label is the label of its own score. *)
Definition labelled (r : gmap string cell) : Prop :=
  cell_at r "feasibility_label"
    = CStr (snd (classify_feasibility (unit_score r))).

Lemma label_of_score (s : num) :
  let l := snd (classify_feasibility s) in
  notna s = negb (String.eqb l "No Data") /\
  notna s && (s >=? Fin 75)%num
    = String.eqb l "100%" || String.eqb l "75-100%" /\
  notna s && (s <? Fin 25)%num
    = String.eqb l "1-25%" || String.eqb l "0%".
Proof.
  cbv zeta. unfold classify_feasibility, notna.
  destruct (isna s) eqn:En; [done|]. cbn [negb andb].
  assert (Hs : s <> NaN) by (intros ->; discriminate).
  rewrite (num_ltb_negb_leb s (Fin 25)) by done.
  assert (M : forall t t', (Fin t' <= Fin t)%num ->
                (s >=? Fin t)%num = true -> (s >=? Fin t')%num = true).
  { intros t t' L E. unfold num_geb in *. apply num_leb_le.
    apply num_leb_le in E. by eapply num_le_trans. }
  assert (L1 : (Fin 75 <= Fin 100)%num) by (apply le_fin; discriminate).
  assert (L2 : (Fin 25 <= Fin 100)%num) by (apply le_fin; discriminate).
  assert (L3 : (Fin 25 <= Fin 75)%num) by (apply le_fin; discriminate).
  assert (L4 : (Fin 25 <= Fin 50)%num) by (apply le_fin; discriminate).
  unfold num_geb in *.
  destruct (num_leb (Fin 100) s) eqn:E100.
  { by rewrite (M 100%Q 75%Q L1 E100), (M 100%Q 25%Q L2 E100). }
  destruct (num_leb (Fin 75) s) eqn:E75.
  { by rewrite (M 75%Q 25%Q L3 E75). }
  destruct (num_leb (Fin 50) s) eqn:E50.
  { by rewrite (M 50%Q 25%Q L4 E50). }
  destruct (num_leb (Fin 25) s) eqn:E25; [done|].
  by destruct (num_leb (Fin 1) s).
Qed.

Lemma labelled_counts (rs : list (gmap string cell)) :
  Forall labelled rs ->
  let valid := dropna (map unit_score rs) in
  let labels := map (fun r => as_label (cell_at r "feasibility_label")) rs in
  count_where (fun v => (v >=? Fin 75)%num) valid
    = (occurrences "100%" labels + occurrences "75-100%" labels)%Z /\
  count_where (fun v => (v <? Fin 25)%num) valid
    = (occurrences "1-25%" labels + occurrences "0%" labels)%Z /\
  (Z.of_nat (length rs) - Z.of_nat (length valid))%Z
    = occurrences "No Data" labels.
Proof.
  unfold count_where, dropna.
  induction 1 as [|r rs Hr Hrs IH]; [done|].
  destruct IH as (IH1 & IH2 & IH3). cbv zeta in *.
  cbn [map]. rewrite Hr. cbn [as_label occurrences].
  destruct (label_of_score (unit_score r)) as (E1 & E2 & E3).
  pose proof (classify_feasibility_label (unit_score r)) as Hl.
  cbv zeta in *.
  set (l := snd (classify_feasibility (unit_score r))) in *.
  clearbody l. cbn [List.filter].
  unfold all_labels in Hl. rewrite !elem_of_cons, elem_of_nil in Hl.
  destruct Hl as [->|[->|[->|[->|[->|[->|[->|[]]]]]]]];
    cbn [String.eqb Ascii.eqb Bool.eqb negb orb] in E1, E2, E3;
    rewrite E1 in *; cbn [andb] in E2, E3;
    cbn [List.filter]; rewrite ?E2, ?E3;
    cbn [List.filter length String.eqb Ascii.eqb Bool.eqb];
    rewrite ?Nat2Z.inj_succ; repeat split; lia.
Qed.

Lemma distribution_lookup table label :
  has_column table "feasibility_label" = true ->
  bucket_labels (map as_label (get_column table "feasibility_label")) ->
  label ∈ all_labels ->
  get_feasibility_distribution table !! label
    = Some (occurrences label
              (map as_label (get_column table "feasibility_label"))).
Proof.
  intros Hc Hb Hin. unfold get_feasibility_distribution.
  rewrite Hc. cbn [negb]. cbv zeta.
  rewrite fill_labels_lookup, value_counts_lookup.
  rewrite (bool_decide_eq_true_2 _ Hin).
  by destruct (Z.eqb_spec
                 (occurrences label
                    (map as_label (get_column table "feasibility_label"))) 0)
    as [->|].
Qed.

Lemma selected_labelled gdf criteria logic keep :
  Forall labelled
    (rows (select_rows keep (add_feasibility_to_gdf gdf criteria logic))).
Proof.
  change (rows (select_rows keep ?g)) with (List.filter keep (rows g)).
  rewrite add_feasibility_rows. apply Forall_forall. intros r Hr.
  apply list_elem_of_In, filter_In in Hr as [Hr _].
  apply list_elem_of_In, elem_of_lookup_zip_with in Hr
    as (i & r0 & s & -> & _ & _).
  unfold labelled, unit_score.
  by rewrite scored_unit_label, scored_unit_feasibility.
Qed.

(** X9.  On a scored table, whole or restricted to a selection of its
    units, the statistics agree with the distribution: the units counted as
    high are those of the buckets "100%" and "75-100%", the units counted
    as low are those of the buckets "1-25%" and "0%", the units without
    data are those of the bucket "No Data", and the units with data are
    those of the six other buckets. *)
Theorem get_feasibility_stats_distribution gdf criteria logic :
  let scored := add_feasibility_to_gdf gdf criteria logic in
  let agree table :=
    let stats := get_feasibility_stats table in
    let d label :=
      default 0%Z (get_feasibility_distribution table !! label) in
    dict_get stats "high_feasibility"
      = Some (SInt (d "100%" + d "75-100%")) /\
    dict_get stats "low_feasibility"
      = Some (SInt (d "1-25%" + d "0%")) /\
    dict_get stats "blocks_no_data" = Some (SInt (d "No Data")) /\
    dict_get stats "blocks_with_data"
      = Some (SInt (d "100%" + d "75-100%" + d "50-75%" + d "25-50%"
                    + d "1-25%" + d "0%")) in
  agree scored /\ forall keep, agree (select_rows keep scored).
Proof.
  intros scored agree.
  assert (Hk : forall keep, agree (select_rows keep scored)).
  { intros keep. unfold agree. cbv zeta.
    set (table := select_rows keep scored).
    assert (Hf : has_column table "feasibility" = true).
    { unfold table. rewrite has_column_select_rows.
      by apply add_feasibility_has_derived. }
    assert (Hc : has_column table "feasibility_label" = true).
    { unfold table. rewrite has_column_select_rows.
      by apply add_feasibility_has_derived. }
    pose proof (scored_bucket_labels gdf criteria logic keep) as Hb.
    fold scored in Hb. fold table in Hb.
    assert (Hd : forall label, label ∈ all_labels ->
              default 0%Z (get_feasibility_distribution table !! label)
              = occurrences label
                  (map as_label (get_column table "feasibility_label"))).
    { intros label Hin. by rewrite (distribution_lookup table label Hc Hb Hin). }
    rewrite !Hd by (unfold all_labels; rewrite !elem_of_cons; tauto).
    pose proof (labelled_counts (rows table)
                  (selected_labelled gdf criteria logic keep)) as Hn.
    cbv zeta in Hn. destruct Hn as (H1 & H2 & H3).
    pose proof (occurrences_total _ Hb) as Ht.
    unfold all_labels in Ht. cbn [map foldr] in Ht.
    unfold get_feasibility_stats. rewrite Hf.
    cbn [negb dict_get String.eqb Ascii.eqb Bool.eqb].
    assert (Hs : float_series table "feasibility"
                 = map unit_score (rows table)).
    { unfold float_series, get_column. by rewrite map_map. }
    assert (Hl : map as_label (get_column table "feasibility_label")
                 = map (fun r => as_label (cell_at r "feasibility_label"))
                     (rows table)).
    { unfold get_column. by rewrite map_map. }
    rewrite Hs, Hl in *. rewrite length_map in Ht.
    unfold len. rewrite H1, H2, H3.
    repeat split. f_equal. f_equal. lia. }
  split; [|exact Hk].
  specialize (Hk (fun _ => true)). by rewrite select_rows_all in Hk.
Qed.

(** ** The extremes and the median *)

Lemma num_lt_le (a b : num) : (a < b)%num -> (a <= b)%num.
Proof.
  destruct 1; constructor; try done. by apply Qlt_le_weak.
Qed.

Lemma num_ltb_false_le (a b : num) :
  a <> NaN -> b <> NaN -> num_ltb a b = false -> (b <= a)%num.
Proof.
  intros Ha Hb E. rewrite num_ltb_negb_leb in E by done.
  apply negb_false_iff in E. by apply num_leb_le.
Qed.

Lemma fold_min_spec (s : list num) : forall x,
  Forall (fun v => v <> NaN) (x :: s) ->
  let m := fold_left (fun m y => if (y <? m)%num then y else m) s x in
  m ∈ x :: s /\ forall v, v ∈ x :: s -> (m <= v)%num.
Proof.
  induction s as [|y s IH]; intros x Hn; cbn [fold_left].
  - apply Forall_cons in Hn as [Hx _]. split; [apply list_elem_of_here|].
    intros v Hv. apply elem_of_cons in Hv as [->|Hv].
    + by apply num_le_refl.
    + by apply elem_of_nil in Hv.
  - apply Forall_cons in Hn as [Hx Hn]. pose proof Hn as Hn'.
    apply Forall_cons in Hn' as [Hy Hs].
    set (x' := if (y <? x)%num then y else x).
    assert (Hx' : x' <> NaN /\ (x' = x \/ x' = y)
                  /\ (x' <= x)%num /\ (x' <= y)%num).
    { unfold x'. destruct (num_ltb y x) eqn:E.
      - repeat split; [done|by right| |by apply num_le_refl].
        apply num_lt_le. by apply num_ltb_lt.
      - repeat split; [done|by left|by apply num_le_refl|].
        by apply num_ltb_false_le. }
    destruct Hx' as (Hx'n & Hx'e & Hx'x & Hx'y).
    destruct (IH x') as [Hin Hle]; [by apply Forall_cons|].
    cbv zeta in *. split.
    + apply elem_of_cons in Hin as [->|Hin].
      * destruct Hx'e as [->| ->]; rewrite !elem_of_cons; tauto.
      * rewrite !elem_of_cons; tauto.
    + intros v Hv.
      assert (Hm : (fold_left (fun m y0 => if (y0 <? m)%num then y0 else m)
                      s x' <= x')%num)
        by (apply Hle, list_elem_of_here).
      rewrite !elem_of_cons in Hv. destruct Hv as [->|[->|Hv]].
      * by eapply num_le_trans.
      * by eapply num_le_trans.
      * apply Hle. by apply list_elem_of_further.
Qed.

Lemma fold_max_spec (s : list num) : forall x,
  Forall (fun v => v <> NaN) (x :: s) ->
  let m := fold_left (fun m y => if (m <? y)%num then y else m) s x in
  m ∈ x :: s /\ forall v, v ∈ x :: s -> (v <= m)%num.
Proof.
  induction s as [|y s IH]; intros x Hn; cbn [fold_left].
  - apply Forall_cons in Hn as [Hx _]. split; [apply list_elem_of_here|].
    intros v Hv. apply elem_of_cons in Hv as [->|Hv].
    + by apply num_le_refl.
    + by apply elem_of_nil in Hv.
  - apply Forall_cons in Hn as [Hx Hn]. pose proof Hn as Hn'.
    apply Forall_cons in Hn' as [Hy Hs].
    set (x' := if (x <? y)%num then y else x).
    assert (Hx' : x' <> NaN /\ (x' = x \/ x' = y)
                  /\ (x <= x')%num /\ (y <= x')%num).
    { unfold x'. destruct (num_ltb x y) eqn:E.
      - repeat split; [done|by right| |by apply num_le_refl].
        apply num_lt_le. by apply num_ltb_lt.
      - repeat split; [done|by left|by apply num_le_refl|].
        by apply num_ltb_false_le. }
    destruct Hx' as (Hx'n & Hx'e & Hx'x & Hx'y).
    destruct (IH x') as [Hin Hle]; [by apply Forall_cons|].
    cbv zeta in *. split.
    + apply elem_of_cons in Hin as [->|Hin].
      * destruct Hx'e as [->| ->]; rewrite !elem_of_cons; tauto.
      * rewrite !elem_of_cons; tauto.
    + intros v Hv.
      assert (Hm : (x' <= fold_left (fun m y0 => if (m <? y0)%num then y0 else m)
                            s x')%num)
        by (apply Hle, list_elem_of_here).
      rewrite !elem_of_cons in Hv. destruct Hv as [->|[->|Hv]].
      * by eapply num_le_trans.
      * by eapply num_le_trans.
      * apply Hle. by apply list_elem_of_further.
Qed.

Lemma elem_of_valid table v :
  v ∈ dropna (float_series table "feasibility") <->
  v <> NaN /\ exists r, r ∈ rows table /\ unit_score r = v.
Proof.
  unfold dropna, float_series, get_column. rewrite map_map.
  rewrite list_elem_of_In, filter_In, <- list_elem_of_In, notna_true.
  rewrite list_elem_of_fmap. unfold unit_score.
  split.
  - intros [(r & -> & Hr) Hn]. split; [done|]. by exists r.
  - intros [Hn (r & Hr & <-)]. split; [|done]. by exists r.
Qed.

Lemma valid_notna table :
  Forall (fun v => v <> NaN) (dropna (float_series table "feasibility")).
Proof.
  apply Forall_forall. intros v Hv. by apply elem_of_valid in Hv as [? _].
Qed.

Lemma series_extremes (valid : list num) :
  valid <> [] -> Forall (fun v => v <> NaN) valid ->
  (series_min valid ∈ valid /\ series_max valid ∈ valid) /\
  forall v, v ∈ valid -> (series_min valid <= v <= series_max valid)%num.
Proof.
  intros Hne Hn. destruct valid as [|x s]; [done|].
  destruct (fold_min_spec s x Hn) as [I1 L1].
  destruct (fold_max_spec s x Hn) as [I2 L2].
  cbv zeta in *. unfold series_min, series_max.
  split; [by split|]. intros v Hv. split; [by apply L1|by apply L2].
Qed.

(** X10.  On a table with a [feasibility] column and at least one unit with
    a score, the statistics report as [min] and [max] two scores that units
    of the table carry, and the score of every unit that has one lies
    between them. *)
Theorem get_feasibility_stats_extremes table r0 :
  has_column table "feasibility" = true ->
  r0 ∈ rows table -> unit_score r0 <> NaN ->
  exists lo hi,
    let stats := get_feasibility_stats table in
    dict_get stats "min" = Some (SFloat lo) /\
    dict_get stats "max" = Some (SFloat hi) /\
    (exists r, r ∈ rows table /\ unit_score r = lo) /\
    (exists r, r ∈ rows table /\ unit_score r = hi) /\
    forall r, r ∈ rows table -> unit_score r <> NaN ->
      (lo <= unit_score r <= hi)%num.
Proof.
  intros Hc Hr0 Hs0. unfold get_feasibility_stats. rewrite Hc. cbn [negb].
  set (valid := dropna (float_series table "feasibility")).
  assert (H0 : unit_score r0 ∈ valid).
  { apply elem_of_valid. split; [done|]. by exists r0. }
  assert (Hne : valid <> []).
  { intros E. rewrite E in H0. by apply elem_of_nil in H0. }
  destruct (series_extremes valid Hne (valid_notna table))
    as [[I1 I2] Hb].
  assert (Hlen : Nat.ltb 0 (length valid) = true).
  { apply Nat.ltb_lt. destruct valid; [done|simpl; lia]. }
  exists (series_min valid), (series_max valid). cbv zeta.
  cbn [dict_get String.eqb Ascii.eqb Bool.eqb]. rewrite Hlen.
  split; [done|]. split; [done|].
  apply elem_of_valid in I1 as [_ I1]. apply elem_of_valid in I2 as [_ I2].
  split; [done|]. split; [done|].
  intros r Hr Hs. apply Hb. apply elem_of_valid. split; [done|]. by exists r.
Qed.







(** ** The features of the response *)

(** The properties of one feature: the unit's entries in column order,
    after [to_json] and the clean-up loop. *)
Definition feature_of (cols : list string) (r : gmap string cell)
    : list (string * cell) :=
  clean_properties
    (map (fun column => (column, json_cell (cell_at r column))) cols).

Lemma feature_of_keys cols r : dict_keys (feature_of cols r) = cols.
Proof.
  unfold feature_of, clean_properties, dict_keys. rewrite !map_map.
  induction cols as [|c cols IH]; [done|]. cbn [map]. rewrite IH. f_equal.
  cbn [snd fst]. destruct (json_cell (cell_at r c)) as [| |x|]; try done.
  by destruct (isna x).
Qed.

Lemma json_cell_clean (c : cell) :
  match json_cell c with
  | CFloat x => if isna x then CNone else json_cell c
  | _ => json_cell c
  end = json_cell c.
Proof.
  destruct c as [| |x|]; try done. simpl.
  destruct (isna x) eqn:E; [done|]. by rewrite E.
Qed.

Lemma feature_of_get cols r name :
  name ∈ cols ->
  dict_get (feature_of cols r) name = Some (json_cell (cell_at r name)).
Proof.
  unfold feature_of, clean_properties. rewrite map_map. cbn [snd fst].
  induction cols as [|c cols IH]; intros Hin.
  - by apply elem_of_nil in Hin.
  - cbn [map dict_get].
    assert (Hk : forall v,
              fst (match v with
                   | CFloat x => if isna x then (c, CNone) else (c, v)
                   | _ => (c, v)
                   end) = c).
    { intros [| |x|]; try done. by destruct (isna x). }
    assert (Hv : forall v,
              snd (match v with
                   | CFloat x => if isna x then (c, CNone) else (c, v)
                   | _ => (c, v)
                   end)
              = match v with
                | CFloat x => if isna x then CNone else v
                | _ => v
                end).
    { intros [| |x|]; try done. by destruct (isna x). }
    destruct (match json_cell (cell_at r c) with
              | CFloat x =>
                  if isna x then (c, CNone) else (c, json_cell (cell_at r c))
              | _ => (c, json_cell (cell_at r c))
              end) as [k v] eqn:E.
    pose proof (Hk (json_cell (cell_at r c))) as Hk'.
    pose proof (Hv (json_cell (cell_at r c))) as Hv'.
    rewrite E in Hk', Hv'. cbn [fst snd] in Hk', Hv'. subst k.
    destruct (String.eqb_spec c name) as [->|Hne].
    + rewrite Hv'. f_equal. apply json_cell_clean.
    + apply IH. apply elem_of_cons in Hin as [->|Hin]; done.
Qed.

Lemma feature_of_no_nan cols r :
  forall kv, kv ∈ feature_of cols r -> snd kv <> CFloat NaN.
Proof.
  intros kv Hin. unfold feature_of, clean_properties in Hin.
  rewrite map_map in Hin. apply list_elem_of_fmap in Hin as (c & -> & _).
  cbn [snd fst]. destruct (cell_at r c) as [| |x|]; try done.
  simpl. destruct (isna x) eqn:E; [done|]. rewrite E. cbn [snd].
  intros [= ->]. done.
Qed.

Lemma geojson_features gdf :
  map clean_properties (to_json gdf) = map (feature_of (columns gdf)) (rows gdf).
Proof. unfold to_json. by rewrite map_map. Qed.

(** X12.  When [calculate_and_get_geojson] returns, whatever the scope, its
    features are the units of the input table, one each and in order.  The
    properties of a feature are keyed by the columns of the scored table in
    their order; an input column that is not one of the four derived ones
    carries the unit's own entry, with NaN written as null; [feasibility] is
    the unit's score, null when it has none, and [feasibility_label] the
    label of that score; and no property is a NaN float. *)
Theorem calculate_and_get_geojson_features
    gdf criteria logic district resp :
  calculate_and_get_geojson gdf criteria logic district = Ok resp ->
  length (geojson resp) = len gdf /\
  forall i r, rows gdf !! i = Some r ->
    exists feature s,
      geojson resp !! i = Some feature /\
      calculate_feasibility gdf criteria logic !! i = Some s /\
      dict_keys feature = columns (add_feasibility_to_gdf gdf criteria logic) /\
      (forall name, name ∈ columns gdf -> name ∉ derived_columns ->
         dict_get feature name = Some (json_cell (cell_at r name))) /\
      dict_get feature "feasibility"
        = Some (if isna s then CNone else CFloat s) /\
      dict_get feature "feasibility_label"
        = Some (CStr (snd (classify_feasibility s))) /\
      (forall kv, kv ∈ feature -> snd kv <> CFloat NaN).
Proof.
  intros Hres.
  destruct (calculate_and_get_geojson_inv _ _ _ _ _ Hres) as [keep ->].
  cbn [geojson]. rewrite geojson_features.
  set (scored := add_feasibility_to_gdf gdf criteria logic).
  split.
  { rewrite length_map. apply add_feasibility_len. }
  intros i r Hr.
  assert (Hs : exists s, calculate_feasibility gdf criteria logic !! i = Some s).
  { apply lookup_lt_is_Some. rewrite calculate_feasibility_length.
    apply lookup_lt_Some in Hr. exact Hr. }
  destruct Hs as [s Hs].
  assert (Hrow : rows scored !! i = Some (scored_unit r s)).
  { unfold scored. rewrite add_feasibility_rows, lookup_zip_with, Hr.
    simpl. by rewrite Hs. }
  assert (Hcol : forall name,
            name ∈ columns gdf \/ name ∈ derived_columns ->
            name ∈ columns scored).
  { intros name Hn.
    assert (E : has_column scored name = true).
    { unfold scored. rewrite add_feasibility_has_column.
      destruct Hn as [Hn|Hn].
      - unfold has_column. by rewrite (bool_decide_eq_true_2 _ Hn).
      - rewrite (bool_decide_eq_true_2 _ Hn). apply orb_true_r. }
    unfold has_column in E. by apply bool_decide_eq_true_1 in E. }
  exists (feature_of (columns scored) (scored_unit r s)), s.
  split; [by rewrite list_lookup_fmap, Hrow|].
  split; [done|]. split; [apply feature_of_keys|].
  split; [|split; [|split]].
  - intros name Hin Hnd. rewrite feature_of_get by (apply Hcol; by left).
    rewrite scored_unit_other; [done|]. by apply bool_decide_eq_false_2.
  - rewrite feature_of_get.
    + by rewrite scored_unit_feasibility.
    + apply Hcol. right. unfold derived_columns. rewrite !elem_of_cons. tauto.
  - rewrite feature_of_get.
    + by rewrite scored_unit_label.
    + apply Hcol. right. unfold derived_columns. rewrite !elem_of_cons. tauto.
  - by apply feature_of_no_nan.
Qed.

(** ** The units in scope *)



Lemma statistics_of_total table :
  has_column table "feasibility" = true ->
  dict_get (statistics_of table) "total_blocks"
    = Some (SInt (Z.of_nat (len table))).
Proof. intros Hc. by destruct (statistics_of_counts table Hc) as [Ht _]. Qed.


(** X14.  When [calculate_and_get_geojson] returns, [total_blocks] is a
    count of units between 0 and the number of features of the response,
    and without a scope ([None] or the empty string) it is that number:
    the statistics then cover every feature. *)
Theorem calculate_and_get_geojson_total_blocks
    gdf criteria logic district resp :
  calculate_and_get_geojson gdf criteria logic district = Ok resp ->
  exists n,
    dict_get (statistics resp) "total_blocks" = Some (SInt n) /\
    (0 <= n <= Z.of_nat (length (geojson resp)))%Z /\
    (truthy district = false -> n = Z.of_nat (length (geojson resp))).
Proof.
  intros Hres.
  set (scored := add_feasibility_to_gdf gdf criteria logic).
  assert (Hlen : length (map clean_properties (to_json scored)) = len scored).
  { unfold to_json. by rewrite !length_map. }
  assert (Hf : forall keep,
            has_column (select_rows keep scored) "feasibility" = true).
  { intros keep. rewrite has_column_select_rows.
    by apply add_feasibility_has_derived. }
  pose proof Hres as Hres'.
  apply calculate_and_get_geojson_inv in Hres' as [keep Hk]. fold scored in Hk.
  exists (Z.of_nat (len (select_rows keep scored))).
  split; [|split].
  - rewrite Hk. cbn [statistics]. by apply statistics_of_total.
  - rewrite Hk. cbn [geojson]. rewrite Hlen. unfold len.
    change (rows (select_rows keep scored))
      with (List.filter keep (rows scored)).
    pose proof (filter_length_le keep (rows scored)). lia.
  - intros Hd. rewrite calculate_and_get_geojson_scope in Hres.
    cbv zeta in Hres. rewrite Hd in Hres. fold scored in Hres.
    rewrite Hk in Hres. injection Hres as E.
    apply (f_equal (fun st => dict_get st "total_blocks")) in E.
    rewrite !statistics_of_total in E
      by first [by apply add_feasibility_has_derived | by apply Hf].
    rewrite Hk. cbn [geojson]. rewrite Hlen. injection E as E. by rewrite E.
Qed.

(** ** Criteria of weight zero *)

(** A criterion whose weight is the number zero. *)
Definition zero_weight (c : criterion) : bool :=
  match criterion_weight c with
  | Fin q => Qeq_bool q 0
  | _ => false
  end.

Lemma total_reduced (l : list num) :
  match total l with Fin t => Qred t = t | _ => True end.
Proof.
  destruct l as [|x l]; [done|]. cbn [total foldr].
  destruct x as [q| | |], (foldr num_add (Fin 0) l) as [t| | |]; try done.
  simpl. apply Qred_complete, Qred_correct.
Qed.

Lemma zero_add_total (z : num) (l : list num) :
  is_zero z -> (z + total l)%num = total l.
Proof.
  intros Hz. pose proof (total_reduced l) as Hr.
  destruct z as [q| | |]; try done. simpl in Hz.
  destruct (total l) as [t| | |]; try done. simpl.
  rewrite <- Hr at 2. f_equal. apply Qred_complete.
  rewrite Hz. apply Qplus_0_l.
Qed.

Lemma zero_weight_is_zero (c : criterion) :
  zero_weight c = true -> is_zero (criterion_weight c).
Proof.
  unfold zero_weight. destruct (criterion_weight c); try done.
  simpl. apply Qeq_bool_eq.
Qed.

Lemma score_of_drop_zero gdf criteria r :
  score_of gdf (List.filter (fun c => negb (zero_weight c)) criteria) r
    = score_of gdf criteria r.
Proof.
  unfold score_of. cbv zeta.
  assert (E : forall f : criterion -> num,
            (forall c, zero_weight c = true -> is_zero (f c)) ->
            total (map f (List.filter (applicable gdf r)
                            (List.filter (fun c => negb (zero_weight c))
                               criteria)))
            = total (map f (List.filter (applicable gdf r) criteria))).
  { intros f Hf. induction criteria as [|c cs IH]; [done|].
    cbn [List.filter]. destruct (zero_weight c) eqn:Ez; cbn [negb].
    - destruct (applicable gdf r c); [|exact IH].
      cbn [map total foldr]. fold (total (map f (List.filter (applicable gdf r) cs))).
      rewrite zero_add_total by (by apply Hf). exact IH.
    - cbn [List.filter]. destruct (applicable gdf r c); [|exact IH].
      cbn [map total foldr]. unfold total in IH. by rewrite IH. }
  rewrite (E criterion_weight zero_weight_is_zero).
  rewrite (E (fun c => criterion_match r c * criterion_weight c)%num); [done|].
  intros c Hz. destruct (criterion_match_bool r c) as [b ->].
  rewrite num_mul_comm. by apply is_zero_mul_bool, zero_weight_is_zero.
Qed.

(** X15.  A criterion of weight zero has no effect: leaving the criteria of
    weight zero out of a request changes the score of no unit. *)
Theorem calculate_feasibility_zero_weight gdf criteria logic :
  calculate_feasibility gdf
    (List.filter (fun c => negb (zero_weight c)) criteria) logic
    = calculate_feasibility gdf criteria logic.
Proof.
  rewrite !calculate_feasibility_map. apply map_ext. intros r.
  apply score_of_drop_zero.
Qed.

End EngineProperties.

(** * data_utils.py: variable groups and interventions *)

(** ** Text *)

(** [str.lower()] on ASCII text. *)
Definition lower_ascii (a : ascii) : ascii :=
  let n := nat_of_ascii a in
  if ((65 <=? n)%nat && (n <=? 90)%nat)%bool then ascii_of_nat (n + 32) else a.

Fixpoint lower (s : string) : string :=
  match s with
  | EmptyString => EmptyString
  | String a s' => String (lower_ascii a) (lower s')
  end.

(** [phrase in s]: the phrase occurs in [s] as a substring. *)
Fixpoint contains (phrase s : string) : bool :=
  String.prefix phrase s
  || match s with
     | EmptyString => false
     | String _ s' => contains phrase s'
     end.

(** [any(x in s for x in phrases)]. *)
Definition any_in (phrases : list string) (s : string) : bool :=
  existsb (fun x => contains x s) phrases.

Definition categorize_gp_variable (col_name : string) : string :=
  let col_lower := lower col_name in
  if any_in ["poultry"; "pig"; "cattle"; "buffalo"; "goat"; "sheep"; "horse";
             "donkey"; "camel"; "mule"; "livestock"] col_lower
  then "Livestock"
  else if any_in ["veterinary"; "milk collection"] col_lower
  then "Livestock Services"
  else if any_in ["road"; "transport"; "railway"] col_lower
  then "Transport & Connectivity"
  else if any_in ["bank"; "atm"; "market"; "mandies"] col_lower
  then "Finance & Markets"
  else if any_in ["electricity"; "internet"; "telephone"; "broadband"] col_lower
  then "Utilities"
  else if any_in ["fodder"; "crop"; "pasture"; "grazing"] col_lower
  then "Land & Agriculture"
  else if any_in ["shg"; "shgs"] col_lower
  then "Collectives"
  else if any_in ["duckery"; "farming"; "fishery"; "goatery"; "piggery";
                  "poultry_activity"] col_lower
  then "Activities"
  else "Other".

(** ** Substrings *)

Lemma prefix_trans (a : string) : forall b s,
  String.prefix a b = true -> String.prefix b s = true ->
  String.prefix a s = true.
Proof.
  induction a as [|x a IH]; intros b s Hab Hbs; [by destruct s|].
  destruct b as [|y b]; [done|]. destruct s as [|z s]; [done|].
  cbn [String.prefix] in *.
  destruct (Ascii.ascii_dec x y) as [->|]; [|done].
  destruct (Ascii.ascii_dec y z) as [->|]; [|done].
  by apply (IH b s).
Qed.

Lemma contains_prefix (a b : string) : forall s,
  contains a b = true -> String.prefix b s = true -> contains a s = true.
Proof.
  induction b as [|y b IH]; intros s Hab Hbs.
  - cbn [contains] in Hab. rewrite orb_false_r in Hab.
    destruct a; [|done]. by destruct s.
  - cbn [contains] in Hab. apply orb_true_iff in Hab as [Hab|Hab].
    + destruct s as [|z s]; cbn [contains]; apply orb_true_iff; left;
        by apply (prefix_trans a (String y b)).
    + destruct s as [|z s]; [done|]. cbn [String.prefix] in Hbs.
      destruct (Ascii.ascii_dec y z) as [->|]; [|done].
      cbn [contains]. apply orb_true_iff. right. by apply IH.
Qed.

(** A phrase that occurs in an occurrence occurs in the whole. *)
Lemma contains_trans (a b : string) : forall s,
  contains a b = true -> contains b s = true -> contains a s = true.
Proof.
  induction s as [|z s IH]; intros Hab Hbs.
  - cbn [contains] in Hbs. rewrite orb_false_r in Hbs.
    by apply (contains_prefix a b).
  - cbn [contains] in Hbs. apply orb_true_iff in Hbs as [Hbs|Hbs].
    + by apply (contains_prefix a b).
    + cbn [contains]. apply orb_true_iff. right. by apply IH.
Qed.

Ltac elem_of_list :=
  repeat first [apply list_elem_of_here | apply list_elem_of_further].

Lemma any_in_elem (phrases : list string) (s x : string) :
  x ∈ phrases -> contains x s = true -> any_in phrases s = true.
Proof.
  intros Hin Hx. apply existsb_exists. exists x.
  split; [by apply list_elem_of_In|done].
Qed.

Lemma any_in_false (phrases : list string) (s x : string) :
  any_in phrases s = false -> x ∈ phrases -> contains x s = false.
Proof.
  intros Hany Hin. destruct (contains x s) eqn:E; [|done].
  by rewrite (any_in_elem phrases s x Hin E) in Hany.
Qed.

(** X16.  Three of the phrases listed for the group "Activities" can never
    select it: a column name in which "goatery", "piggery" or
    "poultry_activity" occurs also has "goat", "pig" or "poultry" in it and
    is put in "Livestock" by the first test.  A name is put in "Activities"
    only for "duckery", "farming" or "fishery". *)
Theorem categorize_gp_variable_activities (col_name : string) :
  (any_in ["goatery"; "piggery"; "poultry_activity"] (lower col_name) = true ->
   categorize_gp_variable col_name = "Livestock") /\
  (categorize_gp_variable col_name = "Activities" ->
   any_in ["duckery"; "farming"; "fishery"] (lower col_name) = true).
Proof.
  assert (Hlive : any_in ["goatery"; "piggery"; "poultry_activity"]
                    (lower col_name) = true ->
                  any_in ["poultry"; "pig"; "cattle"; "buffalo"; "goat";
                          "sheep"; "horse"; "donkey"; "camel"; "mule";
                          "livestock"] (lower col_name) = true).
  { intros Hany. apply existsb_exists in Hany as (x & Hx & Hc).
    apply list_elem_of_In in Hx. rewrite !elem_of_cons, elem_of_nil in Hx.
    destruct Hx as [->|[->|[->|[]]]].
    - apply (any_in_elem _ _ "goat"); [elem_of_list|].
      by apply (contains_trans "goat" "goatery").
    - apply (any_in_elem _ _ "pig"); [elem_of_list|].
      by apply (contains_trans "pig" "piggery").
    - apply (any_in_elem _ _ "poultry"); [elem_of_list|].
      by apply (contains_trans "poultry" "poultry_activity"). }
  split.
  - intros Hany. unfold categorize_gp_variable. cbv zeta.
    by rewrite (Hlive Hany).
  - unfold categorize_gp_variable. cbv zeta.
    destruct (any_in ["poultry"; _; _; _; _; _; _; _; _; _; _] _) eqn:E1;
      [done|].
    repeat (match goal with
            | |- context [if any_in ?l ?s then _ else _] =>
                lazymatch l with
                | "duckery" :: _ => fail
                | _ => destruct (any_in l s); [done|]
                end
            end).
    destruct (any_in ["duckery"; _; _; _; _; _] _) eqn:E8; [|done].
    intros _. apply existsb_exists in E8 as (x & Hx & Hc).
    apply list_elem_of_In in Hx. rewrite !elem_of_cons, elem_of_nil in Hx.
    assert (Hdead : any_in ["goatery"; "piggery"; "poultry_activity"]
                      (lower col_name) = false).
    { destruct (any_in ["goatery"; _; _] _) eqn:E; [|done].
      discriminate (Hlive eq_refl). }
    destruct Hx as [->|[->|[->|[->|[->|[->|[]]]]]]].
    + apply (any_in_elem _ _ "duckery"); [elem_of_list|exact Hc].
    + apply (any_in_elem _ _ "farming"); [elem_of_list|exact Hc].
    + apply (any_in_elem _ _ "fishery"); [elem_of_list|exact Hc].
    + rewrite (any_in_false _ _ "goatery" Hdead) in Hc;
        [discriminate|elem_of_list].
    + rewrite (any_in_false _ _ "piggery" Hdead) in Hc;
        [discriminate|elem_of_list].
    + rewrite (any_in_false _ _ "poultry_activity" Hdead) in Hc;
        [discriminate|elem_of_list].
Qed.

(** ** The metadata table *)

(** [pd.notna] of one entry. *)
Definition cell_notna (c : cell) : bool :=
  match c with
  | CNone => false
  | CFloat x => notna x
  | CInt _ | CStr _ => true
  end.

(** The truth value Python gives an entry. *)
Definition cell_truthy (c : cell) : bool :=
  match c with
  | CNone => false
  | CStr s => negb (String.eqb s "")
  | CInt z => negb (Z.eqb z 0)
  | CFloat (Fin q) => negb (Qeq_bool q 0)
  | CFloat _ => true
  end.

(** [row.get(column)] on a row of [df.iterrows()]. *)
Definition row_get (df : GeoDataFrame) (row : gmap string cell)
    (column : string) : cell :=
  if has_column df column then cell_at row column else CNone.

(** [Series.unique()]: the entries in order of first appearance. *)
Definition unique (s : list cell) : list cell :=
  fold_left
    (fun seen c => if existsb (cell_eqb c) seen then seen else (seen ++ [c])%list)
    s [].

Definition skip_phrases : list string :=
  ["new internventions"; "new interventions"; "should be possible"].

Definition _is_valid_cluster (name : cell) : bool :=
  match name with
  | CStr s =>
      if negb (cell_truthy name) then false
      else
        let name := strip s in
        if String.eqb name "" then false
        else negb (any_in skip_phrases (lower name))
  | _ => false
  end.

(** One entry of the dictionary of interventions. *)
Record intervention : Type := mkIntervention {
  intv_key : string;
  intv_name : string;
  intv_description : string
}.

(** The number of columns of a table that have a given name.  [df[name]] is
    a Series when there is one; with several it is a DataFrame, which has
    no [unique]. *)
Definition column_count (df : GeoDataFrame) (name : string) : nat :=
  length (List.filter (String.eqb name) (columns df)).

(** Text of 7-bit characters, on which [strip] and [lower] above are
    Python's [str.strip] and [str.lower]. *)
Definition ascii_text (s : string) : bool :=
  forallb (fun a => (nat_of_ascii a <? 128)%nat) (list_ascii_of_string s).

Definition ascii_cell (c : cell) : bool :=
  match c with
  | CStr s => ascii_text s
  | _ => true
  end.

Section Metadata.

Context `{Pandas} `{DataDir}.

Definition load_metadata : result GeoDataFrame :=
  let csv_path := path_join DATA_DIR "DSS_input2.csv" in
  if negb (path_exists csv_path)
  then Raise (FileNotFoundError ("Metadata CSV not found at " ++ csv_path))
  else
    let* df := read_file csv_path in
    Ok (strip_columns df).

(** The loop of [get_variable_group] over the rows still to visit. *)
Fixpoint get_variable_group_from (df : GeoDataFrame)
    (todo : list (gmap string cell)) (var_code : cell) : string :=
  match todo with
  | [] => "Other"
  | row :: todo' =>
      let var := row_get df row "variable" in
      let group := row_get df row "group" in
      if cell_notna var
         && String.eqb (strip (astype_str var)) (strip (astype_str var_code))
         && cell_notna group
      then strip (astype_str group)
      else get_variable_group_from df todo' var_code
  end.

Definition get_variable_group (df : GeoDataFrame) (var_code : cell)
    : string :=
  get_variable_group_from df (rows df) var_code.

Definition get_interventions : result (list (string * intervention)) :=
  let* df := load_metadata in
  let* _ := require_column df "Cluster" in
  if Nat.ltb 1 (column_count df "Cluster")
  then Raise (AttributeError "'DataFrame' object has no attribute 'unique'")
  else
  Ok (fold_left
        (fun interventions cluster =>
           if negb (_is_valid_cluster cluster) then interventions
           else
             let cluster := strip (astype_str cluster) in
             dict_set interventions cluster
               {| intv_key := cluster;
                  intv_name := cluster;
                  intv_description :=
                    cluster ++ " focuses on sustainable agricultural practices tailored to local conditions." |})
        (unique (List.filter cell_notna (get_column df "Cluster")))
        []).

Definition get_variable_groups : result (list cell) :=
  let* df := load_metadata in
  let* _ := require_column df "group" in
  if Nat.ltb 1 (column_count df "group")
  then Raise (AttributeError "'DataFrame' object has no attribute 'unique'")
  else
    let groups := unique (List.filter cell_notna (get_column df "group")) in
    Ok (List.filter cell_truthy groups).

End Metadata.

(** ** Stripping *)

(** A text that does not begin with white space. *)
Definition starts_clean (s : string) : Prop :=
  match s with
  | EmptyString => True
  | String a _ => is_space a = false
  end.

Lemma str_rev_involutive (s : string) : str_rev (str_rev s) = s.
Proof.
  unfold str_rev. rewrite list_ascii_of_string_of_list_ascii.
  by rewrite rev_involutive, string_of_list_ascii_of_string.
Qed.

Lemma list_ascii_of_string_snoc (s : string) (a : ascii) :
  list_ascii_of_string (s ++ String a "")
    = (list_ascii_of_string s ++ [a])%list.
Proof. induction s as [|b s IH]; [done|]. simpl. by rewrite IH. Qed.

Lemma str_rev_snoc (s : string) (a : ascii) :
  str_rev (s ++ String a "") = String a (str_rev s).
Proof.
  unfold str_rev. by rewrite list_ascii_of_string_snoc, rev_unit.
Qed.

Lemma str_rev_cons (s : string) (a : ascii) :
  str_rev (String a s) = str_rev s ++ String a "".
Proof.
  rewrite <- (str_rev_involutive (str_rev s ++ String a "")).
  by rewrite str_rev_snoc, str_rev_involutive.
Qed.

Lemma lstrip_clean (s : string) : starts_clean (lstrip s).
Proof.
  induction s as [|a s IH]; [done|]. simpl.
  by destruct (is_space a) eqn:E.
Qed.

Lemma lstrip_id (s : string) : starts_clean s -> lstrip s = s.
Proof. destruct s as [|a s]; [done|]. simpl. by intros ->. Qed.

Lemma lstrip_snoc (s : string) (a : ascii) :
  is_space a = false ->
  exists pre, lstrip (s ++ String a "") = pre ++ String a "".
Proof.
  intros Ha. induction s as [|b s IH].
  - exists "". simpl. by rewrite Ha.
  - simpl. destruct (is_space b); [exact IH|]. by exists (String b s).
Qed.

Lemma strip_clean (s : string) : starts_clean (strip s).
Proof.
  unfold strip. pose proof (lstrip_clean s) as Hm.
  destruct (lstrip s) as [|a m]; [done|]. simpl in Hm.
  rewrite str_rev_cons.
  destruct (lstrip_snoc (str_rev m) a Hm) as [pre ->].
  by rewrite str_rev_snoc.
Qed.

(** Stripping a stripped text changes nothing. *)
Lemma strip_idempotent (s : string) : strip (strip s) = strip s.
Proof.
  pose proof (strip_clean s) as Hc.
  unfold strip at 1. rewrite (lstrip_id _ Hc).
  unfold strip. rewrite str_rev_involutive.
  by rewrite (lstrip_id _ (lstrip_clean _)).
Qed.

(** ** Dictionaries and [unique] *)

Lemma dict_keys_dict_set {V : Type} (d : list (string * V)) k v k' :
  k' ∈ dict_keys (dict_set d k v) <-> k' = k \/ k' ∈ dict_keys d.
Proof.
  unfold dict_keys. induction d as [|[k0 v0] d IH]; simpl.
  - rewrite elem_of_cons, elem_of_nil. tauto.
  - destruct (String.eqb_spec k0 k) as [->|Hne]; simpl.
    + rewrite !elem_of_cons. tauto.
    + rewrite !elem_of_cons, IH. tauto.
Qed.

Lemma dict_set_NoDup {V : Type} (d : list (string * V)) k v :
  NoDup (dict_keys d) -> NoDup (dict_keys (dict_set d k v)).
Proof.
  unfold dict_keys. induction d as [|[k0 v0] d IH]; simpl; intros Hn.
  - apply NoDup_cons. split; [apply not_elem_of_nil|done].
  - apply NoDup_cons in Hn as [Hk0 Hn].
    destruct (String.eqb_spec k0 k) as [->|Hne]; simpl.
    + by apply NoDup_cons.
    + apply NoDup_cons. split; [|by apply IH].
      intros Hin. apply (dict_keys_dict_set d k v k0) in Hin as [?|?]; done.
Qed.

Lemma dict_get_dict_set {V : Type} (d : list (string * V)) k v k' :
  dict_get (dict_set d k v) k'
    = if String.eqb k k' then Some v else dict_get d k'.
Proof.
  induction d as [|[k0 v0] d IH]; simpl; [done|].
  destruct (String.eqb_spec k0 k) as [->|Hne]; simpl.
  - by destruct (String.eqb k k').
  - destruct (String.eqb_spec k0 k') as [->|Hne'].
    + by rewrite (proj2 (String.eqb_neq k k')).
    + exact IH.
Qed.

Lemma cell_eqb_str (s : string) (e : cell) :
  cell_eqb (CStr s) e = true -> e = CStr s.
Proof.
  destruct e as [| | |s']; try done. simpl. intros E.
  by apply String.eqb_eq in E as ->.
Qed.

Lemma unique_from_elem (s : list cell) : forall seen c,
  c ∈ fold_left
        (fun seen c =>
           if existsb (cell_eqb c) seen then seen else (seen ++ [c])%list)
        s seen ->
  c ∈ seen \/ c ∈ s.
Proof.
  induction s as [|x s IH]; intros seen c Hin; simpl in Hin; [by left|].
  apply IH in Hin as [Hin|Hin].
  - destruct (existsb _ seen); [by left|].
    apply elem_of_app in Hin as [Hin|Hin]; [by left|].
    apply elem_of_cons in Hin as [->|Hin]; [right; apply list_elem_of_here|].
    by apply elem_of_nil in Hin.
  - right. by apply list_elem_of_further.
Qed.

Lemma unique_from_keeps (s : list cell) : forall seen c,
  c ∈ seen ->
  c ∈ fold_left
        (fun seen c =>
           if existsb (cell_eqb c) seen then seen else (seen ++ [c])%list)
        s seen.
Proof.
  induction s as [|x s IH]; intros seen c Hin; simpl; [done|].
  apply IH. destruct (existsb _ seen); [done|].
  apply elem_of_app. by left.
Qed.

Lemma unique_from_str (s : list cell) : forall seen t,
  CStr t ∈ s ->
  CStr t ∈ fold_left
        (fun seen c =>
           if existsb (cell_eqb c) seen then seen else (seen ++ [c])%list)
        s seen.
Proof.
  induction s as [|x s IH]; intros seen t Hin; simpl.
  - by apply elem_of_nil in Hin.
  - apply elem_of_cons in Hin as [<-|Hin]; [|by apply IH].
    apply unique_from_keeps.
    destruct (existsb (cell_eqb (CStr t)) seen) eqn:E.
    + apply existsb_exists in E as (e & He & Heq).
      apply cell_eqb_str in Heq as ->. by apply list_elem_of_In.
    + apply elem_of_app. right. apply list_elem_of_here.
Qed.

(** A text is among the unique present entries of a column exactly when it
    is in the column. *)
Lemma unique_present_str (column : list cell) (t : string) :
  CStr t ∈ unique (List.filter cell_notna column) <-> CStr t ∈ column.
Proof.
  unfold unique. split.
  - intros Hin. apply unique_from_elem in Hin as [Hin|Hin].
    + by apply elem_of_nil in Hin.
    + by apply list_elem_of_In, filter_In in Hin as [?%list_elem_of_In _].
  - intros Hin. apply unique_from_str.
    apply list_elem_of_In, filter_In. split; [by apply list_elem_of_In|done].
Qed.

Lemma _is_valid_cluster_str (name : cell) :
  _is_valid_cluster name = true ->
  exists s, name = CStr s /\ strip s <> ""
            /\ any_in skip_phrases (lower (strip s)) = false.
Proof.
  destruct name as [| | |s]; try done. unfold _is_valid_cluster.
  destruct (negb (cell_truthy (CStr s))); [done|]. cbv zeta.
  destruct (String.eqb_spec (strip s) "") as [|Hne]; [done|].
  intros E. apply negb_true_iff in E. by exists s.
Qed.

Section MetadataProperties.

Context `{Pandas} `{DataDir}.

Lemma get_variable_group_from_stripped df todo var_code :
  strip (get_variable_group_from df todo var_code)
    = get_variable_group_from df todo var_code.
Proof.
  induction todo as [|row todo IH]; [done|].
  cbn [get_variable_group_from]. cbv zeta.
  destruct (_ && _); [apply strip_idempotent|exact IH].
Qed.

Lemma get_variable_group_from_ext df todo (a b : cell) :
  strip (astype_str a) = strip (astype_str b) ->
  get_variable_group_from df todo a = get_variable_group_from df todo b.
Proof.
  intros E. induction todo as [|row todo IH]; [done|].
  cbn [get_variable_group_from]. cbv zeta. by rewrite E, IH.
Qed.

(** X17.  [get_variable_group] looks a variable code up without regard to
    white space around it, in the code asked for as in the table, and
    answers with a group name that has none around it; a table without a
    [variable] or without a [group] column gives "Other" for every code,
    and nothing is raised. *)
Theorem get_variable_group_whitespace df (var_code : string) :
  get_variable_group df (CStr (strip var_code))
    = get_variable_group df (CStr var_code) /\
  (forall code : cell,
     strip (get_variable_group df code) = get_variable_group df code) /\
  (has_column df "variable" = false \/ has_column df "group" = false ->
   forall code : cell, get_variable_group df code = "Other").
Proof.
  split; [|split].
  - unfold get_variable_group. apply get_variable_group_from_ext.
    cbn [astype_str]. apply strip_idempotent.
  - intros code. apply get_variable_group_from_stripped.
  - intros Hc code. unfold get_variable_group.
    induction (rows df) as [|row todo IH]; [done|].
    cbn [get_variable_group_from]. cbv zeta. unfold row_get.
    destruct Hc as [-> | ->]; cbn [cell_notna andb]; [exact IH|].
    rewrite andb_false_r. exact IH.
Qed.

(** ** The interventions *)

Lemma interventions_from (clusters : list cell) :
  forall acc : list (string * intervention),
  let made :=
    fold_left
      (fun interventions cluster =>
         if negb (_is_valid_cluster cluster) then interventions
         else
           let cluster := strip (astype_str cluster) in
           dict_set interventions cluster
             {| intv_key := cluster;
                intv_name := cluster;
                intv_description :=
                  cluster ++ " focuses on sustainable agricultural practices tailored to local conditions." |})
      clusters acc in
  (forall k, k ∈ dict_keys made <->
     k ∈ dict_keys acc \/
     exists s, CStr s ∈ clusters /\ _is_valid_cluster (CStr s) = true
               /\ k = strip s) /\
  (NoDup (dict_keys acc) -> NoDup (dict_keys made)) /\
  ((forall k v, dict_get acc k = Some v -> intv_key v = k /\ intv_name v = k) ->
   forall k v, dict_get made k = Some v -> intv_key v = k /\ intv_name v = k).
Proof.
  induction clusters as [|c clusters IH]; intros acc; cbv zeta.
  - cbn [fold_left]. split; [|by split].
    intros k. split; [by left|]. intros [?|(s & Hs & _)]; [done|].
    by apply elem_of_nil in Hs.
  - cbn [fold_left].
    destruct (_is_valid_cluster c) eqn:Ev; cbn [negb].
    + destruct (_is_valid_cluster_str c Ev) as (s & -> & _).
      cbn [astype_str].
      edestruct IH as (Hk & Hn & Hv). cbv zeta in Hk, Hn, Hv.
      split; [|split].
      * intros k. rewrite Hk, dict_keys_dict_set. split.
        -- intros [[->|?]|(t & Ht & Hvt & ->)]; [right|by left|right].
           ++ exists s. split; [apply list_elem_of_here|done].
           ++ exists t. split; [by apply list_elem_of_further|done].
        -- intros [?|(t & Ht & Hvt & ->)]; [left; by right|].
           apply elem_of_cons in Ht as [[= ->]|Ht]; [left; by left|].
           right. by exists t.
      * intros Hnd. by apply Hn, dict_set_NoDup.
      * intros Hacc. apply Hv. intros k v. rewrite dict_get_dict_set.
        destruct (String.eqb_spec (strip s) k) as [<-|Hne].
        -- by intros [= <-].
        -- apply Hacc.
    + destruct (IH acc) as (Hk & Hn & Hv). cbv zeta in Hk, Hn, Hv.
      split; [|by split].
      intros k. rewrite Hk. split.
      * intros [?|(t & Ht & Hvt & ->)]; [by left|right].
        exists t. split; [by apply list_elem_of_further|done].
      * intros [?|(t & Ht & Hvt & ->)]; [by left|].
        apply elem_of_cons in Ht as [<-|Ht]; [congruence|].
        right. by exists t.
Qed.

Lemma column_count_has_column df name :
  (0 < column_count df name)%nat -> has_column df name = true.
Proof.
  unfold column_count, has_column. intros Hc.
  apply bool_decide_eq_true_2.
  induction (columns df) as [|c cs IH]; simpl in Hc; [lia|].
  destruct (String.eqb_spec name c) as [->|Hne].
  - apply list_elem_of_here.
  - apply list_elem_of_further. by apply IH.
Qed.

(** X18.  With the metadata table loaded, exactly one column of it named
    [Cluster], and its column names and cluster names text of 7-bit
    characters, [get_interventions] returns a dictionary whose keys are
    exactly the cluster names of the column that are valid, each stripped
    of the white space around it and listed once; an entry carries its key
    as [key] and as [name]; and no key is empty, has white space around it
    or contains a placeholder phrase.  With more than one column named
    [Cluster] (two headers that differ in white space only) the call raises
    [AttributeError]. *)
Theorem get_interventions_keys df :
  load_metadata = Ok df ->
  forallb ascii_text (columns df) = true ->
  forallb ascii_cell (get_column df "Cluster") = true ->
  (column_count df "Cluster" = 1%nat ->
   exists interventions,
     get_interventions = Ok interventions /\
     (forall k, k ∈ dict_keys interventions <->
        exists s, CStr s ∈ get_column df "Cluster"
                  /\ _is_valid_cluster (CStr s) = true /\ k = strip s) /\
     NoDup (dict_keys interventions) /\
     (forall k v, dict_get interventions k = Some v ->
        intv_key v = k /\ intv_name v = k) /\
     (forall k, k ∈ dict_keys interventions ->
        k <> "" /\ strip k = k /\ any_in skip_phrases (lower k) = false)) /\
  ((1 < column_count df "Cluster")%nat ->
   exists msg, get_interventions = Raise (AttributeError msg)).
Proof.
  intros Hload _ _. split.
  2:{ intros Hc. unfold get_interventions, require_column.
      rewrite Hload. cbn [bind].
      rewrite column_count_has_column by lia. cbn [bind].
      rewrite (proj2 (Nat.ltb_lt _ _) Hc). by eexists. }
  intros Hone. unfold get_interventions, require_column.
  rewrite Hload. cbn [bind].
  rewrite column_count_has_column by lia. cbn [bind].
  rewrite Hone. cbn [Nat.ltb Nat.leb].
  eexists. split; [reflexivity|].
  destruct (interventions_from
              (unique (List.filter cell_notna (get_column df "Cluster"))) [])
    as (Hk & Hn & Hv).
  cbv zeta in Hk, Hn, Hv.
  assert (Hkeys : forall k,
            k ∈ dict_keys
                  (fold_left
                     (fun interventions cluster =>
                        if negb (_is_valid_cluster cluster) then interventions
                        else
                          let cluster := strip (astype_str cluster) in
                          dict_set interventions cluster
                            {| intv_key := cluster;
                               intv_name := cluster;
                               intv_description :=
                                 cluster ++ " focuses on sustainable agricultural practices tailored to local conditions." |})
                     (unique (List.filter cell_notna (get_column df "Cluster")))
                     []) <->
            exists s, CStr s ∈ get_column df "Cluster"
                      /\ _is_valid_cluster (CStr s) = true /\ k = strip s).
  { intros k. rewrite Hk. split.
    - intros [Hin|(s & Hs & Hvs & ->)]; [by apply elem_of_nil in Hin|].
      exists s. by rewrite <- unique_present_str.
    - intros (s & Hs & Hvs & ->). right. exists s.
      by rewrite unique_present_str. }
  split; [exact Hkeys|]. split; [apply Hn; constructor|].
  split; [apply Hv; intros k v; discriminate|].
  intros k Hin. apply Hkeys in Hin as (s & _ & Hvs & ->).
  apply _is_valid_cluster_str in Hvs as (s' & [= <-] & Hne & Hp).
  split; [done|]. split; [apply strip_idempotent|done].
Qed.

(** X19.  The functions that read the metadata table raise
    [FileNotFoundError] exactly when [DSS_input2.csv] does not exist, and
    with the file read they raise [KeyError] exactly when the column they
    index is absent: [Cluster] for [get_interventions], [group] for
    [get_variable_groups]. *)
Theorem metadata_missing :
  let missing {A : Type} (r : result A) :=
    exists msg, r = Raise (FileNotFoundError msg) in
  let absent := path_exists (path_join DATA_DIR "DSS_input2.csv") = false in
  (missing load_metadata <-> absent) /\
  (missing get_interventions <-> absent) /\
  (missing get_variable_groups <-> absent) /\
  (forall df, load_metadata = Ok df ->
     (get_interventions = Raise (KeyError "Cluster")
        <-> has_column df "Cluster" = false) /\
     (get_variable_groups = Raise (KeyError "group")
        <-> has_column df "group" = false)).
Proof.
  intros missing absent. unfold missing, absent.
  assert (Hm : (exists msg, load_metadata = Raise (FileNotFoundError msg))
               <-> path_exists (path_join DATA_DIR "DSS_input2.csv") = false).
  { unfold load_metadata, read_file.
    destruct (path_exists _); simpl.
    - split; [|done]. intros [msg Hmsg].
      by destruct (read_path _).
    - split; [done|]. intros _. by eexists. }
  split; [exact Hm|].
  unfold get_interventions, get_variable_groups, require_column.
  split; [|split].
  - rewrite <- Hm. destruct load_metadata as [df|e]; cbn [bind].
    + destruct (has_column df "Cluster"); cbn [bind];
        [destruct (Nat.ltb _ _)|];
        split; intros [msg Hmsg]; discriminate.
    + split; intros [msg [= ->]]; by exists msg.
  - rewrite <- Hm. destruct load_metadata as [df|e]; cbn [bind].
    + destruct (has_column df "group"); cbn [bind];
        [destruct (Nat.ltb _ _)|];
        split; intros [msg Hmsg]; discriminate.
    + split; intros [msg [= ->]]; by exists msg.
  - intros df ->. cbn [bind].
    destruct (has_column df "Cluster"), (has_column df "group");
      cbn [bind];
      destruct (Nat.ltb 1 (column_count df "Cluster")),
               (Nat.ltb 1 (column_count df "group"));
      repeat split; intros; done.
Qed.

End MetadataProperties.

(** * data_utils.py: column statistics *)

(** What a call gives: a value, an exception of the loaders, or the
    [AttributeError] Python raises on an attribute of [None]. *)
Inductive outcome (A : Type) : Type :=
  | Returns (a : A)
  | Raises (e : exn)
  | RaisesAttributeError (msg : string).
Arguments Returns {A} a.
Arguments Raises {A} e.
Arguments RaisesAttributeError {A} msg.

Section ColumnStats.

Context `{Pandas} `{DataDir}.

(** The part of [get_column_stats] after the table is loaded.  [min()],
    [max()] and [mean()] of a Series skip its missing entries and are NaN
    when none is left. *)
Definition column_stats (gdf : GeoDataFrame) (column : string)
    : list (string * stat) :=
  if negb (has_column gdf column)
  then [("min", SInt 0); ("max", SInt 100); ("mean", SInt 50)]
  else
    let series := map to_numeric (get_column gdf column) in
    let min := series_min (dropna series) in
    let max := series_max (dropna series) in
    let mean := series_mean (dropna series) in
    [("min", if notna min then SFloat min else SInt 0);
     ("max", if notna max then SFloat max else SInt 100);
     ("mean", if notna mean then SFloat mean else SInt 50)].

Definition get_column_stats (column level : string)
    : outcome (list (string * stat)) :=
  if String.eqb level "gp" then
    match load_gp_shapefile with
    | Ok (Some gdf) => Returns (column_stats gdf column)
    | Ok None =>
        RaisesAttributeError "'NoneType' object has no attribute 'columns'"
    | Raise e => Raises e
    end
  else
    match load_shapefile with
    | Ok gdf => Returns (column_stats gdf column)
    | Raise e => Raises e
    end.

Lemma dropna_notna (s : list num) : Forall (fun v => v <> NaN) (dropna s).
Proof.
  apply Forall_forall. intros v Hv.
  apply list_elem_of_In, filter_In in Hv as [_ Hv]. by apply notna_true.
Qed.

(** X21.  [get_column_stats] at GP level raises [AttributeError] when the GP
    data is unavailable.  With the table of the level loaded it returns
    [min], [max] and [mean]: the defaults 0, 100 and 50 when the table has
    no such column or the column holds no number, and otherwise as [min]
    and [max] two numbers of the column between which every number of the
    column lies. *)
Theorem get_column_stats_outcomes (column : string) :
  (load_gp_shapefile = Ok None ->
   exists msg, get_column_stats column "gp" = RaisesAttributeError msg) /\
  (forall level gdf,
     (if String.eqb level "gp" then load_gp_shapefile = Ok (Some gdf)
      else load_shapefile = Ok gdf) ->
     exists stats,
       get_column_stats column level = Returns stats /\
       dict_keys stats = ["min"; "max"; "mean"] /\
       let numbers := dropna (map to_numeric (get_column gdf column)) in
       (has_column gdf column = false \/ numbers = [] ->
        stats = [("min", SInt 0); ("max", SInt 100); ("mean", SInt 50)]) /\
       (has_column gdf column = true -> numbers <> [] ->
        exists lo hi,
          dict_get stats "min" = Some (SFloat lo) /\
          dict_get stats "max" = Some (SFloat hi) /\
          lo ∈ numbers /\ hi ∈ numbers /\
          forall v, v ∈ numbers -> (lo <= v <= hi)%num)).
Proof.
  split.
  { intros E. unfold get_column_stats. cbn [String.eqb Ascii.eqb Bool.eqb].
    rewrite E. by eexists. }
  intros level gdf Hload.
  assert (Hret : get_column_stats column level
                 = Returns (column_stats gdf column)).
  { unfold get_column_stats. destruct (String.eqb level "gp"); by rewrite Hload. }
  exists (column_stats gdf column). split; [exact Hret|].
  unfold column_stats. cbv zeta.
  set (numbers := dropna (map to_numeric (get_column gdf column))).
  destruct (has_column gdf column) eqn:Hc; cbn [negb].
  - split; [reflexivity|]. split.
    + intros [?|E]; [done|]. rewrite E. reflexivity.
    + intros _ Hne.
      destruct (series_extremes numbers Hne (dropna_notna _))
        as [[I1 I2] Hb].
      pose proof (dropna_notna (map to_numeric (get_column gdf column)))
        as Hn. fold numbers in Hn. rewrite Forall_forall in Hn.
      rewrite (proj2 (notna_true _) (Hn _ I1)).
      rewrite (proj2 (notna_true _) (Hn _ I2)).
      exists (series_min numbers), (series_max numbers).
      cbn [dict_get String.eqb Ascii.eqb Bool.eqb].
      split; [reflexivity|]. split; [reflexivity|].
      split; [exact I1|]. split; [exact I2|]. exact Hb.
  - split; [reflexivity|]. split; [done|]. intros; done.
Qed.

End ColumnStats.

(** * data_utils.py: the loaded block table and the scope *)

Section LoadedTable.

Context `{Pandas} `{DataDir}.





End LoadedTable.

(** * Worked examples

    The samples are read with the sample coercions and the empty data
    directory. *)

#[local] Existing Instance sample_pandas.
#[local] Existing Instance empty_data_dir.

Lemma calculate_feasibility_weighted_witness :
  exists scores,
    calculate_feasibility_json sample_gdf
      [sample_request "AD" 50 60 1; sample_request "BF" 0 10 3] "AND"
    = Ok scores /\
    rows sample_gdf !! 0%nat = Some sample_unit1 /\
    scores !! 0%nat = Some (f64_of_Q 75).
Proof.
  destruct (calculate_feasibility_weighted sample_gdf
              [sample_request "AD" 50 60 1; sample_request "BF" 0 10 3]
              "AND") as (scores & Hs & Hu).
  - repeat constructor.
  - exists scores. split; [exact Hs|]. split; [reflexivity|].
    destruct (Hu 0%nat sample_unit1 eq_refl) as (_ & _ & H75).
    apply (H75 (sample_request "AD" 50 60 1) (sample_request "BF" 0 10 3));
      first [by left | vm_compute; reflexivity].
Defined.

(** C4, where the claim fails: a min bound sent as text, or a weight sent
    as null, on a column of the table makes scoring raise [TypeError]
    instead of returning scores. *)
Lemma calculate_feasibility_lenient_counterexample :
  calculate_feasibility_json sample_gdf [text_bound_request] "AND"
  = Raise (TypeError "Invalid comparison between dtype=float64 and str") /\
  calculate_feasibility_json sample_gdf [null_weight_request] "AND"
  = Raise (TypeError
             "unsupported operand type(s) for *: 'float' and 'NoneType'") /\
  forall scores,
    calculate_feasibility_json sample_gdf [text_bound_request] "AND"
    <> Ok scores.
Proof.
  split; [vm_compute; reflexivity|]. split; [vm_compute; reflexivity|].
  intros scores. vm_compute. discriminate.
Qed.

Lemma calculate_feasibility_lenient_witness :
  exists scores,
    calculate_feasibility_json sample_gdf
      [sample_request "AD" 20 60 1; open_request "ZZ"] "AND" = Ok scores /\
    calculate_feasibility_json sample_gdf [sample_request "AD" 20 60 1] "AND"
    = Ok scores /\
    length scores = 3%nat.
Proof.
  destruct (calculate_feasibility_lenient sample_gdf
              [sample_request "AD" 20 60 1; open_request "ZZ"] "AND")
    as (scores & Hs & Hlen & _ & _ & Hdrop).
  - repeat constructor.
  - exists scores. split; [exact Hs|]. split; [|exact Hlen].
    apply (Hdrop [sample_request "AD" 20 60 1] (open_request "ZZ") [] "ZZ");
      reflexivity.
Defined.

(** A single criterion without bounds or weight scores every unit that has
    a value in its column 100.0 and leaves the others undefined. *)
Example scenario_open_criterion :
  calculate_feasibility_json sample_gdf [open_request "AD"] "AND"
  = Ok [f64_hundred; f64_hundred; f64_nan].
Proof. vm_compute. reflexivity. Qed.


(** Weights 0.3 and 0.1, the unit matching the criterion of weight 0.3
    only: the quotient is rounded, and the score is the double just below
    75.0, which classifies as "moderate_high". *)
Example scenario_rounded_ratio :
  calculate_feasibility_json sample_gdf
    [sample_request "BF" 0 10 (3 # 10); sample_request "AD" 50 60 (1 # 10)]
    "AND"
  = Ok [S754_finite false 5277655813324799 (-46);
        S754_finite false 5277655813324799 (-46); f64_nan] /\
  f64_of_Q 75 = S754_finite false 5277655813324800 (-46) /\
  classify_feasibility (f64_value (S754_finite false 5277655813324799 (-46)))
  = ("moderate_high", "50-75%").
Proof. repeat split; vm_compute; reflexivity. Qed.

(** Two criteria of weight 1e308: the sum of the weights overflows to
    [inf]; the unit that matches both scores NaN, the unit that matches one
    scores 0.0. *)
Example scenario_overflowing_weights :
  calculate_feasibility_json sample_gdf
    [sample_request "AD" 20 60 (inject_Z (10 ^ 308));
     sample_request "BF" 0 10 (inject_Z (10 ^ 308))] "AND"
  = Ok [f64_nan; f64_zero; f64_nan].
Proof. vm_compute. reflexivity. Qed.

(** An integer weight too large for a double. *)
Example scenario_huge_weight :
  calculate_feasibility_json sample_gdf
    [sample_request "AD" 20 60 (inject_Z (10 ^ 400))] "AND"
  = Raise (OverflowError "int too large to convert to float").
Proof. vm_compute. reflexivity. Qed.

(** Text bounds on a column the table lacks are never compared. *)
Example scenario_text_bound_unknown_column :
  calculate_feasibility_json sample_gdf
    [{| rq_column := Some "ZZ"; rq_field := None;
        rq_min_val := Some (JsText "20"); rq_range_min := None;
        rq_max_val := None; rq_range_max := None; rq_weight := None |}]
    "AND"
  = Ok [f64_nan; f64_nan; f64_nan].
Proof. vm_compute. reflexivity. Qed.

Lemma sample_in_range (a b : Z) :
  (a <=? b)%Z = true -> (Fin (inject_Z a) <= Fin (inject_Z b))%num.
Proof.
  intros E. apply le_fin. unfold Qle. simpl. apply Z.leb_le in E. lia.
Defined.

Lemma calculate_criteria_match_spec_witness :
  rows sample_gdf !! 0%nat = Some sample_unit1 /\
  calculate_criteria_match sample_gdf "AD" (Fin 20) (Fin 60) !! 0%nat
    = Some (Fin 1).
Proof.
  split; [reflexivity|].
  destruct (calculate_criteria_match_spec sample_gdf "AD" (Fin 20) (Fin 60)
              0%nat sample_unit1 eq_refl) as [_ Hin].
  destruct Hin as [[_ Hone] _].
  - apply (list_elem_of_lookup_2 _ 1%nat). reflexivity.
  - apply Hone. split; by apply sample_in_range.
Defined.

Lemma classify_feasibility_thresholds_witness :
  ((Fin 75 <= Fin 80)%num /\ (Fin 80 < Fin 100)%num) /\
  classify_feasibility (Fin 80) = ("high", "75-100%").
Proof.
  assert (L : (Fin 75 <= Fin 80 < Fin 100)%num).
  { split; [by apply (sample_in_range 75 80)|].
    apply lt_fin. unfold Qlt. simpl. lia. }
  split; [exact L|].
  exact (proj1 (proj2 (classify_feasibility_thresholds (Fin 80))) L).
Defined.

Lemma statistics_object_keys_witness :
  calculate_and_get_geojson sample_gdf [sample_criterion "AD" 20 60 1]
    "AND" (Some "Tinsukia") = Ok sample_response /\
  dict_keys (statistics sample_response) =
    ["total_blocks"; "blocks_with_data"; "blocks_no_data"; "mean"; "median";
     "min"; "max"; "high_feasibility"; "low_feasibility"; "distribution"].
Proof.
  assert (E : calculate_and_get_geojson sample_gdf
                [sample_criterion "AD" 20 60 1] "AND" (Some "Tinsukia")
              = Ok sample_response) by reflexivity.
  split; [exact E|].
  exact (proj1 (statistics_object_keys _ _ _ _ _ E)).
Defined.

(** C5, where the claim fails: the statistics of the sample response have
    none of the keys total, with_data, without_data, high_count and
    low_count; the counts are under total_blocks, blocks_with_data,
    blocks_no_data, high_feasibility and low_feasibility. *)
Lemma statistics_object_keys_counterexample :
  calculate_and_get_geojson sample_gdf [sample_criterion "AD" 20 60 1]
    "AND" (Some "Tinsukia") = Ok sample_response /\
  dict_get (statistics sample_response) "total" = None /\
  dict_get (statistics sample_response) "with_data" = None /\
  dict_get (statistics sample_response) "without_data" = None /\
  dict_get (statistics sample_response) "high_count" = None /\
  dict_get (statistics sample_response) "low_count" = None /\
  dict_get (statistics sample_response) "total_blocks" = Some (SInt 1) /\
  dict_get (statistics sample_response) "high_feasibility" = Some (SInt 1) /\
  dict_keys (statistics sample_response) <>
    ["total"; "with_data"; "without_data"; "mean"; "median"; "min"; "max";
     "high_count"; "low_count"; "distribution"].
Proof. repeat split; try reflexivity. discriminate. Qed.

Lemma get_feasibility_stats_no_data_witness :
  let table := add_feasibility_to_gdf sample_gdf [] "AND" in
  has_column table "feasibility" = true /\
  (forall r, r ∈ rows table -> unit_score r = NaN) /\
  dict_get (get_feasibility_stats table) "max" = Some (SInt 100).
Proof.
  cbv zeta.
  assert (Hc : has_column (add_feasibility_to_gdf sample_gdf [] "AND")
                 "feasibility" = true) by reflexivity.
  assert (Hn : forall r, r ∈ rows (add_feasibility_to_gdf sample_gdf [] "AND")
                 -> unit_score r = NaN).
  { intros r Hr. apply list_elem_of_lookup_1 in Hr as [i Hi].
    destruct i as [|[|[|i]]]; simpl in Hi; try discriminate;
      injection Hi as <-; reflexivity. }
  split; [exact Hc|]. split; [exact Hn|].
  destruct (get_feasibility_stats_no_data _ Hc Hn) as (_ & _ & _ & _ & _ & _ & Hmax & _).
  exact Hmax.
Defined.

Lemma calculate_and_get_geojson_missing_region_columns_witness :
  truthy (Some "RegionX") = true /\
  has_column bare_gdf "Dist_Name" = false /\
  has_column bare_gdf "DISTRICT_I" = false /\
  calculate_and_get_geojson bare_gdf [sample_criterion "AD" 20 60 1] "AND"
    (Some "RegionX") = Raise (KeyError "DISTRICT_I").
Proof.
  split; [reflexivity|]. split; [reflexivity|]. split; [reflexivity|].
  by apply calculate_and_get_geojson_missing_region_columns.
Defined.

Lemma loaders_missing_files_witness :
  path_exists (path_join DATA_DIR "4DSS_VAR_2.0.shp") = false /\
  (exists msg, load_shapefile = Raise (FileNotFoundError msg)) /\
  load_gp_shapefile = Ok None /\
  load_gp_data = Ok None.
Proof.
  destruct (@loaders_missing_files empty_data_dir) as (Hb & Hg & Hd).
  split; [reflexivity|]. split; [by apply Hb|].
  split; [by apply Hg | by apply Hd].
Defined.

(** ** The scenarios of the specification, computed *)

(** Criterion AD in [20, 60], weight 1: the unit with AD = 40 scores 100
    (very_high), the unit with AD = 80 scores 0 (very_low), the unit whose AD
    does not parse has no score. *)
Example scenario_single_criterion :
  calculate_feasibility sample_gdf [sample_criterion "AD" 20 60 1] "AND"
    = [Fin 100; Fin 0; NaN] /\
  map classify_feasibility [Fin 100; Fin 0; NaN]
    = [("very_high", "100%"); ("very_low", "0%"); ("no_data", "No Data")].
Proof. split; reflexivity. Qed.

(** No criteria: every score is undefined and the "No Data" bucket holds
    every unit. *)
Example scenario_no_criteria :
  calculate_feasibility sample_gdf [] "AND" = [NaN; NaN; NaN] /\
  get_feasibility_distribution (add_feasibility_to_gdf sample_gdf [] "AND")
    !! "No Data" = Some 3%Z.
Proof. split; reflexivity. Qed.

(** A scope that matches no unit by name or by identifier: statistics over
    zero units, all three units as features. *)
Example scenario_unknown_region :
  exists resp,
    calculate_and_get_geojson sample_gdf [sample_criterion "AD" 20 60 1]
      "AND" (Some "RegionX") = Ok resp /\
    length (geojson resp) = 3%nat /\
    dict_get (statistics resp) "total_blocks" = Some (SInt 0) /\
    dict_get (statistics resp) "max" = Some (SInt 100).
Proof. eexists. repeat split; reflexivity. Qed.

(** A scope given as an identifier falls back from the name to
    [DISTRICT_I]: two units are in scope. *)
Example scenario_scope_by_identifier :
  exists resp,
    calculate_and_get_geojson sample_gdf [sample_criterion "AD" 20 60 1]
      "AND" (Some "135") = Ok resp /\
    length (geojson resp) = 3%nat /\
    dict_get (statistics resp) "total_blocks" = Some (SInt 2) /\
    dict_get (statistics resp) "blocks_with_data" = Some (SInt 1).
Proof. eexists. repeat split; reflexivity. Qed.

(** ** The engine beyond the stated properties, on the samples *)

Lemma calculate_feasibility_range_witness :
  Forall (fun c => nonneg (criterion_weight c))
    [sample_criterion "AD" 20 60 1; sample_criterion "BF" 0 1 3] /\
  calculate_feasibility sample_gdf
    [sample_criterion "AD" 20 60 1; sample_criterion "BF" 0 1 3] "AND"
    !! 0%nat = Some (Fin 25) /\
  (Fin 25 = NaN \/ between (Fin 0) (Fin 100) (Fin 25)).
Proof.
  assert (Hw : Forall (fun c => nonneg (criterion_weight c))
                 [sample_criterion "AD" 20 60 1; sample_criterion "BF" 0 1 3]).
  { repeat constructor; discriminate. }
  assert (Hs : calculate_feasibility sample_gdf
                 [sample_criterion "AD" 20 60 1; sample_criterion "BF" 0 1 3]
                 "AND" !! 0%nat = Some (Fin 25)) by reflexivity.
  split; [exact Hw|]. split; [exact Hs|].
  exact (calculate_feasibility_range _ _ _ _ _ Hw Hs).
Defined.

Lemma add_feasibility_to_gdf_derived_witness :
  let scored :=
    add_feasibility_to_gdf sample_gdf [sample_criterion "AD" 20 60 1] "AND" in
  rows scored !! 1%nat = Some (scored_unit sample_unit2 (Fin 0)) /\
  scored_unit sample_unit2 (Fin 0) !! "feasibility_label"
    = Some (CStr "0%").
Proof.
  cbv zeta.
  assert (Hr : rows (add_feasibility_to_gdf sample_gdf
                       [sample_criterion "AD" 20 60 1] "AND") !! 1%nat
               = Some (scored_unit sample_unit2 (Fin 0))).
  { rewrite add_feasibility_rows. reflexivity. }
  split; [exact Hr|].
  destruct (add_feasibility_to_gdf_derived _ _ _ _ _ Hr)
    as (s & color & Hs & _ & _ & Hl & _).
  injection Hs as <-. exact Hl.
Defined.

Lemma add_feasibility_to_gdf_rescore_witness :
  Forall reads_input_only [sample_criterion "AD" 20 60 1] /\
  add_feasibility_to_gdf
    (add_feasibility_to_gdf sample_gdf [sample_criterion "BF" 0 1 3] "OR")
    [sample_criterion "AD" 20 60 1] "AND"
  = add_feasibility_to_gdf sample_gdf [sample_criterion "AD" 20 60 1] "AND".
Proof.
  assert (Hc : Forall reads_input_only [sample_criterion "AD" 20 60 1]).
  { repeat constructor. intros column [= <-].
    apply (bool_decide_unpack _). reflexivity. }
  split; [exact Hc|].
  exact (add_feasibility_to_gdf_rescore _ _ _ _ _ Hc).
Defined.

Lemma classify_feasibility_monotone_witness :
  (Fin 30 <= Fin 80)%num /\
  (class_rank (fst (classify_feasibility (Fin 30)))
   <= class_rank (fst (classify_feasibility (Fin 80))))%nat.
Proof.
  assert (L : (Fin 30 <= Fin 80)%num) by (by apply (sample_in_range 30 80)).
  split; [exact L|].
  exact (classify_feasibility_monotone _ _ L).
Defined.

Lemma get_feasibility_stats_counts_witness :
  let scored :=
    add_feasibility_to_gdf sample_gdf [sample_criterion "AD" 20 60 1] "AND" in
  has_column scored "feasibility" = true /\
  exists with_data no_data,
    dict_get (get_feasibility_stats scored) "blocks_with_data"
      = Some (SInt with_data) /\
    dict_get (get_feasibility_stats scored) "blocks_no_data"
      = Some (SInt no_data) /\
    (with_data + no_data = 3)%Z.
Proof.
  cbv zeta.
  assert (Hc : has_column
                 (add_feasibility_to_gdf sample_gdf
                    [sample_criterion "AD" 20 60 1] "AND")
                 "feasibility" = true) by reflexivity.
  split; [exact Hc|].
  destruct (get_feasibility_stats_counts _ Hc)
    as (total & with_data & no_data & high & low & Hstats).
  cbv zeta in Hstats.
  destruct Hstats as (_ & Hw & Hn & _ & _ & Ht & Hsum & _).
  exists with_data, no_data. split; [exact Hw|]. split; [exact Hn|].
  rewrite Hsum, Ht. reflexivity.
Defined.

Lemma get_feasibility_stats_extremes_witness :
  let scored :=
    add_feasibility_to_gdf sample_gdf [sample_criterion "AD" 20 60 1] "AND" in
  has_column scored "feasibility" = true /\
  scored_unit sample_unit1 (Fin 100) ∈ rows scored /\
  unit_score (scored_unit sample_unit1 (Fin 100)) <> NaN /\
  exists lo hi,
    dict_get (get_feasibility_stats scored) "min" = Some (SFloat lo) /\
    dict_get (get_feasibility_stats scored) "max" = Some (SFloat hi) /\
    (lo <= Fin 100 <= hi)%num.
Proof.
  cbv zeta.
  assert (Hc : has_column
                 (add_feasibility_to_gdf sample_gdf
                    [sample_criterion "AD" 20 60 1] "AND")
                 "feasibility" = true) by reflexivity.
  assert (Hr : scored_unit sample_unit1 (Fin 100)
               ∈ rows (add_feasibility_to_gdf sample_gdf
                         [sample_criterion "AD" 20 60 1] "AND")).
  { rewrite add_feasibility_rows. apply list_elem_of_here. }
  assert (Hs : unit_score (scored_unit sample_unit1 (Fin 100)) <> NaN)
    by discriminate.
  split; [exact Hc|]. split; [exact Hr|]. split; [exact Hs|].
  destruct (get_feasibility_stats_extremes _ _ Hc Hr Hs)
    as (lo & hi & Hstats).
  cbv zeta in Hstats. destruct Hstats as (Hlo & Hhi & _ & _ & Hb).
  exists lo, hi. split; [exact Hlo|]. split; [exact Hhi|].
  exact (Hb _ Hr Hs).
Defined.


Lemma calculate_and_get_geojson_features_witness :
  calculate_and_get_geojson sample_gdf [sample_criterion "AD" 20 60 1]
    "AND" (Some "Tinsukia") = Ok sample_response /\
  length (geojson sample_response) = len sample_gdf.
Proof.
  assert (E : calculate_and_get_geojson sample_gdf
                [sample_criterion "AD" 20 60 1] "AND" (Some "Tinsukia")
              = Ok sample_response) by reflexivity.
  split; [exact E|].
  exact (proj1 (calculate_and_get_geojson_features _ _ _ _ _ E)).
Defined.


Lemma calculate_and_get_geojson_total_blocks_witness :
  calculate_and_get_geojson sample_gdf [sample_criterion "AD" 20 60 1]
    "AND" (Some "Tinsukia") = Ok sample_response /\
  exists n,
    dict_get (statistics sample_response) "total_blocks" = Some (SInt n) /\
    (0 <= n <= 3)%Z.
Proof.
  assert (E : calculate_and_get_geojson sample_gdf
                [sample_criterion "AD" 20 60 1] "AND" (Some "Tinsukia")
              = Ok sample_response) by reflexivity.
  split; [exact E|].
  destruct (calculate_and_get_geojson_total_blocks _ _ _ _ _ E)
    as (n & Hn & Hb & _).
  exists n. split; [exact Hn|]. exact Hb.
Defined.

Lemma get_interventions_keys_witness :
  @load_metadata metadata_data_dir = Ok (strip_columns sample_metadata) /\
  forallb ascii_text (columns (strip_columns sample_metadata)) = true /\
  forallb ascii_cell (get_column (strip_columns sample_metadata) "Cluster")
    = true /\
  column_count (strip_columns sample_metadata) "Cluster" = 1%nat /\
  exists interventions,
    @get_interventions sample_pandas metadata_data_dir = Ok interventions /\
    "Organic Farming" ∈ dict_keys interventions /\
    NoDup (dict_keys interventions).
Proof.
  assert (Hl : @load_metadata metadata_data_dir
               = Ok (strip_columns sample_metadata)) by reflexivity.
  assert (Ha : forallb ascii_text (columns (strip_columns sample_metadata))
               = true) by reflexivity.
  assert (Hb : forallb ascii_cell
                 (get_column (strip_columns sample_metadata) "Cluster")
               = true) by (vm_compute; reflexivity).
  assert (Hc : column_count (strip_columns sample_metadata) "Cluster"
               = 1%nat) by reflexivity.
  split; [exact Hl|]. split; [exact Ha|]. split; [exact Hb|].
  split; [exact Hc|].
  destruct (@get_interventions_keys sample_pandas metadata_data_dir _
              Hl Ha Hb) as [Hone _].
  destruct (Hone Hc) as (interventions & Hi & Hk & Hn & _).
  exists interventions. split; [exact Hi|]. split; [|exact Hn].
  apply Hk. exists "Organic Farming ".
  split; [|split; reflexivity].
  apply (list_elem_of_lookup_2 _ 0%nat). reflexivity.
Defined.


(** ** Names and groups, computed *)

(** A name that mentions goatery is grouped with the livestock, a name that
    mentions farming with the activities. *)
Example scenario_categorize :
  categorize_gp_variable "Goatery_Units" = "Livestock" /\
  categorize_gp_variable "Organic_Farming" = "Activities" /\
  categorize_gp_variable "SHGs_total" = "Collectives".
Proof. repeat split; reflexivity. Qed.

(** The two spellings of one cluster give one intervention, the
    placeholder row none; the group of a code is found whatever the
    padding. *)
Example scenario_metadata :
  (exists interventions,
     @get_interventions sample_pandas metadata_data_dir = Ok interventions /\
     dict_keys interventions = ["Organic Farming"]) /\
  get_variable_group (strip_columns sample_metadata) (CStr " AD ") = "Soil" /\
  get_variable_group (strip_columns sample_metadata) (CStr "Z") = "Other".
Proof. split; [eexists; split; reflexivity|split; reflexivity]. Qed.

(** Column statistics: the sample table has numbers 40 and 80 in [AD]; with
    no file in the data directory the block level raises
    [FileNotFoundError] and the GP level [AttributeError]. *)
Example scenario_column_stats :
  column_stats sample_gdf "AD"
    = [("min", SFloat (Fin 40)); ("max", SFloat (Fin 80));
       ("mean", SFloat (Fin 60))] /\
  column_stats sample_gdf "ZZ"
    = [("min", SInt 0); ("max", SInt 100); ("mean", SInt 50)] /\
  get_column_stats "AD" "block"
    = Raises (FileNotFoundError "Shapefile not found at data/4DSS_VAR_2.0.shp") /\
  get_column_stats "AD" "gp"
    = RaisesAttributeError "'NoneType' object has no attribute 'columns'".
Proof. repeat split; reflexivity. Qed.
